(** * Content metrics pipeline of the AI-vs-human content dashboard

    A shallow embedding of the data pipeline shared by [dashboard.py]
    ([load_dataset] and the filter block of [main]) and
    [dashboard_analysis_report.py] ([load_and_analyze_data]), together with
    the properties of the pipeline that the specification states.

    The pipeline is written against pandas.  The pandas operations it calls
    are embedded here as functions on a small model of a data frame:

    - a cell is a missing value ([NaN], which also stands for [NaT] and
      [None]), an integer count, a string or a timestamp at midnight;
    - a record maps column labels to cells; a data frame is the list of its
      column labels and the list of its records, each with its row label;
    - a series is the list of the cells of one column, in row order.

    An exception of Python is the [None] of an option.

    The model has three limits, and a property that depends on one of them
    says so in its hypotheses.

    - Numbers.  A count is an integer.  numpy holds a column of counts as
      [int64], which wraps around beyond 2^63, and, as soon as a value of
      the column is missing, as [float64], which holds the integers up to
      2^53 and rounds beyond.  Up to 2^53 both are the arithmetic of the
      integers, and that is the arithmetic of the model: [exact_count] and
      [magnitude] below say when a frame stays within it.  A mean is the
      exact quotient, not the float that holds it.
    - Text.  A string is a sequence of bytes, and case, white space and
      digits are those of ASCII.  Python works on code points: on text with
      other characters [strip], [title] and the date format do more than
      the model ([is_ascii] below).
    - The library.  The repository does not say which pandas it runs on.
      From pandas 3 on [astype(str)] keeps a missing value missing, and a
      date need not fit a nanosecond timestamp.  The model follows both
      pandas 2 and pandas 3: [installed] is the one at hand.

    data.py, the script that cleans the same file with the same calls at
    module level, is embedded after the pipeline, for comparison. *)

From Stdlib Require Import ZArith QArith Qcanon Ascii String.
From stdpp Require Import base option list strings gmap sorting pretty.

Local Open Scope Z_scope.
Local Open Scope string_scope.

(** ** Cells *)

Record date := Date { year : nat; month : nat; day : nat }.

Inductive cell :=
  | NaN
  | Int (z : Z)
  | Str (s : string)
  | Timestamp (d : date).

#[global] Instance date_eq_dec : EqDecision date.
Proof. solve_decision. Defined.

#[global] Instance cell_eq_dec : EqDecision cell.
Proof. solve_decision. Defined.

(** [pd.isna] on one cell. *)
Definition isna (c : cell) : bool :=
  match c with NaN => true | _ => false end.

(** ** The library *)

Inductive pandas := pandas_2 | pandas_3.
Existing Class pandas.

(** ** The numbers and the text that the model follows *)

(** An integer that [int64] and [float64] both hold as it is. *)
Definition exact_count (z : Z) : Prop := (Z.abs z ≤ 2 ^ 53)%Z.

(** Text on which Python and the model agree. *)
Fixpoint is_ascii (s : string) : bool :=
  match s with
  | String c s' => (nat_of_ascii c <? 128)%nat && is_ascii s'
  | EmptyString => true
  end.

(** The sum of the absolute values of the counts of a series.  No sum of
    cells of the series is further from zero, in whatever order they are
    added: while it is at most 2^53 the sums are those of the integers. *)
Definition magnitude (s : list cell) : Z :=
  foldr (λ c acc, match c with Int z => Z.abs z + acc | _ => acc end) 0 s.

Definition exact_series (s : list cell) : Prop := (magnitude s ≤ 2 ^ 53)%Z.

(** A cell of a text column as [pd.read_csv] reads it, in ASCII. *)
Definition ascii_text (c : cell) : bool :=
  match c with Str s => is_ascii s | NaN => true | Int _ | Timestamp _ => false end.

(** ** Calendar dates *)

Definition is_leap (y : nat) : bool :=
  ((y mod 4 =? 0) && negb (y mod 100 =? 0) || (y mod 400 =? 0))%nat.

Definition days_in_month (y m : nat) : nat :=
  match m with
  | 1 | 3 | 5 | 7 | 8 | 10 | 12 => 31
  | 4 | 6 | 9 | 11 => 30
  | 2 => if is_leap y then 29 else 28
  | _ => 0
  end%nat.

(** Chronological order is the lexicographic order of (year, month, day). *)
Definition date_leb (a b : date) : bool :=
  ((year a <? year b)
   || (year a =? year b) && ((month a <? month b)
                             || (month a =? month b) && (day a <=? day b)))%nat.

(** The range of a nanosecond timestamp, for a time of day of midnight:
    [pd.Timestamp.min] is in the night of 1677-09-21 and [pd.Timestamp.max]
    in the evening of 2262-04-11. *)
Definition Timestamp_min : date := Date 1677 9 22.
Definition Timestamp_max : date := Date 2262 4 11.

Section library.
Context {installed : pandas}.

(** The dates that [pd.to_datetime] holds.  pandas 2 makes nanosecond
    timestamps of them; pandas 3 chooses the unit by the format, and holds
    every date of the calendar of Python, whose years go from 1 to 9999. *)
Definition in_timestamp_range (d : date) : bool :=
  match installed with
  | pandas_2 => date_leb Timestamp_min d && date_leb d Timestamp_max
  | pandas_3 => ((1 <=? year d) && (year d / 1000 <? 10))%nat
  end.

Definition valid_date (d : date) : bool :=
  ((1 <=? month d) && (month d <=? 12) && (1 <=? day d)
   && (day d <=? days_in_month (year d) (month d)))%nat
  && in_timestamp_range d.

(** ** Characters and strings, as Python sees them on ASCII *)

Definition code (c : ascii) : nat := nat_of_ascii c.

Definition is_digit (c : ascii) : bool := ((48 <=? code c) && (code c <=? 57))%nat.
Definition digit_value (c : ascii) : nat := (code c - 48)%nat.

Definition is_upper (c : ascii) : bool := ((65 <=? code c) && (code c <=? 90))%nat.
Definition is_lower (c : ascii) : bool := ((97 <=? code c) && (code c <=? 122))%nat.
Definition is_cased (c : ascii) : bool := is_upper c || is_lower c.

Definition to_upper (c : ascii) : ascii :=
  if is_lower c then ascii_of_nat (code c - 32) else c.
Definition to_lower (c : ascii) : ascii :=
  if is_upper c then ascii_of_nat (code c + 32) else c.

(** [str.isspace] on one character of ASCII: tab, line feed, vertical tab,
    form feed, carriage return, the four separators 28 to 31, and the
    space.  Python has more white space beyond ASCII. *)
Definition is_space (c : ascii) : bool :=
  ((9 <=? code c) && (code c <=? 13) || (28 <=? code c) && (code c <=? 32))%nat.

Fixpoint lstrip (s : string) : string :=
  match s with
  | String c s' => if is_space c then lstrip s' else s
  | EmptyString => EmptyString
  end.

(** Drops the white space at the end: the tail is stripped first, and a
    space in front of an empty remainder goes as well. *)
Fixpoint rstrip (s : string) : string :=
  match s with
  | String c s' =>
      match rstrip s' with
      | EmptyString => if is_space c then EmptyString else String c EmptyString
      | t => String c t
      end
  | EmptyString => EmptyString
  end.

(** [str.strip()] *)
Definition strip (s : string) : string := rstrip (lstrip s).

(** [str.title()]: a cased character is put in upper case when the character
    before it is not cased, in lower case when it is.  The cased characters
    are the letters of ASCII; on other letters Python changes case as
    Unicode has it, and a text can grow. *)
Fixpoint title_from (previous_is_cased : bool) (s : string) : string :=
  match s with
  | String c s' =>
      String (if previous_is_cased then to_lower c else to_upper c)
             (title_from (is_cased c) s')
  | EmptyString => EmptyString
  end.

Definition title (s : string) : string := title_from false s.

(** ** [strptime] with the format [%d-%m-%Y]

    pandas turns the format into a regular expression and matches it
    against the whole value:
    - [%d] is [3[0-1]|[1-2]\d|0[1-9]|[1-9]| [1-9]],
    - [%m] is [1[0-2]|0[1-9]|[1-9]],
    - [%Y] is [\d\d\d\d].
    A directive is embedded as the list of its matches at the head of the
    input, in the order in which the alternatives are tried, each with the
    rest of the input: trying them in turn is the backtracking of the
    matcher. *)

Definition in_range (lo hi : nat) (c : ascii) : bool :=
  ((lo <=? code c) && (code c <=? hi))%nat.

(** One alternative made of two character classes. *)
Definition two_chars (p1 p2 : ascii → bool) (s : string) : list (nat * string) :=
  match s with
  | String a (String b r) =>
      if p1 a && p2 b then [((10 * digit_value a + digit_value b)%nat, r)] else []
  | _ => []
  end.

(** One alternative made of one character class. *)
Definition one_char (p : ascii → bool) (s : string) : list (nat * string) :=
  match s with
  | String a r => if p a then [(digit_value a, r)] else []
  | _ => []
  end.

(** The alternative [ [1-9]] of [%d]: a space, then one digit. *)
Definition space_digit (s : string) : list (nat * string) :=
  match s with
  | String a (String b r) =>
      if (code a =? 32)%nat && in_range 49 57 b then [(digit_value b, r)] else []
  | _ => []
  end.

Definition directive_d (s : string) : list (nat * string) :=
  two_chars (in_range 51 51) (in_range 48 49) s
  ++ two_chars (in_range 49 50) is_digit s
  ++ two_chars (in_range 48 48) (in_range 49 57) s
  ++ one_char (in_range 49 57) s
  ++ space_digit s.

Definition directive_m (s : string) : list (nat * string) :=
  two_chars (in_range 49 49) (in_range 48 50) s
  ++ two_chars (in_range 48 48) (in_range 49 57) s
  ++ one_char (in_range 49 57) s.

Definition directive_Y (s : string) : list (nat * string) :=
  match s with
  | String a (String b (String c (String d r))) =>
      if is_digit a && is_digit b && is_digit c && is_digit d
      then [((1000 * digit_value a + 100 * digit_value b
              + 10 * digit_value c + digit_value d)%nat, r)]
      else []
  | _ => []
  end.

(** The literal [-] of the format. *)
Definition dash (s : string) : list string :=
  match s with
  | String a r => if (code a =? 45)%nat then [r] else []
  | _ => []
  end.

(** The matches of the whole expression at the head of the value, each
    with what it leaves of the value. *)
Definition match_dmy (s : string) : list (date * string) :=
  '(d, s1) ← directive_d s;
  s2 ← dash s1;
  '(m, s3) ← directive_m s2;
  s4 ← dash s3;
  '(y, s5) ← directive_Y s4;
  [(Date y m d, s5)].

(** The date of a value, or [None] where pandas raises: no match, a first
    match that stops before the end of the value, a day that the month does
    not have, or a date out of the timestamp range. *)
Definition strptime_dmy (s : string) : option date :=
  match match_dmy s with
  | (d, EmptyString) :: _ => if valid_date d then Some d else None
  | _ => None
  end.


(** What [strip] removes and what it leaves, as predicates. *)
Fixpoint all_space (s : string) : bool :=
  match s with
  | String c s' => is_space c && all_space s'
  | EmptyString => true
  end.

Definition starts_with_space (s : string) : bool :=
  match s with String c _ => is_space c | EmptyString => false end.

Fixpoint ends_with_space (s : string) : bool :=
  match s with
  | String c EmptyString => is_space c
  | String _ s' => ends_with_space s'
  | EmptyString => false
  end.

(** [strftime] with the same format.  The fields of a timestamp have at
    most two and four digits, and are padded with zeros. *)
Definition digit_char (n : nat) : ascii := ascii_of_nat (48 + n).

Definition pad2 (n : nat) : string :=
  String (digit_char (n / 10 mod 10)) (String (digit_char (n mod 10)) "").

Definition pad4 (n : nat) : string :=
  String (digit_char (n / 1000 mod 10))
    (String (digit_char (n / 100 mod 10))
       (String (digit_char (n / 10 mod 10)) (String (digit_char (n mod 10)) ""))).

Definition strftime_dmy (d : date) : string :=
  pad2 (day d) +:+ "-" +:+ pad2 (month d) +:+ "-" +:+ pad4 (year d).

(** ** Data frames *)

Record DataFrame := mkDataFrame {
  columns : list string;
  records : list (nat * gmap string cell)
}.

#[global] Instance DataFrame_eq_dec : EqDecision DataFrame.
Proof. solve_decision. Defined.

(** The cell of a record under a column label.  Every record of a data
    frame has a cell for every column ([well_formed] below); a label without
    a cell reads as missing. *)
Definition cell_of (r : gmap string cell) (name : string) : cell :=
  default NaN (r !! name).

Definition well_formed (df : DataFrame) : Prop :=
  ∀ i r, (i, r) ∈ records df → ∀ name, name ∈ columns df ↔ is_Some (r !! name).

(** [df[name]]: the series of a column. *)
Definition getitem (name : string) (df : DataFrame) : list cell :=
  (λ ir, cell_of ir.2 name) <$> records df.

(** [df[name] = series]: the column is replaced where it is, or added after
    the last column. *)
Definition setitem (name : string) (series : list cell) (df : DataFrame) : DataFrame :=
  {| columns := if bool_decide (name ∈ columns df) then columns df
                else columns df ++ [name];
     records := zip_with (λ ir v, (ir.1, <[name := v]> ir.2)) (records df) series |}.

(** [set(names).issubset(df.columns)] *)
Definition issubset (names cols : list string) : bool :=
  forallb (λ n, bool_decide (n ∈ cols)) names.

(** ** Series operations *)

(** [pd.to_datetime(series, format="%d-%m-%Y", errors="coerce")]: what does
    not parse is [NaT]. *)
Definition to_datetime_cell (c : cell) : cell :=
  match c with
  | Str s => match strptime_dmy s with Some d => Timestamp d | None => NaN end
  | Timestamp d => Timestamp d
  | Int _ | NaN => NaN
  end.

Definition to_datetime (s : list cell) : list cell := to_datetime_cell <$> s.

(** [str(value)] of Python.  The text of a count is that of an [int]: in
    a column that numpy holds as [float64] the code writes a count with a
    decimal point, which the model does not follow. *)
Definition str_of_cell (c : cell) : string :=
  match c with
  | NaN => "nan"
  | Int z => pretty z
  | Str s => s
  | Timestamp d => pad4 (year d) +:+ "-" +:+ pad2 (month d) +:+ "-" +:+ pad2 (day d)
  end.

(** [series.astype(str)] on one cell: the text of the value.  Up to
    pandas 2 a missing value becomes the text [nan]; from pandas 3 on it
    stays missing. *)
Definition astype_str_cell (c : cell) : cell :=
  match c with
  | NaN => match installed with pandas_2 => Str "nan" | pandas_3 => NaN end
  | _ => Str (str_of_cell c)
  end.

Definition astype_str (s : list cell) : list cell := astype_str_cell <$> s.

(** The [.str] accessor applies a string method to the strings of a series
    and leaves [NaN] for everything else. *)
Definition str_cell (f : string → string) (c : cell) : cell :=
  match c with Str x => Str (f x) | _ => NaN end.

Definition str_method (f : string → string) (s : list cell) : list cell :=
  str_cell f <$> s.

Definition str_strip : list cell → list cell := str_method strip.
Definition str_title : list cell → list cell := str_method title.

(** [series.fillna(value)] *)
Definition fillna (value : cell) (s : list cell) : list cell :=
  (λ c, if isna c then value else c) <$> s.

(** [a + b] on two cells, [None] for Python's [TypeError].  The sum of two
    counts is that of the integers: it is the sum of numpy while the counts
    and the sum stay within 2^53 ([exact_score]). *)
Definition add_cell (a b : cell) : option cell :=
  match a, b with
  | Int x, Int y => Some (Int (x + y))
  | NaN, (NaN | Int _) | Int _, NaN => Some NaN
  | Str x, Str y => Some (Str (x +:+ y))
  | _, _ => None
  end.

Fixpoint repeat_string (n : nat) (s : string) : string :=
  match n with O => "" | S n' => s +:+ repeat_string n' s end.

(** [a * k] for an integer [k]: a string is repeated, and the product of a
    count is that of the integers, as for the sum. *)
Definition mul_cell (k : Z) (a : cell) : option cell :=
  match a with
  | Int x => Some (Int (x * k))
  | NaN => Some NaN
  | Str s => Some (Str (repeat_string (Z.to_nat k) s))
  | Timestamp _ => None
  end.

(** [a + b] on two series of one frame, cell by cell. *)
Definition series_add (a b : list cell) : option (list cell) :=
  mapM (λ p, add_cell p.1 p.2) (zip a b).

(** [a * k] *)
Definition series_mul (a : list cell) (k : Z) : option (list cell) :=
  mapM (mul_cell k) a.

(** ** Duplicates and the index *)

(** [df.duplicated()]: a record is marked when its cells are those of a
    record seen before it; row labels are not compared. *)
Fixpoint duplicated_from (seen : list (gmap string cell))
    (l : list (nat * gmap string cell)) : list bool :=
  match l with
  | [] => []
  | ir :: l' => bool_decide (ir.2 ∈ seen) :: duplicated_from (ir.2 :: seen) l'
  end.

Definition duplicated (df : DataFrame) : list bool := duplicated_from [] (records df).

(** [df.loc[mask]]: the records whose mark is [true], labels kept. *)
Fixpoint select {A} (mask : list bool) (l : list A) : list A :=
  match mask, l with
  | b :: mask', x :: l' => if b then x :: select mask' l' else select mask' l'
  | _, _ => []
  end.

Definition loc (mask : list bool) (df : DataFrame) : DataFrame :=
  {| columns := columns df; records := select mask (records df) |}.

(** [df.drop_duplicates()] keeps the records that are not marked. *)
Definition drop_duplicates (df : DataFrame) : DataFrame :=
  loc (negb <$> duplicated df) df.

(** [df.reset_index(drop=True)]: the labels become 0, 1, 2, ... *)
Definition reset_index (df : DataFrame) : DataFrame :=
  {| columns := columns df; records := imap (λ i ir, (i, ir.2)) (records df) |}.

(** ** [load_dataset] of dashboard.py; the cleaning block of
    [load_and_analyze_data] in dashboard_analysis_report.py is the same
    text.  The argument is the frame that [pd.read_csv] returned. *)

Definition parse_dates (df : DataFrame) : DataFrame :=
  if bool_decide ("Date" ∈ columns df)
  then setitem "Date" (to_datetime (getitem "Date" df)) df
  else df.

Definition normalize_author_type (df : DataFrame) : DataFrame :=
  if bool_decide ("Author_Type" ∈ columns df)
  then setitem "Author_Type"
         (str_title (str_strip (astype_str (getitem "Author_Type" df)))) df
  else df.

Definition engagement_score (df : DataFrame) : option (list cell) :=
  comments2 ← series_mul (fillna (Int 0) (getitem "Comments" df)) 2;
  likes_comments ← series_add (fillna (Int 0) (getitem "Likes" df)) comments2;
  shares3 ← series_mul (fillna (Int 0) (getitem "Shares" df)) 3;
  series_add likes_comments shares3.

Definition recompute_engagement (df : DataFrame) : option DataFrame :=
  if issubset ["Likes"; "Comments"; "Shares"] (columns df)
  then score ← engagement_score df; Some (setitem "Engagement_Score" score df)
  else Some df.

Definition load_dataset (df : DataFrame) : option DataFrame :=
  df ← recompute_engagement (normalize_author_type (parse_dates df));
  Some (reset_index (drop_duplicates df)).

(** ** The filter block of [main] in dashboard.py

    [start_date] and [end_date] are what [st.date_input] returned ([None]
    when the frame has no usable date), the two selections what the
    [st.multiselect] widgets returned. *)

(** [series >= pd.Timestamp(t)] and [series <= pd.Timestamp(t)]: a missing
    date compares false; a cell that is no date makes pandas raise. *)
Definition compare_timestamp (op : date → date → bool) (t : date) (c : cell) : option bool :=
  match c with
  | Timestamp d => Some (op d t)
  | NaN => Some false
  | Int _ | Str _ => None
  end.

Definition series_ge (s : list cell) (t : date) : option (list bool) :=
  mapM (compare_timestamp (λ d t, date_leb t d) t) s.

Definition series_le (s : list cell) (t : date) : option (list bool) :=
  mapM (compare_timestamp date_leb t) s.

(** [a & b] on two masks. *)
Definition mask_and (a b : list bool) : list bool := zip_with andb a b.

(** [series.isin(values)] *)
Definition isin (s : list cell) (values : list cell) : list bool :=
  (λ c, bool_decide (c ∈ values)) <$> s.

(** Python's truth value of a list. *)
Definition truthy {A} (l : list A) : bool :=
  match l with [] => false | _ :: _ => true end.

Definition filter_date_range (start_date end_date : option date) (df : DataFrame)
    : option DataFrame :=
  match start_date, end_date with
  | Some s, Some e =>
      if bool_decide ("Date" ∈ columns df)
      then ge ← series_ge (getitem "Date" df) s;
           le ← series_le (getitem "Date" df) e;
           Some (loc (mask_and ge le) df)
      else Some df
  | _, _ => Some df
  end.

Definition filter_isin (name : string) (selected : list cell) (df : DataFrame) : DataFrame :=
  if truthy selected && bool_decide (name ∈ columns df)
  then loc (isin (getitem name df) selected) df
  else df.

Definition apply_filters (start_date end_date : option date)
    (selected_author_types selected_content_types : list cell)
    (df : DataFrame) : option DataFrame :=
  filtered ← filter_date_range start_date end_date df;
  Some (filter_isin "Content_Type" selected_content_types
          (filter_isin "Author_Type" selected_author_types filtered)).

(** A cell of a [datetime64] column: a timestamp or [NaT]. *)
Definition is_datetime (c : cell) : bool :=
  match c with Timestamp _ | NaN => true | Int _ | Str _ => false end.

(** The Date column has the type that [load_dataset] gives it. *)
Definition datetime_column (df : DataFrame) : Prop :=
  Forall (λ ir, is_datetime (cell_of ir.2 "Date") = true) (records df).

(** A date cell within the bounds, both included. *)
Definition in_date_range (s e : date) (c : cell) : bool :=
  match c with
  | Timestamp d => date_leb s d && date_leb d e
  | _ => false
  end.

(** ** Grouping and reduction

    [df.groupby(keys)[metric].agg()], as the charts of dashboard.py and the
    report call it with [mean] and [sum]. *)

(** The order in which group keys are sorted: counts before strings before
    dates, each kind in its own order. *)
Definition cell_leb (a b : cell) : bool :=
  match a, b with
  | NaN, _ => true
  | Int x, Int y => (x <=? y)%Z
  | Int _, (Str _ | Timestamp _) => true
  | Str x, Str y => String.leb x y
  | Str _, Timestamp _ => true
  | Timestamp x, Timestamp y => date_leb x y
  | _, _ => false
  end.

Fixpoint key_leb (a b : list cell) : bool :=
  match a, b with
  | [], _ => true
  | _ :: _, [] => false
  | x :: a', y :: b' =>
      if decide (x = y) then key_leb a' b' else cell_leb x y
  end.

(** The key of a record: its cells under the grouping columns. *)
Definition key_of (keys : list string) (r : gmap string cell) : list cell :=
  cell_of r <$> keys.

Definition notna_key (k : list cell) : bool := forallb (λ c, negb (isna c)) k.

(** The groups of a frame: the distinct keys of its records, a record with
    a missing key cell left out ([dropna=True]), sorted ([sort=True]). *)
Definition group_keys (keys : list string) (df : DataFrame) : list (list cell) :=
  merge_sort (λ a b, key_leb a b)
    (remove_dups (filter (λ k, notna_key k) ((λ ir, key_of keys ir.2) <$> records df))).

(** The cells of the metric column in the records of one group. *)
Definition group_values (keys : list string) (metric : string) (k : list cell)
    (df : DataFrame) : list cell :=
  (λ ir, cell_of ir.2 metric)
    <$> filter (λ ir, key_of keys ir.2 = k) (records df).

Definition groupby_agg {R} (keys : list string) (metric : string)
    (agg : list cell → R) (df : DataFrame) : list (list cell * R) :=
  (λ k, (k, agg (group_values keys metric k df))) <$> group_keys keys df.

(** The counts of a series without its missing cells; [None] when a cell
    that is not missing is no count. *)
Definition counts_of (s : list cell) : option (list Z) :=
  mapM (λ c, match c with Int z => Some z | _ => None end)
       (filter (λ c, negb (isna c)) s).

(** [series.sum()], the sum of the integers: that of numpy on a series whose
    magnitude is at most 2^53 ([exact_series]). *)
Definition series_sum (s : list cell) : option Z :=
  vs ← counts_of s; Some (foldr Z.add 0 vs).

(** [series.mean()]: the inner [None] is the [NaN] of a series with no
    count in it. *)
Definition series_mean (s : list cell) : option (option Qc) :=
  vs ← counts_of s;
  Some (match vs with
        | [] => None
        | _ :: _ => Some (Q2Qc (foldr Z.add 0 vs # Pos.of_nat (length vs)))
        end).

(** ** The pipeline, record by record

    [load_dataset] works on whole columns.  What it does to one record is
    written out here, and proved below to be what the column operations do. *)

Definition fill0 (c : cell) : cell := if isna c then Int 0 else c.

Definition score_cell (r : gmap string cell) : option cell :=
  comments2 ← mul_cell 2 (fill0 (cell_of r "Comments"));
  likes_comments ← add_cell (fill0 (cell_of r "Likes")) comments2;
  shares3 ← mul_cell 3 (fill0 (cell_of r "Shares"));
  add_cell likes_comments shares3.

Definition clean_author (c : cell) : cell :=
  str_cell title (str_cell strip (astype_str_cell c)).

Definition dated_record (cols : list string) (r : gmap string cell) : gmap string cell :=
  if bool_decide ("Date" ∈ cols)
  then <["Date" := to_datetime_cell (cell_of r "Date")]> r else r.

Definition authored_record (cols : list string) (r : gmap string cell) : gmap string cell :=
  if bool_decide ("Author_Type" ∈ cols)
  then <["Author_Type" := clean_author (cell_of r "Author_Type")]> r else r.

Definition scored_record (cols : list string) (r : gmap string cell)
    : option (gmap string cell) :=
  if issubset ["Likes"; "Comments"; "Shares"] cols
  then v ← score_cell r; Some (<["Engagement_Score" := v]> r)
  else Some r.

Definition clean_record (cols : list string) (r : gmap string cell)
    : option (gmap string cell) :=
  scored_record cols (authored_record cols (dated_record cols r)).

Definition clean_columns (cols : list string) : list string :=
  if issubset ["Likes"; "Comments"; "Shares"] cols
  then (if bool_decide ("Engagement_Score" ∈ cols) then cols
        else cols ++ ["Engagement_Score"])
  else cols.

(** The sum of the score is defined on every record. *)
Definition scores_defined (df : DataFrame) : Prop :=
  ∀ i r, (i, r) ∈ records df → is_Some (score_cell r).

(** The frame before the duplicates are dropped. *)
Definition cleaned (df : DataFrame) : option DataFrame :=
  recompute_engagement (normalize_author_type (parse_dates df)).

(** The records that [drop_duplicates] keeps, given the cells seen so far. *)
Definition kept_from (seen : list (gmap string cell))
    (l : list (nat * gmap string cell)) : list (nat * gmap string cell) :=
  select (negb <$> duplicated_from seen l) l.

(** The record at position [p] is a first occurrence when no record before
    it has the same cells. *)
Definition is_first_occurrence (l : list (nat * gmap string cell)) (p : nat) : bool :=
  match l !! p with
  | Some ir => forallb (λ jr, bool_decide (jr.2 ≠ ir.2)) (take p l)
  | None => false
  end.

(** The cells of the first occurrences, in the order of the frame. *)
Definition first_occurrences (l : list (nat * gmap string cell))
    : list (gmap string cell) :=
  (λ pir, pir.2.2)
    <$> filter (λ pir, is_first_occurrence l pir.1 = true) (imap pair l).

(** The number of distinct records of a frame, labels apart. *)
Definition distinct_records (df : DataFrame) : nat :=
  length (remove_dups (snd <$> records df)).

(** The size of the result as the specification words it: as many records
    as the input has distinct records. *)
Definition size_as_specified (df : DataFrame) : Prop :=
  ∀ out, load_dataset df = Some out → length (records out) = distinct_records df.

(** The author types of the result as the specification words them: none
    is missing. *)
Definition author_types_as_specified (df : DataFrame) : Prop :=
  ∀ out, load_dataset df = Some out →
    ∀ k r', (k, r') ∈ records out → isna (cell_of r' "Author_Type") = false.

(** A count or a missing value, as a cell. *)
Definition count_cell (o : option Z) : cell := from_option Int NaN o.

(** The value of a count in the score: zero when it is missing. *)
Definition count_or_zero (o : option Z) : Z := default 0 o.


(** A frame whose scores, and the sums of its scores, are those of the
    integers. *)
Definition exact_totals (df : DataFrame) : Prop :=
  (magnitude (getitem "Likes" df) + 2 * magnitude (getitem "Comments" df)
   + 3 * magnitude (getitem "Shares" df) ≤ 2 ^ 53)%Z.

(** A date cell that [pd.to_datetime] cannot read. *)
Definition unparseable (c : cell) : bool :=
  match c with
  | Str s => bool_decide (strptime_dmy s = None)
  | _ => false
  end.

(** The records with such a date as the specification words them: none is
    dropped, so that the result has a record without a date for each of
    them, records with the same cells counting once. *)
Definition unparseable_as_specified (df : DataFrame) : Prop :=
  ∀ out, load_dataset df = Some out →
    (length (remove_dups
               (filter (λ r, unparseable (cell_of r "Date") = true) (snd <$> records df)))
     ≤ length (filter (λ r, isna (cell_of r "Date") = true) (snd <$> records out)))%nat.

(** ** The pivot of a grouped series

    [series.unstack()] on the result of grouping by two keys, as the report
    applies it: a table with a line for each first key and a column for each
    second key, and no value where the pair of keys has no group. *)
Definition unstack {R} (grouped : list (list cell * R))
    : list (cell * list (cell * option R)) :=
  let firsts := remove_dups (omap (λ kv, kv.1 !! 0%nat) grouped) in
  let seconds :=
    merge_sort (λ a b, cell_leb a b) (remove_dups (omap (λ kv, kv.1 !! 1%nat) grouped)) in
  (λ a, (a, (λ b, (b, snd <$> head (filter (λ kv, kv.1 = [a; b]) grouped)))
              <$> seconds))
    <$> firsts.

(** ** The script data.py

    The script cleans its frame at module level, with the same library calls
    in another order and without the guards of [load_dataset]: a column that
    is not there is a [KeyError], a date that does not parse is a
    [ValueError], the duplicates go before the cells are cleaned and the
    labels stay as they are. *)

(** [df[name]] where the label has to be there. *)
Definition getitem_strict (name : string) (df : DataFrame) : option (list cell) :=
  if bool_decide (name ∈ columns df) then Some (getitem name df) else None.

(** [pd.to_datetime(series, format="%d-%m-%Y")], which raises on the first
    value that does not parse. *)
Definition to_datetime_strict (s : list cell) : option (list cell) :=
  mapM (λ c, match c with
             | Str x => Timestamp <$> strptime_dmy x
             | Timestamp d => Some (Timestamp d)
             | NaN => Some NaN
             | Int _ => None
             end) s.

Definition data_cleaning (df : DataFrame) : option DataFrame :=
  dates ← getitem_strict "Date" df;
  dates ← to_datetime_strict dates;
  let df := setitem "Date" dates df in
  let df := drop_duplicates df in
  authors ← getitem_strict "Author_Type" df;
  let df := setitem "Author_Type" (str_title (str_strip authors)) df in
  likes ← getitem_strict "Likes" df;
  comments ← getitem_strict "Comments" df;
  comments2 ← series_mul comments 2;
  likes_comments ← series_add likes comments2;
  shares ← getitem_strict "Shares" df;
  shares3 ← series_mul shares 3;
  score ← series_add likes_comments shares3;
  Some (setitem "Engagement_Score" score df).

(** ** Sample frames *)

Definition record_of (l : list (string * cell)) : gmap string cell := list_to_map l.

(** Three posts, the second a copy of the first. *)
Definition sample_posts : DataFrame :=
  {| columns := ["Likes"; "Comments"; "Shares"; "Author_Type"];
     records :=
       [(0%nat, record_of [("Likes", Int 10); ("Comments", Int 2); ("Shares", Int 1);
                           ("Author_Type", Str "ai ")]);
        (1%nat, record_of [("Likes", Int 10); ("Comments", Int 2); ("Shares", Int 1);
                           ("Author_Type", Str "ai ")]);
        (2%nat, record_of [("Likes", Int 5); ("Comments", Int 0); ("Shares", Int 0);
                           ("Author_Type", Str "Human")])] |}.

Definition sample_posts_clean : DataFrame :=
  {| columns := ["Likes"; "Comments"; "Shares"; "Author_Type"; "Engagement_Score"];
     records :=
       [(0%nat, record_of [("Likes", Int 10); ("Comments", Int 2); ("Shares", Int 1);
                           ("Author_Type", Str "Ai"); ("Engagement_Score", Int 17)]);
        (1%nat, record_of [("Likes", Int 5); ("Comments", Int 0); ("Shares", Int 0);
                           ("Author_Type", Str "Human"); ("Engagement_Score", Int 5)])] |}.

(** Three posts with what a raw file can hold: a date that is no date, a
    day that February does not have, a missing author and missing counts. *)
Definition sample_raw : DataFrame :=
  {| columns := ["Date"; "Author_Type"; "Content_Type"; "Likes"; "Comments"; "Shares"];
     records :=
       [(0%nat, record_of [("Date", Str "15-03-2024"); ("Author_Type", Str "ai ");
                           ("Content_Type", Str "Blog"); ("Likes", Int 10);
                           ("Comments", Int 2); ("Shares", Int 1)]);
        (1%nat, record_of [("Date", Str "next week"); ("Author_Type", NaN);
                           ("Content_Type", Str "Video"); ("Likes", NaN);
                           ("Comments", Int 4); ("Shares", NaN)]);
        (2%nat, record_of [("Date", Str "31-02-2024"); ("Author_Type", Str " robot writer");
                           ("Content_Type", Str "Blog"); ("Likes", Int 7);
                           ("Comments", NaN); ("Shares", Int 2)])] |}.

Definition sample_raw_clean : DataFrame :=
  {| columns := ["Date"; "Author_Type"; "Content_Type"; "Likes"; "Comments"; "Shares";
                 "Engagement_Score"];
     records :=
       [(0%nat, record_of [("Date", Timestamp (Date 2024 3 15)); ("Author_Type", Str "Ai");
                           ("Content_Type", Str "Blog"); ("Likes", Int 10);
                           ("Comments", Int 2); ("Shares", Int 1);
                           ("Engagement_Score", Int 17)]);
        (1%nat, record_of [("Date", NaN); ("Author_Type", Str "Nan");
                           ("Content_Type", Str "Video"); ("Likes", NaN);
                           ("Comments", Int 4); ("Shares", NaN);
                           ("Engagement_Score", Int 8)]);
        (2%nat, record_of [("Date", NaN); ("Author_Type", Str "Robot Writer");
                           ("Content_Type", Str "Blog"); ("Likes", Int 7);
                           ("Comments", NaN); ("Shares", Int 2);
                           ("Engagement_Score", Int 13)])] |}.

(** What pandas 3 makes of the same three posts: the missing author is
    missing still. *)
Definition sample_raw_clean_3 : DataFrame :=
  {| columns := ["Date"; "Author_Type"; "Content_Type"; "Likes"; "Comments"; "Shares";
                 "Engagement_Score"];
     records :=
       [(0%nat, record_of [("Date", Timestamp (Date 2024 3 15)); ("Author_Type", Str "Ai");
                           ("Content_Type", Str "Blog"); ("Likes", Int 10);
                           ("Comments", Int 2); ("Shares", Int 1);
                           ("Engagement_Score", Int 17)]);
        (1%nat, record_of [("Date", NaN); ("Author_Type", NaN);
                           ("Content_Type", Str "Video"); ("Likes", NaN);
                           ("Comments", Int 4); ("Shares", NaN);
                           ("Engagement_Score", Int 8)]);
        (2%nat, record_of [("Date", NaN); ("Author_Type", Str "Robot Writer");
                           ("Content_Type", Str "Blog"); ("Likes", Int 7);
                           ("Comments", NaN); ("Shares", Int 2);
                           ("Engagement_Score", Int 13)])] |}.

(** Two posts that differ in their date only, and neither date is one. *)
Definition sample_undated : DataFrame :=
  {| columns := ["Date"; "Content_Type"];
     records :=
       [(0%nat, record_of [("Date", Str "next week"); ("Content_Type", Str "Blog")]);
        (1%nat, record_of [("Date", Str "someday"); ("Content_Type", Str "Blog")])] |}.

Definition sample_undated_clean : DataFrame :=
  {| columns := ["Date"; "Content_Type"];
     records := [(0%nat, record_of [("Date", NaN); ("Content_Type", Str "Blog")])] |}.

(** One post three times: twice as it is, once with the author type spelt
    the way the pipeline spells it. *)
Definition sample_respelt : DataFrame :=
  {| columns := ["Likes"; "Comments"; "Shares"; "Author_Type"];
     records :=
       [(0%nat, record_of [("Likes", Int 10); ("Comments", Int 2); ("Shares", Int 1);
                           ("Author_Type", Str "ai ")]);
        (1%nat, record_of [("Likes", Int 10); ("Comments", Int 2); ("Shares", Int 1);
                           ("Author_Type", Str "ai ")]);
        (2%nat, record_of [("Likes", Int 10); ("Comments", Int 2); ("Shares", Int 1);
                           ("Author_Type", Str "Ai")])] |}.

Definition sample_respelt_clean : DataFrame :=
  {| columns := ["Likes"; "Comments"; "Shares"; "Author_Type"; "Engagement_Score"];
     records :=
       [(0%nat, record_of [("Likes", Int 10); ("Comments", Int 2); ("Shares", Int 1);
                           ("Author_Type", Str "Ai"); ("Engagement_Score", Int 17)])] |}.

(** ** The side bar of [main] in dashboard.py

    What the widgets hold before the user touches them: the date range from
    the first to the last date of the frame, and every value of the author
    and content columns. *)

(** [series.dropna()] *)
Definition dropna (s : list cell) : list cell := filter (λ c, isna c = false) s.

(** [series.unique()]: the distinct values, in the order in which they
    first appear. *)
Fixpoint unique_from (seen s : list cell) : list cell :=
  match s with
  | [] => []
  | c :: s' =>
      if bool_decide (c ∈ seen) then unique_from seen s'
      else c :: unique_from (c :: seen) s'
  end.

Definition unique (s : list cell) : list cell := unique_from [] s.

Definition same_kind (a b : cell) : bool :=
  match a, b with
  | NaN, NaN | Int _, Int _ | Str _, Str _ | Timestamp _, Timestamp _ => true
  | _, _ => false
  end.

(** [sorted(values)]: Python cannot order a string and a number, and
    raises. *)
Definition sorted (l : list cell) : option (list cell) :=
  if forallb (λ a, forallb (same_kind a) l) l
  then Some (merge_sort (λ a b, cell_leb a b) l)
  else None.

(** [sorted(df[name].dropna().unique().tolist()) if name in df.columns else []] *)
Definition options (name : string) (df : DataFrame) : option (list cell) :=
  if bool_decide (name ∈ columns df)
  then sorted (unique (dropna (getitem name df)))
  else Some [].

(** The dates of a series of dates, the missing ones left out; [None] when
    the series holds something else, which the Date column of a frame from
    [load_dataset] never does. *)
Definition datetime_values (s : list cell) : option (list date) :=
  mapM (λ c, match c with Timestamp d => Some d | _ => None end) (dropna s).

Definition date_min (a b : date) : date := if date_leb a b then a else b.
Definition date_max (a b : date) : date := if date_leb a b then b else a.

(** [series.min()] and [series.max()]: the inner [None] is [NaT]. *)
Definition series_min (s : list cell) : option (option date) :=
  ds ← datetime_values s;
  Some (match ds with [] => None | d :: ds' => Some (foldr date_min d ds') end).

Definition series_max (s : list cell) : option (option date) :=
  ds ← datetime_values s;
  Some (match ds with [] => None | d :: ds' => Some (foldr date_max d ds') end).

(** The start and the end date of the date widget, [None] and [None]
    without a Date column or without a date in it. *)
Definition default_date_range (df : DataFrame) : option (option date * option date) :=
  if bool_decide ("Date" ∈ columns df)
  then min_date ← series_min (getitem "Date" df);
       max_date ← series_max (getitem "Date" df);
       Some (match min_date with
             | Some _ => (min_date, max_date)
             | None => (None, None)
             end)
  else Some (None, None).

(** The filter block on the widgets as they are first shown. *)
Definition default_view (df : DataFrame) : option DataFrame :=
  range ← default_date_range df;
  author_types ← options "Author_Type" df;
  content_types ← options "Content_Type" df;
  apply_filters range.1 range.2 author_types content_types df.

(** What a record has to pass to get through the filter block, constraint
    by constraint: a constraint that is not given, or whose column is not in
    the frame, lets every record through. *)
Definition passes_date (start_date end_date : option date) (cols : list string)
    (r : gmap string cell) : bool :=
  match start_date, end_date with
  | Some s, Some e =>
      if bool_decide ("Date" ∈ cols) then in_date_range s e (cell_of r "Date") else true
  | _, _ => true
  end.

Definition passes_isin (name : string) (selected : list cell) (cols : list string)
    (r : gmap string cell) : bool :=
  if truthy selected && bool_decide (name ∈ cols)
  then bool_decide (cell_of r name ∈ selected)
  else true.

Definition passes (start_date end_date : option date)
    (selected_author_types selected_content_types : list cell)
    (cols : list string) (r : gmap string cell) : bool :=
  passes_date start_date end_date cols r
  && passes_isin "Author_Type" selected_author_types cols r
  && passes_isin "Content_Type" selected_content_types cols r.

(** A cell of a text column as [pd.read_csv] reads it: a string, or missing. *)
Definition is_text (c : cell) : bool :=
  match c with Str _ | NaN => true | Int _ | Timestamp _ => false end.

(** A cell of a column of counts: a count that is not negative, or missing. *)
Definition is_count (c : cell) : bool :=
  match c with Int z => (0 <=? z)%Z | NaN => true | Str _ | Timestamp _ => false end.

(** The sum of the counts of a series, cell by cell. *)
Definition sum_counts (s : list cell) : Z :=
  foldr (λ c acc, match c with Int z => z + acc | _ => acc end) 0 s.

(** ** The indicators of [main] in dashboard.py *)


(** [float(filtered[name].sum()) if name in filtered.columns else nan] *)
Definition kpi_sum (name : string) (filtered : DataFrame) : option (option Z) :=
  if bool_decide (name ∈ columns filtered)
  then Some <$> series_sum (getitem name filtered)
  else Some None.



(** ** Reductions and groups of a column of counts *)

(** A cell of a numeric column: a count of either sign, or missing. *)
Definition is_numeric (c : cell) : bool :=
  match c with Int _ | NaN => true | Str _ | Timestamp _ => false end.

(** The records that [groupby] looks at: those with no missing cell in
    their key. *)
Definition keyed_records (keys : list string) (df : DataFrame)
    : list (nat * gmap string cell) :=
  filter (λ ir, notna_key (key_of keys ir.2) = true) (records df).

(** The count in a cell, if there is one. *)
Definition int_of (c : cell) : option Z :=
  match c with Int z => Some z | _ => None end.

(** The counts of a series, cell by cell, whatever else it holds. *)
Definition count_values (s : list cell) : list Z := omap int_of s.

(** [series.count()]: the number of cells that are not missing. *)
Definition count (s : list cell) : nat := length (dropna s).

(** The mean of [n] counts whose sum is [total]; [None] is [NaN]. *)
Definition mean_of (total : Z) (n : nat) : option Qc :=
  match n with
  | O => None
  | S _ => Some (Q2Qc (total # Pos.of_nat n))
  end.

(** [df.sort_values(name)]: ascending, the records with a missing cell
    last.  A label that is not a column is a [KeyError], cells of two kinds
    a [TypeError].  pandas does not promise an order among records with the
    same cell; the one of a stable sort is taken here. *)
Definition na_last_leb (a b : cell) : bool :=
  match a, b with
  | _, NaN => true
  | NaN, _ => false
  | _, _ => cell_leb a b
  end.

Definition sort_values (name : string) (df : DataFrame) : option DataFrame :=
  let present := dropna (getitem name df) in
  if bool_decide (name ∈ columns df)
     && forallb (λ a, forallb (same_kind a) present) present
  then Some {| columns := columns df;
               records :=
                 merge_sort (λ a b, na_last_leb (cell_of a.2 name) (cell_of b.2 name))
                   (records df) |}
  else None.

(** ** The charts of [main] in dashboard.py

    A chart is drawn when the frame has the columns it needs ([None]
    inside: no chart); what is drawn is the grouped frame, a key and a value
    for each group.  Grouping raises when the reduction of a group does. *)
Definition raise_groups {R} (groups : list (list cell * option R))
    : option (list (list cell * R)) :=
  mapM (λ kv, v ← kv.2; Some (kv.1, v)) groups.


(** The line chart: the mean engagement of each date and author type, of
    the frame sorted by date. *)
Definition trend (filtered : DataFrame)
    : option (option (list (list cell * option Qc))) :=
  if issubset ["Date"; "Author_Type"; "Engagement_Score"] (columns filtered)
  then by_date ← sort_values "Date" filtered;
       Some <$> raise_groups
                  (groupby_agg ["Date"; "Author_Type"] "Engagement_Score" series_mean
                     by_date)
  else Some None.

(** The pie chart: the total engagement of each author type. *)
Definition engagement_share (filtered : DataFrame)
    : option (option (list (list cell * Z))) :=
  if issubset ["Author_Type"; "Engagement_Score"] (columns filtered)
  then Some <$> raise_groups
                  (groupby_agg ["Author_Type"] "Engagement_Score" series_sum filtered)
  else Some None.

(** What the cleaning leaves in a record when the three components are
    columns of counts. *)
Definition scored (r : gmap string cell) : Prop :=
  is_numeric (cell_of r "Likes") = true
  ∧ is_numeric (cell_of r "Comments") = true
  ∧ is_numeric (cell_of r "Shares") = true
  ∧ cell_of r "Engagement_Score"
    = Int (count_or_zero (int_of (cell_of r "Likes"))
           + 2 * count_or_zero (int_of (cell_of r "Comments"))
           + 3 * count_or_zero (int_of (cell_of r "Shares"))).

(** The posts of [sample_raw_clean] whose content type is Blog. *)
Definition sample_blogs : DataFrame :=
  {| columns := columns sample_raw_clean;
     records :=
       [(0%nat, record_of [("Date", Timestamp (Date 2024 3 15)); ("Author_Type", Str "Ai");
                           ("Content_Type", Str "Blog"); ("Likes", Int 10);
                           ("Comments", Int 2); ("Shares", Int 1);
                           ("Engagement_Score", Int 17)]);
        (2%nat, record_of [("Date", NaN); ("Author_Type", Str "Robot Writer");
                           ("Content_Type", Str "Blog"); ("Likes", Int 7);
                           ("Comments", NaN); ("Shares", Int 2);
                           ("Engagement_Score", Int 13)])] |}.

(** ** The figures of the report

    [load_and_analyze_data] of dashboard_analysis_report.py: after the
    cleaning block, which is [load_dataset], the figures that the report
    quotes.  Here no label is guarded: a column that is not in the frame is
    a [KeyError], which the function catches, as it catches everything, to
    return [None].

    A mean is kept as the exact quotient; where the code compares two means
    it compares the floats that hold them, and [fl] stands for the rounding
    of a quotient to its float. *)

(** [df[df[name] == value]] *)
Definition where_eq (name : string) (value : cell) (df : DataFrame) : option DataFrame :=
  s ← getitem_strict name df;
  Some (loc ((λ c, bool_decide (c = value)) <$> s) df).

(** [df[name].mean()] *)
Definition column_mean (name : string) (df : DataFrame) : option (option Qc) :=
  s ← getitem_strict name df;
  series_mean s.

(** [df.groupby(keys)[metric].mean()] *)
Definition groupby_mean (keys : list string) (metric : string) (df : DataFrame)
    : option (list (list cell * option Qc)) :=
  if issubset (metric :: keys) (columns df)
  then raise_groups (groupby_agg keys metric series_mean df)
  else None.

(** [series.dt.to_period('M')]: the month of a date, held as its first
    day. *)
Definition to_period_M (c : cell) : cell :=
  match c with
  | Timestamp d => Timestamp (Date (year d) (month d) 1)
  | _ => NaN
  end.

(** The order of [sort_values(ascending=False)] on a series of means: the
    larger first, [NaN] last. *)
Definition mean_geb (fl : Qc → Qc) (a b : option Qc) : bool :=
  match a, b with
  | _, None => true
  | None, Some _ => false
  | Some x, Some y => bool_decide (fl y ≤ fl x)%Qc
  end.

(** [means.sort_values(ascending=False).head(3)].  Among equal means the
    order is that of a stable sort; pandas sorts with quicksort here and
    promises no order among them. *)
Definition head3_descending (fl : Qc → Qc) (means : list (list cell * option Qc))
    : list (list cell * option Qc) :=
  take 3 (merge_sort (λ a b, mean_geb fl a.2 b.2) means).

Record insights := mkInsights {
  total_posts : nat;
  ai_posts : nat;
  human_posts : nat;
  ai_avg_engagement : option Qc;
  human_avg_engagement : option Qc;
  ai_avg_likes : option Qc;
  human_avg_likes : option Qc;
  ai_avg_comments : option Qc;
  human_avg_comments : option Qc;
  ai_avg_shares : option Qc;
  human_avg_shares : option Qc;
  content_performance : list (cell * list (cell * option (option Qc)));
  top_content_types : list (list cell * option Qc);
  monthly_trend : option (list (cell * list (cell * option (option Qc))))
}.

(** The lines of [load_and_analyze_data] after the cleaning block. *)
Definition analyze (fl : Qc → Qc) (df : DataFrame) : option insights :=
  ai_data ← where_eq "Author_Type" (Str "Ai") df;
  human_data ← where_eq "Author_Type" (Str "Human") df;
  ai_engagement ← column_mean "Engagement_Score" ai_data;
  human_engagement ← column_mean "Engagement_Score" human_data;
  ai_likes ← column_mean "Likes" ai_data;
  human_likes ← column_mean "Likes" human_data;
  ai_comments ← column_mean "Comments" ai_data;
  human_comments ← column_mean "Comments" human_data;
  ai_shares ← column_mean "Shares" ai_data;
  human_shares ← column_mean "Shares" human_data;
  by_content_and_author ←
    groupby_mean ["Content_Type"; "Author_Type"] "Engagement_Score" df;
  by_content ← groupby_mean ["Content_Type"] "Engagement_Score" df;
  monthly ←
    (if bool_decide ("Date" ∈ columns df)
     then by_month ← groupby_mean ["Date"; "Author_Type"] "Engagement_Score"
                       (setitem "Date" (to_period_M <$> getitem "Date" df) df);
          Some (Some (unstack by_month))
     else Some None);
  Some {| total_posts := length (records df);
          ai_posts := length (records ai_data);
          human_posts := length (records human_data);
          ai_avg_engagement := ai_engagement;
          human_avg_engagement := human_engagement;
          ai_avg_likes := ai_likes;
          human_avg_likes := human_likes;
          ai_avg_comments := ai_comments;
          human_avg_comments := human_comments;
          ai_avg_shares := ai_shares;
          human_avg_shares := human_shares;
          content_performance := unstack by_content_and_author;
          top_content_types := head3_descending fl by_content;
          monthly_trend := monthly |}.

(** [load_and_analyze_data]; [csv] is what [pd.read_csv] returns for the
    first path that exists, [None] when there is no such path. *)
Definition load_and_analyze_data (fl : Qc → Qc) (csv : option DataFrame)
    : option (insights * DataFrame) :=
  raw ← csv;
  df ← load_dataset raw;
  found ← analyze fl df;
  Some (found, df).

(** ** The text of the report

    [create_analysis_report]: of the document, what depends on the data
    beyond the figures themselves. *)

(** The sentences of the report come in two versions. *)
Inductive finding := AI_outperformed | Human_outperformed.

(** [ai_engagement > human_engagement], the test of the four places where
    the report chooses its sentences; a comparison with [NaN] is false. *)
Definition outperforms (fl : Qc → Qc) (ai human : option Qc) : bool :=
  match ai, human with
  | Some a, Some h => bool_decide (fl h < fl a)%Qc
  | _, _ => false
  end.

Definition finding_of (fl : Qc → Qc) (found : insights) : finding :=
  if outperforms fl (ai_avg_engagement found) (human_avg_engagement found)
  then AI_outperformed else Human_outperformed.

(** [df["Date"].min().strftime(...)] and [df["Date"].max().strftime(...)]:
    the two dates of the time period, which are then written as month and
    year.  Without a Date column this is a [KeyError], and [NaT] has no
    [strftime]. *)
Definition time_period (df : DataFrame) : option (date * date) :=
  dates ← getitem_strict "Date" df;
  min_date ← series_min dates;
  first ← min_date;
  max_date ← series_max dates;
  last ← max_date;
  Some (first, last).

Definition create_analysis_report (fl : Qc → Qc) (found : insights) (df : DataFrame)
    : option (finding * (date * date)) :=
  period ← time_period df;
  Some (finding_of fl found, period).

(** [main] of the report script. *)
Inductive run :=
  | Failed_to_load
  | Raised
  | Saved (sentences : finding) (period : date * date).

Definition report_main (fl : Qc → Qc) (csv : option DataFrame) : run :=
  match load_and_analyze_data fl csv with
  | None => Failed_to_load
  | Some (found, df) =>
      match create_analysis_report fl found df with
      | None => Raised
      | Some (sentences, period) => Saved sentences period
      end
  end.

(** The figures of [sample_raw_clean], means compared as they are. *)
Definition sample_insights : insights :=
  {| total_posts := 3; ai_posts := 1; human_posts := 0;
     ai_avg_engagement := Some (Q2Qc (17 # 1)); human_avg_engagement := None;
     ai_avg_likes := Some (Q2Qc (10 # 1)); human_avg_likes := None;
     ai_avg_comments := Some (Q2Qc (2 # 1)); human_avg_comments := None;
     ai_avg_shares := Some (Q2Qc (1 # 1)); human_avg_shares := None;
     content_performance :=
       [(Str "Blog", [(Str "Ai", Some (Some (Q2Qc (17 # 1)))); (Str "Nan", None);
                      (Str "Robot Writer", Some (Some (Q2Qc (13 # 1))))]);
        (Str "Video", [(Str "Ai", None); (Str "Nan", Some (Some (Q2Qc (8 # 1))));
                       (Str "Robot Writer", None)])];
     top_content_types :=
       [([Str "Blog"], Some (Q2Qc (30 # 2))); ([Str "Video"], Some (Q2Qc (8 # 1)))];
     monthly_trend :=
       Some [(Timestamp (Date 2024 3 1), [(Str "Ai", Some (Some (Q2Qc (17 # 1))))])] |}.

(** Two posts whose dates are written year first. *)
Definition sample_year_first : DataFrame :=
  {| columns := ["Date"; "Author_Type"; "Content_Type"; "Likes"; "Comments"; "Shares"];
     records :=
       [(0%nat, record_of [("Date", Str "2024-03-15"); ("Author_Type", Str "AI");
                           ("Content_Type", Str "Blog"); ("Likes", Int 10);
                           ("Comments", Int 2); ("Shares", Int 1)]);
        (1%nat, record_of [("Date", Str "2024-03-16"); ("Author_Type", Str "human");
                           ("Content_Type", Str "Video"); ("Likes", Int 7);
                           ("Comments", Int 0); ("Shares", Int 2)])] |}.

End library.

(** * Properties

    Where nothing else is said, a property holds for either pandas. *)

Section any_library.
Context {installed : pandas}.

(** ** Column operations, record by record *)

Section columnwise.
Implicit Types (df : DataFrame) (r : gmap string cell) (name : string).

Lemma zip_with_fmap_same {A B C} (g : A → B → C) (h : A → B) (l : list A) :
  zip_with g l (h <$> l) = (λ x, g x (h x)) <$> l.
Proof. induction l as [|x l IH]; csimpl; [done | by f_equal]. Qed.

Lemma setitem_fmap name (g : gmap string cell → cell) df :
  records (setitem name ((λ ir, g ir.2) <$> records df) df)
  = (λ ir, (ir.1, <[name := g ir.2]> ir.2)) <$> records df.
Proof. exact (zip_with_fmap_same _ _ _). Qed.

Lemma parse_dates_columns df : columns (parse_dates df) = columns df.
Proof.
  unfold parse_dates. case_bool_decide as H; [|done].
  simpl. by rewrite bool_decide_true.
Qed.

Lemma parse_dates_records df :
  records (parse_dates df)
  = (λ ir, (ir.1, dated_record (columns df) ir.2)) <$> records df.
Proof.
  unfold parse_dates, dated_record. case_bool_decide as H.
  - unfold to_datetime, getitem. rewrite <- list_fmap_compose.
    apply (setitem_fmap "Date" (λ r, to_datetime_cell (cell_of r "Date"))).
  - rewrite <- (list_fmap_id (records df)) at 1.
    apply list_fmap_ext. by intros _ [??] _.
Qed.

Lemma normalize_author_type_columns df :
  columns (normalize_author_type df) = columns df.
Proof.
  unfold normalize_author_type. case_bool_decide as H; [|done].
  simpl. by rewrite bool_decide_true.
Qed.

Lemma normalize_author_type_records df :
  records (normalize_author_type df)
  = (λ ir, (ir.1, authored_record (columns df) ir.2)) <$> records df.
Proof.
  unfold normalize_author_type, authored_record. case_bool_decide as H.
  - unfold str_title, str_strip, astype_str, str_method, getitem.
    rewrite <- !list_fmap_compose.
    apply (setitem_fmap "Author_Type" (λ r, clean_author (cell_of r "Author_Type"))).
  - rewrite <- (list_fmap_id (records df)) at 1.
    apply list_fmap_ext. by intros _ [??] _.
Qed.

Lemma engagement_score_records df :
  engagement_score df = mapM (λ ir, score_cell ir.2) (records df).
Proof.
  unfold engagement_score, series_mul, series_add, getitem, fillna.
  induction (records df) as [|[i r] l IH]; [done|].
  cbn [fmap list_fmap mapM]. rewrite <- IH. clear IH.
  unfold score_cell; cbn [snd]. fold (fill0 (cell_of r "Comments")).
  fold (fill0 (cell_of r "Likes")). fold (fill0 (cell_of r "Shares")).
  generalize (fill0 (cell_of r "Comments")) (fill0 (cell_of r "Likes"))
    (fill0 (cell_of r "Shares")); intros c a s.
  destruct (mul_cell 2 c) as [c2|]; [|done]. simpl.
  destruct (mapM (mul_cell 2) _) as [c2t|]; simpl.
  2: { destruct (add_cell a c2) as [ac|]; [|done]. simpl.
       destruct (mul_cell 3 s) as [s3|]; [|done]. simpl.
       by destruct (add_cell ac s3). }
  destruct (add_cell a c2) as [ac|]; [|done]. simpl.
  destruct (mapM _ (zip _ c2t)) as [act|]; simpl.
  2: { destruct (mul_cell 3 s) as [s3|]; [|done]. simpl.
       by destruct (add_cell ac s3). }
  destruct (mul_cell 3 s) as [s3|]; [|done]. simpl.
  destruct (mapM (mul_cell 3) _) as [s3t|]; simpl.
  2: { by destruct (add_cell ac s3). }
  done.
Qed.

Lemma mapM_fmap_compose {A B C} (f : B → option C) (g : A → B) (l : list A) :
  mapM f (g <$> l) = mapM (f ∘ g) l.
Proof.
  induction l as [|x l IH]; [done|].
  change (mapM f (g <$> x :: l)) with (y ← f (g x); k ← mapM f (g <$> l); mret (y :: k)).
  by rewrite IH.
Qed.

Lemma mapM_zip_with {A B C} (f : A → option B) (h : A → B → C) (l : list A) :
  (k ← mapM f l; Some (zip_with h l k)) = mapM (λ x, h x <$> f x) l.
Proof.
  induction l as [|x l IH]; simpl; [done|].
  rewrite <- IH. destruct (f x); simpl; [|done].
  by destruct (mapM f l).
Qed.

Lemma recompute_engagement_records df :
  recompute_engagement df
  = l ← mapM (λ ir, pair ir.1 <$> scored_record (columns df) ir.2) (records df);
    Some (mkDataFrame (clean_columns (columns df)) l).
Proof.
  unfold recompute_engagement, scored_record, clean_columns.
  destruct (issubset _ _).
  - rewrite engagement_score_records. unfold setitem.
    rewrite (mapM_ext _ (λ ir, (λ v, (ir.1, <["Engagement_Score" := v]> ir.2))
                                 <$> score_cell ir.2));
      [|by intros [i r]; simpl; destruct (score_cell r)].
    rewrite <- (mapM_zip_with (λ ir, score_cell ir.2)
                  (λ ir v, (ir.1, <["Engagement_Score" := v]> ir.2))).
    by destruct (mapM _ (records df)).
  - rewrite (mapM_ext _ Some); [|by intros [??]].
    destruct df as [cols l]; simpl. f_equal.
    induction l as [|x l IH]; simpl; [done|].
    by destruct (mapM Some l); simplify_eq/=.
Qed.

(** The column steps of [load_dataset] are [clean_record] on each record. *)
Lemma cleaned_records df :
  cleaned df
  = l ← mapM (λ ir, pair ir.1 <$> clean_record (columns df) ir.2) (records df);
    Some (mkDataFrame (clean_columns (columns df)) l).
Proof.
  unfold cleaned. rewrite recompute_engagement_records.
  rewrite normalize_author_type_columns, normalize_author_type_records.
  rewrite parse_dates_columns, parse_dates_records.
  rewrite <- list_fmap_compose, mapM_fmap_compose. done.
Qed.

Lemma load_dataset_cleaned df :
  load_dataset df = d ← cleaned df; Some (reset_index (drop_duplicates d)).
Proof. done. Qed.
End columnwise.

(** ** Dropping duplicates *)

Section duplicates.
Implicit Types (seen : list (gmap string cell)) (l : list (nat * gmap string cell)).

Lemma duplicated_from_ext s1 s2 l :
  (∀ x, x ∈ s1 ↔ x ∈ s2) → duplicated_from s1 l = duplicated_from s2 l.
Proof.
  revert s1 s2. induction l as [|ir l IH]; intros s1 s2 E; simpl; [done|].
  f_equal.
  - apply bool_decide_ext, E.
  - apply IH. intros x. rewrite !elem_of_cons. by rewrite E.
Qed.

Lemma kept_from_ext s1 s2 l :
  (∀ x, x ∈ s1 ↔ x ∈ s2) → kept_from s1 l = kept_from s2 l.
Proof. intros E. unfold kept_from. by rewrite (duplicated_from_ext s1 s2). Qed.

Lemma kept_from_cons seen ir l :
  kept_from seen (ir :: l)
  = if bool_decide (ir.2 ∈ seen) then kept_from (ir.2 :: seen) l
    else ir :: kept_from (ir.2 :: seen) l.
Proof. unfold kept_from. csimpl. by destruct (bool_decide _). Qed.

Lemma kept_from_sublist seen l : kept_from seen l `sublist_of` l.
Proof.
  revert seen. induction l as [|ir l IH]; intros seen; [constructor|].
  rewrite kept_from_cons. destruct (bool_decide _); by constructor.
Qed.

Lemma elem_of_kept_from seen l ir :
  ir ∈ kept_from seen l → ir ∈ l ∧ ir.2 ∉ seen.
Proof.
  revert seen. induction l as [|jr l IH]; intros seen; [by intros ?%elem_of_nil|].
  rewrite kept_from_cons. case_bool_decide as Hin.
  - intros H. apply IH in H as [? Hn]. split; [by right|].
    intros ?. apply Hn. by right.
  - intros [->|H]%elem_of_cons; [split; [by left | done]|].
    apply IH in H as [? Hn]. split; [by right|].
    intros ?. apply Hn. by right.
Qed.

Lemma kept_from_complete seen l r :
  r ∈ snd <$> l → r ∉ seen → r ∈ snd <$> kept_from seen l.
Proof.
  revert seen. induction l as [|jr l IH]; intros seen; [by intros ?%elem_of_nil|].
  rewrite kept_from_cons, fmap_cons, elem_of_cons. intros [->|Hin] Hseen.
  - rewrite bool_decide_false by done. by left.
  - destruct (decide (r = jr.2)) as [->|Hne].
    + destruct (decide (jr.2 ∈ seen)); [done|].
      rewrite bool_decide_false by done. by left.
    + assert (r ∈ snd <$> kept_from (jr.2 :: seen) l).
      { apply IH; [done|]. by intros [?|?]%elem_of_cons. }
      destruct (bool_decide _); [done | by right].
Qed.

Lemma kept_from_NoDup seen l : NoDup (snd <$> kept_from seen l).
Proof.
  revert seen. induction l as [|jr l IH]; intros seen; [constructor|].
  rewrite kept_from_cons. case_bool_decide as Hin; [apply IH|].
  rewrite fmap_cons. constructor; [|apply IH].
  intros ([i r] & E & [_ Hn]%elem_of_kept_from)%list_elem_of_fmap.
  apply Hn. simpl in E. rewrite <- E. by left.
Qed.

Lemma elem_of_kept_from_nil l r :
  r ∈ snd <$> kept_from [] l ↔ r ∈ snd <$> l.
Proof.
  split.
  - intros (ir & -> & [? _]%elem_of_kept_from)%list_elem_of_fmap.
    apply list_elem_of_fmap; eauto.
  - intros ?. apply kept_from_complete; [done | apply not_elem_of_nil].
Qed.

(** As many records are kept as there are distinct records. *)
Lemma kept_from_length l :
  length (kept_from [] l) = length (remove_dups (snd <$> l)).
Proof.
  rewrite <- (length_fmap snd). apply Permutation_length, NoDup_Permutation.
  - apply kept_from_NoDup.
  - apply NoDup_remove_dups.
  - intros r. by rewrite elem_of_kept_from_nil, elem_of_remove_dups.
Qed.

Lemma forallb_differs (pre : list (nat * gmap string cell)) (r : gmap string cell) :
  forallb (λ jr, bool_decide (jr.2 ≠ r)) pre = negb (bool_decide (r ∈ snd <$> pre)).
Proof.
  induction pre as [|jr pre IH]; [done|]. csimpl. rewrite IH.
  rewrite (bool_decide_ext (r ∈ jr.2 :: (snd <$> pre))
             (r = jr.2 ∨ r ∈ snd <$> pre)) by apply elem_of_cons.
  destruct (decide (r = jr.2)) as [->|Hne].
  - by rewrite bool_decide_false, (bool_decide_true (_ ∨ _)) by (by left || by intros ?).
  - rewrite bool_decide_true by done. simpl. f_equal. apply bool_decide_ext.
    split; [by right | by intros [?|?]].
Qed.

Lemma kept_from_prefix (pre l : list (nat * gmap string cell)) :
  snd <$> kept_from (snd <$> pre) l
  = (λ pir, pir.2.2)
      <$> filter (λ pir, is_first_occurrence (pre ++ l) pir.1 = true)
            (imap (λ p ir, ((length pre + p)%nat, ir)) l).
Proof.
  revert pre. induction l as [|ir l IH]; intros pre; [done|].
  rewrite kept_from_cons. csimpl. rewrite filter_cons. simpl.
  assert (is_first_occurrence (pre ++ ir :: l)%list (length pre + 0)%nat
          = negb (bool_decide (ir.2 ∈ snd <$> pre))) as ->.
  { unfold is_first_occurrence. rewrite Nat.add_0_r, list_lookup_middle by done.
    rewrite take_app_length. apply forallb_differs. }
  rewrite (kept_from_ext (ir.2 :: (snd <$> pre)) (snd <$> (pre ++ [ir])%list)).
  2: { intros x. rewrite fmap_app, elem_of_app, elem_of_cons. simpl.
       rewrite list_elem_of_singleton. tauto. }
  assert (snd <$> kept_from (snd <$> (pre ++ [ir])%list) l
          = (λ pir, pir.2.2)
              <$> filter (λ pir, is_first_occurrence (pre ++ ir :: l)%list pir.1 = true)
                    (imap ((λ p ir0, ((length pre + p)%nat, ir0)) ∘ S) l)) as Htail.
  { rewrite IH, <- app_assoc. simpl.
    rewrite (imap_ext (λ p ir0, ((length (pre ++ [ir])%list + p)%nat, ir0))
               ((λ p ir0, ((length pre + p)%nat, ir0)) ∘ S) l); [done|].
    intros p x _. simpl. rewrite length_app. simpl. f_equal. lia. }
  destruct (bool_decide (ir.2 ∈ snd <$> pre)); simpl; try case_decide; try done.
  f_equal. exact Htail.
Qed.

(** The records kept are the first occurrences, in the order of the frame. *)
Lemma kept_from_first_occurrences l :
  snd <$> kept_from [] l = first_occurrences l.
Proof. apply (kept_from_prefix [] l). Qed.

Lemma reset_index_labels (df : DataFrame) :
  fst <$> records (reset_index df) = seq 0 (length (records df)).
Proof.
  unfold reset_index; simpl. rewrite fmap_imap.
  rewrite (imap_ext _ (λ j _, j)) by done.
  by rewrite (imap_seq_0 _ id), list_fmap_id.
Qed.

Lemma reset_index_cells (df : DataFrame) :
  snd <$> records (reset_index df) = snd <$> records df.
Proof.
  unfold reset_index; simpl. rewrite fmap_imap.
  rewrite (imap_ext _ (const snd)) by done. apply imap_const.
Qed.

Lemma reset_index_lookup (df : DataFrame) k i r :
  records (reset_index df) !! k = Some (i, r)
  ↔ i = k ∧ ∃ j, records df !! k = Some (j, r).
Proof.
  unfold reset_index; simpl. rewrite list_lookup_imap.
  destruct (records df !! k) as [[j r']|]; simpl;
    [|split; [done | by intros [_ [? ?]]]].
  split; [intros [= <- <-]; eauto | intros [-> [j' [= _ ->]]]; done].
Qed.
(** Where no two records have the same cells, all are kept. *)
Lemma kept_from_id (seen : list (gmap string cell)) (l : list (nat * gmap string cell)) :
  NoDup (snd <$> l) → (∀ ir, ir ∈ l → ir.2 ∉ seen) → kept_from seen l = l.
Proof.
  revert seen. induction l as [|ir l IH]; intros seen Hnd Hseen; [done|].
  rewrite fmap_cons in Hnd. apply NoDup_cons in Hnd as [Hnotin Hnd].
  rewrite kept_from_cons, bool_decide_false by (apply Hseen; by left).
  f_equal. apply IH; [done|]. intros jr Hjr [E|Hin]%elem_of_cons.
  - apply Hnotin, list_elem_of_fmap. by exists jr.
  - apply (Hseen jr); [by right | done].
Qed.
End duplicates.

(** ** What [load_dataset] returns *)

Section load_dataset_facts.
Implicit Types (df out : DataFrame) (r : gmap string cell).

Lemma issubset_counts cols :
  issubset ["Likes"; "Comments"; "Shares"] cols = true
  ↔ "Likes" ∈ cols ∧ "Comments" ∈ cols ∧ "Shares" ∈ cols.
Proof.
  unfold issubset; simpl. rewrite !andb_true_iff, !bool_decide_eq_true. tauto.
Qed.

Lemma cleaned_Some df d :
  cleaned df = Some d
  ↔ columns d = clean_columns (columns df)
    ∧ Forall2 (λ ir jr, jr.1 = ir.1 ∧ clean_record (columns df) ir.2 = Some jr.2)
        (records df) (records d).
Proof.
  rewrite cleaned_records. destruct d as [cols l]; simpl.
  assert (∀ k, mapM (λ ir, pair ir.1 <$> clean_record (columns df) ir.2) (records df) = Some k
    ↔ Forall2 (λ ir jr, jr.1 = ir.1 ∧ clean_record (columns df) ir.2 = Some jr.2)
        (records df) k) as E.
  { intros k. rewrite mapM_Some.
    split; intros F; (eapply Forall2_impl; [exact F|]); intros [i r] [j r']; simpl;
      destruct (clean_record _ r); simpl; try done.
    - by intros [= -> ->].
    - by intros [-> [= ->]].
    - by intros [_ ?]. }
  split.
  - intros H. destruct (mapM _ _) as [k|]; [|done].
    injection H as <- <-. split; [done | by apply E].
  - intros [-> F2]. apply E in F2. by rewrite F2.
Qed.

Lemma load_dataset_Some df out :
  load_dataset df = Some out
  ↔ ∃ d, cleaned df = Some d ∧ out = reset_index (drop_duplicates d).
Proof.
  rewrite load_dataset_cleaned. destruct (cleaned df) as [d|]; simpl.
  - split; [intros [= <-]; eauto | by intros (? & [= <-] & ->)].
  - split; [done | by intros (? & ? & _)].
Qed.

Lemma drop_duplicates_records df :
  records (drop_duplicates df) = kept_from [] (records df).
Proof. done. Qed.

(** Every record of the result is the clean form of a record of the input. *)
Lemma load_dataset_sound df out k r' :
  load_dataset df = Some out → (k, r') ∈ records out →
  ∃ i r, (i, r) ∈ records df ∧ clean_record (columns df) r = Some r'.
Proof.
  intros (d & [_ F2]%cleaned_Some & ->)%load_dataset_Some Hin.
  assert (r' ∈ snd <$> records (reset_index (drop_duplicates d))) as Hr.
  { apply list_elem_of_fmap. by exists (k, r'). }
  rewrite reset_index_cells, drop_duplicates_records, elem_of_kept_from_nil in Hr.
  apply list_elem_of_fmap in Hr as ([j r''] & -> & Hd).
  apply list_elem_of_lookup in Hd as [p Hp].
  destruct (Forall2_lookup_r _ _ _ _ _ F2 Hp) as ([i r] & Hq & _ & Hc).
  exists i, r. split; [|done]. apply list_elem_of_lookup; eauto.
Qed.

(** The clean form of every record of the input is in the result. *)
Lemma load_dataset_complete df out i r :
  load_dataset df = Some out → (i, r) ∈ records df →
  ∃ k r', (k, r') ∈ records out ∧ clean_record (columns df) r = Some r'.
Proof.
  intros (d & [_ F2]%cleaned_Some & ->)%load_dataset_Some Hin.
  apply list_elem_of_lookup in Hin as [p Hp].
  destruct (Forall2_lookup_l _ _ _ _ _ F2 Hp) as ([j r'] & Hq & _ & Hc).
  simpl in *. assert (r' ∈ snd <$> records (reset_index (drop_duplicates d))) as Hr.
  { rewrite reset_index_cells, drop_duplicates_records, elem_of_kept_from_nil.
    apply list_elem_of_fmap. exists (j, r'). split; [done|].
    apply list_elem_of_lookup; eauto. }
  apply list_elem_of_fmap in Hr as ([k r''] & -> & Hk). by exists k, r''.
Qed.

Lemma load_dataset_columns df out :
  load_dataset df = Some out → columns out = clean_columns (columns df).
Proof. by intros (d & [E _]%cleaned_Some & ->)%load_dataset_Some. Qed.
End load_dataset_facts.

(** ** The cells of a clean record *)

Section clean_record_facts.
Implicit Types (cols : list string) (r : gmap string cell) (name : string).

Lemma dated_record_other cols r name :
  name ≠ "Date" → dated_record cols r !! name = r !! name.
Proof.
  intros Hne. unfold dated_record. case_bool_decide; [|done].
  by rewrite lookup_insert_ne.
Qed.

Lemma authored_record_other cols r name :
  name ≠ "Author_Type" → authored_record cols r !! name = r !! name.
Proof.
  intros Hne. unfold authored_record. case_bool_decide; [|done].
  by rewrite lookup_insert_ne.
Qed.

Lemma scored_record_other cols r r' name :
  scored_record cols r = Some r' → name ≠ "Engagement_Score" →
  r' !! name = r !! name.
Proof.
  unfold scored_record. intros H Hne. destruct (issubset _ _).
  - destruct (score_cell r); simplify_eq/=. by rewrite lookup_insert_ne.
  - by simplify_eq.
Qed.

(** Only the three columns that the pipeline writes can change. *)
Lemma clean_record_other cols r r' name :
  clean_record cols r = Some r' →
  name ≠ "Date" → name ≠ "Author_Type" → name ≠ "Engagement_Score" →
  r' !! name = r !! name.
Proof.
  intros H ???. rewrite (scored_record_other _ _ _ _ H) by done.
  by rewrite authored_record_other, dated_record_other.
Qed.

Lemma clean_record_Date cols r r' :
  clean_record cols r = Some r' → "Date" ∈ cols →
  r' !! "Date" = Some (to_datetime_cell (cell_of r "Date")).
Proof.
  intros H Hin. rewrite (scored_record_other _ _ _ _ H) by done.
  rewrite authored_record_other by done.
  unfold dated_record. rewrite bool_decide_true by done.
  apply lookup_insert_eq.
Qed.

Lemma clean_record_Author_Type cols r r' :
  clean_record cols r = Some r' → "Author_Type" ∈ cols →
  r' !! "Author_Type" = Some (clean_author (cell_of r "Author_Type")).
Proof.
  intros H Hin. rewrite (scored_record_other _ _ _ _ H) by done.
  unfold authored_record. rewrite bool_decide_true by done.
  rewrite lookup_insert_eq. unfold cell_of.
  by rewrite dated_record_other.
Qed.

Lemma score_cell_ext r1 r2 :
  r1 !! "Likes" = r2 !! "Likes" → r1 !! "Comments" = r2 !! "Comments" →
  r1 !! "Shares" = r2 !! "Shares" → score_cell r1 = score_cell r2.
Proof. unfold score_cell, cell_of. by intros -> -> ->. Qed.

Lemma score_cell_clean_steps cols r :
  score_cell (authored_record cols (dated_record cols r)) = score_cell r.
Proof.
  apply score_cell_ext; by rewrite authored_record_other, dated_record_other.
Qed.

Lemma clean_record_score cols r r' :
  clean_record cols r = Some r' →
  issubset ["Likes"; "Comments"; "Shares"] cols = true →
  ∃ v, score_cell r = Some v ∧ r' !! "Engagement_Score" = Some v.
Proof.
  unfold clean_record, scored_record. intros H E. rewrite E in H.
  rewrite score_cell_clean_steps in H.
  destruct (score_cell r) as [v|]; simplify_eq/=.
  exists v. split; [done|]. apply lookup_insert_eq.
Qed.

Lemma clean_record_no_score cols r r' name :
  clean_record cols r = Some r' →
  issubset ["Likes"; "Comments"; "Shares"] cols = false →
  name ≠ "Date" → name ≠ "Author_Type" → r' !! name = r !! name.
Proof.
  unfold clean_record, scored_record. intros H E ??. rewrite E in H.
  simplify_eq. by rewrite authored_record_other, dated_record_other.
Qed.

Lemma clean_record_is_Some cols r :
  is_Some (clean_record cols r)
  ↔ (issubset ["Likes"; "Comments"; "Shares"] cols = true → is_Some (score_cell r)).
Proof.
  unfold clean_record, scored_record. rewrite score_cell_clean_steps.
  destruct (issubset _ _).
  - destruct (score_cell r) as [v|]; simpl.
    + split; [by eauto | by intros _; eexists].
    + split; [by intros [? ?] | intros H; by destruct (H eq_refl)].
  - split; [done | by intros _; eexists].
Qed.

(** The score of a record whose three components are counts or missing. *)
Lemma score_cell_counts r (l c s : option Z) :
  cell_of r "Likes" = count_cell l → cell_of r "Comments" = count_cell c →
  cell_of r "Shares" = count_cell s →
  score_cell r
  = Some (Int (count_or_zero l + 2 * count_or_zero c + 3 * count_or_zero s)).
Proof.
  unfold score_cell. intros -> -> ->.
  destruct l, c, s; simpl; do 2 f_equal; lia.
Qed.
End clean_record_facts.

(** ** The engagement score *)


Lemma cleaned_series_other (df d : DataFrame) (name : string) :
  cleaned df = Some d →
  name ≠ "Date" → name ≠ "Author_Type" → name ≠ "Engagement_Score" →
  getitem name d = getitem name df.
Proof.
  intros [_ F2]%cleaned_Some ???. unfold getitem. symmetry.
  apply list_eq_Forall2, Forall2_fmap.
  eapply Forall2_impl; [exact F2|]. intros [i r] [j r'] [_ Hclean]; simpl in *.
  unfold cell_of. by rewrite (clean_record_other _ _ _ name Hclean).
Qed.

(** C9.  The score is computed from copies: in the frame that
    [load_dataset] builds, the series under Likes, Comments and Shares are
    those of the input, cell for cell, and every record of the result has
    the Likes, Comments and Shares cells of the input record it is the clean
    form of.  A component that is missing in the input is still missing in
    the result. *)
Theorem score_components_unchanged (df out : DataFrame) :
  load_dataset df = Some out →
  (∃ d, cleaned df = Some d
        ∧ out = reset_index (drop_duplicates d)
        ∧ getitem "Likes" d = getitem "Likes" df
        ∧ getitem "Comments" d = getitem "Comments" df
        ∧ getitem "Shares" d = getitem "Shares" df)
  ∧ (∀ k r', (k, r') ∈ records out →
       ∃ i r, (i, r) ∈ records df
              ∧ clean_record (columns df) r = Some r'
              ∧ r' !! "Likes" = r !! "Likes"
              ∧ r' !! "Comments" = r !! "Comments"
              ∧ r' !! "Shares" = r !! "Shares")
  ∧ (∀ i r name, (i, r) ∈ records df →
       name ∈ ["Likes"; "Comments"; "Shares"] → cell_of r name = NaN →
       ∃ k r', (k, r') ∈ records out
               ∧ clean_record (columns df) r = Some r'
               ∧ cell_of r' name = NaN).
Proof.
  intros Hload. split; [|split].
  - destruct (proj1 (load_dataset_Some _ _) Hload) as (d & Hd & ->).
    exists d. by rewrite !(cleaned_series_other df d) by done.
  - intros k r' Hin.
    destruct (load_dataset_sound _ _ _ _ Hload Hin) as (i & r & Hr & Hclean).
    exists i, r. by rewrite !(clean_record_other _ _ _ _ Hclean) by done.
  - intros i r name Hin Hname Hna.
    destruct (load_dataset_complete _ _ _ _ Hload Hin) as (k & r' & Hr' & Hclean).
    exists k, r'. split; [done|]. split; [done|].
    rewrite <- Hna. unfold cell_of.
    rewrite (clean_record_other _ _ _ name Hclean); [done|..];
      intros ->; by repeat (apply elem_of_cons in Hname as [?|Hname]; [done|]);
      apply elem_of_nil in Hname.
Qed.

(** ** The author type *)

Section strings.
Implicit Types (s t : string).

Lemma lstrip_spec s :
  ∃ a, s = a +:+ lstrip s ∧ all_space a = true ∧ starts_with_space (lstrip s) = false.
Proof.
  induction s as [|c s (a & E & Ha & Hs)]; [by exists ""|]. simpl.
  destruct (is_space c) eqn:Hc.
  - exists (String c a). split; [exact (f_equal (String c) E)|].
    split; [simpl; by rewrite Hc | done].
  - exists "". repeat split. simpl. exact Hc.
Qed.

Lemma rstrip_spec s :
  ∃ b, s = rstrip s +:+ b ∧ all_space b = true ∧ ends_with_space (rstrip s) = false.
Proof.
  induction s as [|c s (b & E & Hb & Hs)]; [by exists ""|]. simpl.
  destruct (rstrip s) as [|c' t] eqn:Hr.
  - change (s = b) in E. subst b. destruct (is_space c) eqn:Hc.
    + exists (String c s). repeat split. simpl. by rewrite Hc.
    + exists s. repeat split; [done|]. simpl. exact Hc.
  - exists b. split; [exact (f_equal (String c) E)|]. split; [done|].
    simpl in *. by destruct t.
Qed.

Lemma rstrip_starts s :
  starts_with_space s = false → starts_with_space (rstrip s) = false.
Proof.
  destruct s as [|c s]; [done|]. simpl. intros Hc.
  destruct (rstrip s); [by rewrite Hc | done].
Qed.

(** [strip] takes white space, and nothing else, off both ends. *)
Lemma strip_spec s :
  ∃ a b, s = a +:+ strip s +:+ b
         ∧ all_space a = true ∧ all_space b = true
         ∧ starts_with_space (strip s) = false
         ∧ ends_with_space (strip s) = false.
Proof.
  destruct (lstrip_spec s) as (a & Ea & Ha & Hs).
  destruct (rstrip_spec (lstrip s)) as (b & Eb & Hb & He).
  exists a, b. unfold strip. rewrite <- Eb, <- Ea.
  by rewrite rstrip_starts.
Qed.

Lemma title_length b s : String.length (title_from b s) = String.length s.
Proof. revert b. induction s as [|c s IH]; intros b; simpl; [done | by rewrite IH]. Qed.




End strings.


(** ** Selecting records by a mask *)

Section masks.
Context {A : Type}.
Implicit Types (l : list A) (mask : list bool).

Lemma select_sublist mask l : select mask l `sublist_of` l.
Proof.
  revert mask. induction l as [|x l IH]; intros [|b mask]; simpl;
    try apply sublist_nil_l.
  destruct b; by constructor.
Qed.

Lemma select_fmap (f : A → bool) l :
  select (f <$> l) l = filter (λ x, f x = true) l.
Proof.
  induction l as [|x l IH]; [done|]. csimpl. rewrite filter_cons, IH.
  destruct (f x); by case_decide.
Qed.

Lemma select_all_true mask l :
  length mask = length l → Forall (λ b, b = true) mask → select mask l = l.
Proof.
  revert mask. induction l as [|x l IH]; intros [|b mask]; simpl; try done.
  intros [= Hlen] [-> Hall]%Forall_cons. by rewrite IH.
Qed.

(** A record is selected exactly when its mark is [true]. *)
Lemma elem_of_select mask l x :
  x ∈ select mask l ↔ ∃ p, l !! p = Some x ∧ mask !! p = Some true.
Proof.
  revert mask. induction l as [|y l IH]; intros [|b mask]; simpl.
  - split; [by intros ?%elem_of_nil | by intros (p & ? & _)].
  - split; [by intros ?%elem_of_nil | by intros (p & ? & _)].
  - split; [by intros ?%elem_of_nil | by intros (p & _ & ?)].
  - destruct b.
    + rewrite elem_of_cons, IH. split.
      * intros [->|(p & ? & ?)]; [by exists 0%nat | by exists (S p)].
      * intros ([|p] & Hl & Hm); simpl in *; [left; congruence | right; eauto].
    + rewrite IH. split.
      * intros (p & ? & ?). by exists (S p).
      * intros ([|p] & Hl & Hm); simpl in *; [congruence | eauto].
Qed.
End masks.

(** ** The filters *)

Section filters.
Implicit Types (df : DataFrame) (s e : date) (selected : list cell).

Lemma mapM_total {A B} (f : A → option B) (g : A → B) (l : list A) :
  Forall (λ x, f x = Some (g x)) l → mapM f l = Some (g <$> l).
Proof.
  intros H. apply mapM_Some, Forall2_fmap_r. by apply Forall_Forall2_diag.
Qed.

Lemma series_ge_datetime df s :
  datetime_column df →
  series_ge (getitem "Date" df) s
  = Some ((λ ir, match cell_of ir.2 "Date" with
                 | Timestamp d => date_leb s d | _ => false end) <$> records df).
Proof.
  intros Hdt. unfold series_ge, getitem. rewrite mapM_fmap_compose.
  apply mapM_total. eapply Forall_impl; [exact Hdt|].
  intros [i r]; simpl. by destruct (cell_of r "Date").
Qed.

Lemma series_le_datetime df e :
  datetime_column df →
  series_le (getitem "Date" df) e
  = Some ((λ ir, match cell_of ir.2 "Date" with
                 | Timestamp d => date_leb d e | _ => false end) <$> records df).
Proof.
  intros Hdt. unfold series_le, getitem. rewrite mapM_fmap_compose.
  apply mapM_total. eapply Forall_impl; [exact Hdt|].
  intros [i r]; simpl. by destruct (cell_of r "Date").
Qed.

Lemma filter_date_range_datetime df s e :
  datetime_column df → "Date" ∈ columns df →
  filter_date_range (Some s) (Some e) df
  = Some (loc ((λ ir, in_date_range s e (cell_of ir.2 "Date")) <$> records df) df).
Proof.
  intros Hdt Hcol. unfold filter_date_range.
  rewrite bool_decide_true by done.
  rewrite series_ge_datetime, series_le_datetime by done.
  simpl. do 2 f_equal. unfold mask_and.
  rewrite zip_with_fmap_l, zip_with_fmap_r, zip_with_diag.
  apply list_fmap_ext. intros _ [i r] _; simpl. by destruct (cell_of r "Date").
Qed.

Lemma filter_date_range_total df (start_date end_date : option date) :
  ("Date" ∈ columns df → datetime_column df) →
  ∃ out, filter_date_range start_date end_date df = Some out
         ∧ columns out = columns df
         ∧ records out `sublist_of` records df.
Proof.
  intros Hdt.
  destruct start_date as [s|], end_date as [e|];
    try (by exists df; split; [reflexivity | split]).
  destruct (decide ("Date" ∈ columns df)) as [Hcol|Hcol].
  - rewrite filter_date_range_datetime by auto.
    eexists; split; [done|]. split; [done|]. apply select_sublist.
  - unfold filter_date_range. rewrite bool_decide_false by done.
    by exists df.
Qed.

Lemma filter_isin_columns name selected df :
  columns (filter_isin name selected df) = columns df.
Proof. unfold filter_isin. by destruct (_ && _). Qed.

Lemma filter_isin_sublist name selected df :
  records (filter_isin name selected df) `sublist_of` records df.
Proof. unfold filter_isin. destruct (_ && _); [apply select_sublist | done]. Qed.

(** With a selection and the column, the records kept are those whose cell
    is one of the selected values. *)
Lemma elem_of_filter_isin name selected df ir :
  selected ≠ [] → name ∈ columns df →
  ir ∈ records (filter_isin name selected df)
  ↔ ir ∈ records df ∧ cell_of ir.2 name ∈ selected.
Proof.
  intros Hsel Hcol. unfold filter_isin.
  destruct selected as [|v selected]; [done|].
  rewrite bool_decide_true by done. cbn [truthy andb].
  unfold loc, isin, getitem; cbn [records]. rewrite <- list_fmap_compose.
  rewrite select_fmap, list_elem_of_filter. simpl.
  rewrite bool_decide_eq_true. tauto.
Qed.
End filters.

Lemma to_datetime_cell_datetime (c : cell) : is_datetime (to_datetime_cell c) = true.
Proof. destruct c as [| |s|]; simpl; try done. by destruct (strptime_dmy s). Qed.

Lemma clean_columns_elem_of (cols : list string) (name : string) :
  name ≠ "Engagement_Score" → name ∈ clean_columns cols ↔ name ∈ cols.
Proof.
  intros Hne. unfold clean_columns. destruct (issubset _ _); [|done].
  case_bool_decide; [done|]. rewrite elem_of_app, list_elem_of_singleton. tauto.
Qed.

(** What [load_dataset] returns can go through the date filter: its Date
    column, when it has one, holds timestamps and [NaT] only. *)
Lemma load_dataset_datetime (df out : DataFrame) :
  load_dataset df = Some out → "Date" ∈ columns out → datetime_column out.
Proof.
  intros Hload Hcol. rewrite (load_dataset_columns _ _ Hload) in Hcol.
  rewrite clean_columns_elem_of in Hcol by done.
  apply Forall_forall. intros [k r'] Hin.
  destruct (load_dataset_sound _ _ _ _ Hload Hin) as (i & r & _ & Hclean).
  simpl. unfold cell_of at 1. rewrite (clean_record_Date _ _ _ Hclean Hcol).
  apply to_datetime_cell_datetime.
Qed.

(** C4.  With no date range and two empty selections the filter block
    returns its input, record for record.  Each constraint is dropped on its
    own: without a start or without an end date there is no date filter, and
    an empty selection leaves the frame as it is, where the mask of the
    selection itself would keep no record at all. *)
Theorem filter_without_constraints (df : DataFrame) :
  apply_filters None None [] [] df = Some df
  ∧ (∀ e, filter_date_range None e df = Some df)
  ∧ (∀ s, filter_date_range s None df = Some df)
  ∧ (∀ name, filter_isin name [] df = df)
  ∧ (∀ name, records (loc (isin (getitem name df) []) df) = []).
Proof.
  split; [done|]. split; [done|]. split; [intros s; destruct s; reflexivity|]. split; [done|].
  intros name. unfold loc, isin, getitem; cbn [records].
  rewrite <- list_fmap_compose, select_fmap.
  induction (records df) as [|ir l IH]; [done|].
  rewrite filter_cons. case_decide as H; [|exact IH].
  apply bool_decide_eq_true in H. by apply elem_of_nil in H.
Qed.

(** C5.  On a frame whose Date column holds dates, the filter block with a
    start and an end date returns a frame whose records are a sub-sequence
    of the records of the input, each of them a record of the input; with a
    Date column, each of them has a date, not before the start and not after
    the end. *)
Theorem filter_by_date_range (df : DataFrame) (s e : date)
    (selected_author_types selected_content_types : list cell) :
  ("Date" ∈ columns df → datetime_column df) →
  ∃ out,
    apply_filters (Some s) (Some e) selected_author_types selected_content_types df
    = Some out
    ∧ records out `sublist_of` records df
    ∧ (∀ ir, ir ∈ records out → ir ∈ records df)
    ∧ ("Date" ∈ columns df →
       ∀ i r, (i, r) ∈ records out →
         ∃ d, r !! "Date" = Some (Timestamp d)
              ∧ date_leb s d = true ∧ date_leb d e = true).
Proof.
  intros Hdt. unfold apply_filters.
  destruct (filter_date_range_total df (Some s) (Some e) Hdt)
    as (filtered & Hf & Hcols & Hsub).
  rewrite Hf. simpl. eexists. split; [reflexivity|].
  assert (records (filter_isin "Content_Type" selected_content_types
                     (filter_isin "Author_Type" selected_author_types filtered))
          `sublist_of` records filtered) as Hsub'.
  { etrans; apply filter_isin_sublist. }
  split; [by etrans|]. split.
  - intros ir Hin. eapply sublist_subseteq; [|exact Hin]. by etrans.
  - intros Hcol i r Hin.
    apply (sublist_subseteq _ _ Hsub') in Hin.
    rewrite filter_date_range_datetime in Hf by auto.
    injection Hf as <-. unfold loc in Hin; cbn [records] in Hin.
    rewrite select_fmap in Hin. apply list_elem_of_filter in Hin as [Hr _].
    simpl in Hr. unfold cell_of in Hr.
    destruct (r !! "Date") as [[| | |d]|]; simpl in Hr; try done.
    apply andb_true_iff in Hr as [??]. by exists d.
Qed.

Lemma sample_raw_clean_datetime :
  "Date" ∈ columns sample_raw_clean → datetime_column sample_raw_clean.
Proof. intros _. by repeat constructor. Qed.

Lemma filter_by_date_range_witness :
  ("Date" ∈ columns sample_raw_clean → datetime_column sample_raw_clean)
  ∧ ∃ out,
      apply_filters (Some (Date 2024 1 1)) (Some (Date 2024 12 31))
        [Str "Ai"; Str "Nan"] [] sample_raw_clean = Some out
      ∧ records out `sublist_of` records sample_raw_clean
      ∧ (∀ ir, ir ∈ records out → ir ∈ records sample_raw_clean)
      ∧ ("Date" ∈ columns sample_raw_clean →
         ∀ i r, (i, r) ∈ records out →
           ∃ d, r !! "Date" = Some (Timestamp d)
                ∧ date_leb (Date 2024 1 1) d = true
                ∧ date_leb d (Date 2024 12 31) = true).
Proof.
  assert ("Date" ∈ columns sample_raw_clean → datetime_column sample_raw_clean) as H
    by (intros _; repeat constructor).
  split; [exact H|].
  exact (filter_by_date_range sample_raw_clean (Date 2024 1 1) (Date 2024 12 31)
           [Str "Ai"; Str "Nan"] [] H).
Defined.

Example filter_sample_by_date :
  apply_filters (Some (Date 2024 1 1)) (Some (Date 2024 12 31)) [] [] sample_raw_clean
  = Some {| columns := columns sample_raw_clean;
            records := take 1 (records sample_raw_clean) |}.
Proof. vm_compute. reflexivity. Qed.

(** ** Grouping *)

Section grouping.
Context {R : Type}.
Implicit Types (df : DataFrame) (keys : list string) (metric : string)
  (agg : list cell → R) (k : list cell).

Lemma elem_of_group_keys keys df k :
  k ∈ group_keys keys df
  ↔ notna_key k = true ∧ ∃ i r, (i, r) ∈ records df ∧ key_of keys r = k.
Proof.
  unfold group_keys. rewrite merge_sort_Permutation.
  rewrite elem_of_remove_dups, list_elem_of_filter, list_elem_of_fmap.
  split.
  - intros [Hk ([i r] & -> & Hin)]. split; [by apply Is_true_true|]. by exists i, r.
  - intros [Hk (i & r & Hin & <-)]. split; [by apply Is_true_true|]. by exists (i, r).
Qed.

Lemma group_keys_NoDup keys df : NoDup (group_keys keys df).
Proof.
  unfold group_keys. rewrite merge_sort_Permutation. apply NoDup_remove_dups.
Qed.

Lemma groupby_agg_keys keys metric agg df :
  fst <$> groupby_agg keys metric agg df = group_keys keys df.
Proof.
  unfold groupby_agg. rewrite <- list_fmap_compose.
  rewrite <- (list_fmap_id (group_keys keys df)) at 2.
  by apply list_fmap_ext.
Qed.

Lemma elem_of_groupby_agg keys metric agg df k v :
  (k, v) ∈ groupby_agg keys metric agg df
  ↔ k ∈ group_keys keys df ∧ v = agg (group_values keys metric k df).
Proof.
  unfold groupby_agg. rewrite list_elem_of_fmap. split.
  - by intros (k' & [= -> ->] & Hin).
  - intros [Hin ->]. by exists k.
Qed.

Lemma group_values_nonempty keys metric df i r :
  (i, r) ∈ records df → group_values keys metric (key_of keys r) df ≠ [].
Proof.
  intros Hin. unfold group_values. intros E%fmap_nil_inv.
  assert ((i, r) ∈ filter (λ ir, key_of keys ir.2 = key_of keys r) (records df)) as H.
  { by apply list_elem_of_filter. }
  rewrite E in H. by apply elem_of_nil in H.
Qed.
End grouping.

(** C8.  The result of grouping has an entry for a key exactly when some
    record of the frame has that key, with no missing cell in it; each key
    has one entry, and the value of the entry is the reduction of the
    metric cells of the records of the group, of which there is at least
    one.  A key that no record has is not in the result. *)
Theorem groups_have_records {R : Type} (keys : list string) (metric : string)
    (agg : list cell → R) (df : DataFrame) :
  (∀ k, k ∈ (fst <$> groupby_agg keys metric agg df)
        ↔ notna_key k = true ∧ ∃ i r, (i, r) ∈ records df ∧ key_of keys r = k)
  ∧ NoDup (fst <$> groupby_agg keys metric agg df)
  ∧ (∀ k v, (k, v) ∈ groupby_agg keys metric agg df →
       v = agg (group_values keys metric k df)
       ∧ group_values keys metric k df ≠ [])
  ∧ (∀ k, (∀ i r, (i, r) ∈ records df → key_of keys r ≠ k) →
       ∀ v, (k, v) ∉ groupby_agg keys metric agg df).
Proof.
  rewrite groupby_agg_keys. split; [|split; [|split]].
  - intros k. apply elem_of_group_keys.
  - apply group_keys_NoDup.
  - intros k v [Hk ->]%elem_of_groupby_agg. split; [done|].
    apply elem_of_group_keys in Hk as [_ (i & r & Hin & <-)].
    by eapply group_values_nonempty.
  - intros k Hnone v [Hk _]%elem_of_groupby_agg.
    apply elem_of_group_keys in Hk as [_ (i & r & Hin & E)].
    by apply (Hnone i r).
Qed.

Example mean_engagement_by_author :
  groupby_agg ["Author_Type"] "Engagement_Score" series_mean sample_posts_clean
  = [([Str "Ai"], Some (Some (Q2Qc 17))); ([Str "Human"], Some (Some (Q2Qc 5)))].
Proof. vm_compute. reflexivity. Qed.

Example total_engagement_by_author :
  groupby_agg ["Author_Type"] "Engagement_Score" series_sum sample_posts_clean
  = [([Str "Ai"], Some 17); ([Str "Human"], Some 5)].
Proof. vm_compute. reflexivity. Qed.

(** After the author filter has kept the human posts only, the other author
    type has no entry. *)
Example mean_engagement_filtered :
  (groupby_agg ["Author_Type"] "Engagement_Score" series_sum
     <$> apply_filters None None [Str "Human"] [] sample_posts_clean)
  = Some [([Str "Human"], Some 5)].
Proof. vm_compute. reflexivity. Qed.

(** ** When [load_dataset] raises *)

Lemma load_dataset_is_Some (df : DataFrame) :
  is_Some (load_dataset df)
  ↔ (issubset ["Likes"; "Comments"; "Shares"] (columns df) = true → scores_defined df).
Proof.
  rewrite load_dataset_cleaned, cleaned_records.
  transitivity (is_Some (mapM (λ ir, pair ir.1 <$> clean_record (columns df) ir.2)
                           (records df))).
  { destruct (mapM _ _); simpl; split; intros [? ?]; by eauto. }
  rewrite mapM_is_Some, Forall_forall. unfold scores_defined. split.
  - intros H Hsub i r Hin. specialize (H _ Hin). simpl in H.
    apply fmap_is_Some in H. by apply clean_record_is_Some in H.
  - intros H [i r] Hin. simpl. apply fmap_is_Some, clean_record_is_Some.
    intros Hsub. by apply (H Hsub i r).
Qed.

Lemma load_dataset_None (df : DataFrame) :
  load_dataset df = None →
  issubset ["Likes"; "Comments"; "Shares"] (columns df) = true
  ∧ ∃ i r, (i, r) ∈ records df ∧ score_cell r = None.
Proof.
  rewrite load_dataset_cleaned, cleaned_records. intros H.
  destruct (mapM _ _) as [l|] eqn:M; [done|]. clear H.
  apply mapM_None, Exists_exists in M as ([i r] & Hin & Hnone). simpl in Hnone.
  apply fmap_None in Hnone. unfold clean_record, scored_record in Hnone.
  rewrite score_cell_clean_steps in Hnone.
  destruct (issubset _ _); [|done]. split; [done|]. exists i, r. split; [done|].
  by destruct (score_cell r).
Qed.

(** C6.  A step of [load_dataset] whose column is not in the frame leaves
    the frame as it is.  [load_dataset] raises only when Likes, Comments and
    Shares are all there and the cells of some record cannot be added up:
    with one of the three missing it returns a frame with the columns of the
    input, and with none of the five columns it returns the input without
    its duplicates. *)
Theorem missing_columns_are_skipped (df : DataFrame) :
  ("Date" ∉ columns df → parse_dates df = df)
  ∧ ("Author_Type" ∉ columns df → normalize_author_type df = df)
  ∧ (¬ ("Likes" ∈ columns df ∧ "Comments" ∈ columns df ∧ "Shares" ∈ columns df) →
     recompute_engagement df = Some df
     ∧ ∃ out, load_dataset df = Some out ∧ columns out = columns df)
  ∧ (load_dataset df = None →
     ("Likes" ∈ columns df ∧ "Comments" ∈ columns df ∧ "Shares" ∈ columns df)
     ∧ ∃ i r, (i, r) ∈ records df ∧ score_cell r = None)
  ∧ ("Date" ∉ columns df → "Author_Type" ∉ columns df →
     ¬ ("Likes" ∈ columns df ∧ "Comments" ∈ columns df ∧ "Shares" ∈ columns df) →
     load_dataset df = Some (reset_index (drop_duplicates df))).
Proof.
  split; [|split; [|split; [|split]]].
  - intros H. unfold parse_dates. by rewrite bool_decide_false.
  - intros H. unfold normalize_author_type. by rewrite bool_decide_false.
  - intros H. rewrite <- issubset_counts in H. apply not_true_is_false in H.
    split; [unfold recompute_engagement; by rewrite H|].
    destruct (load_dataset df) as [out|] eqn:Hload.
    + exists out. split; [done|]. rewrite (load_dataset_columns _ _ Hload).
      unfold clean_columns. by rewrite H.
    + apply load_dataset_None in Hload as [Hsub _]. congruence.
  - intros [Hsub ?]%load_dataset_None. by apply issubset_counts in Hsub.
  - intros Hd Ha H. rewrite <- issubset_counts in H. apply not_true_is_false in H.
    unfold load_dataset, parse_dates, normalize_author_type, recompute_engagement.
    rewrite (bool_decide_false _ Hd), (bool_decide_false _ Ha). by rewrite H.
Qed.

(** ** Dates *)

Lemma strptime_dmy_valid (s : string) (d : date) :
  strptime_dmy s = Some d → valid_date d = true.
Proof.
  unfold strptime_dmy. destruct (match_dmy s) as [|[d' [|??]] ?]; try done.
  destruct (valid_date d') eqn:E; [|done]. by intros [= <-].
Qed.

Lemma date_leb_spec (a b : date) :
  date_leb a b = true
  ↔ (year a < year b
     ∨ year a = year b ∧ (month a < month b ∨ month a = month b ∧ day a ≤ day b))%nat.
Proof.
  unfold date_leb.
  rewrite !orb_true_iff, !andb_true_iff, !orb_true_iff, !andb_true_iff.
  by rewrite !Nat.ltb_lt, !Nat.eqb_eq, Nat.leb_le.
Qed.

Lemma days_in_month_le (y m : nat) : (days_in_month y m ≤ 31)%nat.
Proof.
  unfold days_in_month.
  do 13 (destruct m as [|m]; [try destruct (is_leap y); lia|]). lia.
Qed.

Lemma valid_date_bounds (d : date) :
  valid_date d = true →
  (year d / 1000 < 10 ∧ 1 ≤ month d ≤ 12 ∧ 1 ≤ day d ≤ 31)%nat.
Proof.
  unfold valid_date, in_timestamp_range.
  pose proof (days_in_month_le (year d) (month d)).
  destruct installed;
    rewrite !andb_true_iff, ?date_leb_spec, ?Nat.leb_le, ?Nat.ltb_lt;
    unfold Timestamp_min, Timestamp_max; cbn [year month day].
  - intros (? & ? & ?). split; [|lia].
    apply Nat.Div0.div_lt_upper_bound. lia.
  - lia.
Qed.

Lemma digit_char_digit (k : nat) :
  (k < 10)%nat → is_digit (digit_char k) = true ∧ digit_value (digit_char k) = k.
Proof. intros H. do 10 (destruct k as [|k]; [done|]). lia. Qed.

Lemma digits_of_year (y : nat) :
  (y / 1000 < 10 →
   1000 * (y / 1000 mod 10) + 100 * (y / 100 mod 10) + 10 * (y / 10 mod 10) + y mod 10
   = y)%nat.
Proof.
  assert (y / 1000 = y / 10 / 10 / 10)%nat as ->
    by (rewrite !Nat.Div0.div_div; reflexivity).
  assert (y / 100 = y / 10 / 10)%nat as ->
    by (rewrite !Nat.Div0.div_div; reflexivity).
  intros H. rewrite (Nat.mod_small (y / 10 / 10 / 10)) by exact H.
  pose proof (Nat.div_mod_eq y 10).
  pose proof (Nat.div_mod_eq (y / 10) 10).
  pose proof (Nat.div_mod_eq (y / 10 / 10) 10).
  lia.
Qed.

Lemma directive_Y_pad4 (y : nat) :
  (y / 1000 < 10)%nat → directive_Y (pad4 y) = [(y, "")].
Proof.
  intros Hy. unfold directive_Y, pad4.
  destruct (digit_char_digit (y / 1000 mod 10)) as [-> ->];
    [by apply Nat.mod_upper_bound|].
  destruct (digit_char_digit (y / 100 mod 10)) as [-> ->];
    [by apply Nat.mod_upper_bound|].
  destruct (digit_char_digit (y / 10 mod 10)) as [-> ->];
    [by apply Nat.mod_upper_bound|].
  destruct (digit_char_digit (y mod 10)) as [-> ->];
    [by apply Nat.mod_upper_bound|].
  cbn [andb]. by rewrite digits_of_year.
Qed.

(** The day, then the dash: the other ways to read a day leave a digit where
    the dash has to be. *)
Lemma directive_d_pad2 {X} (d : nat) (r : string) (K : nat → string → list X) :
  (1 ≤ d ≤ 31)%nat →
  ('(d', s1) ← directive_d (pad2 d +:+ "-" +:+ r); s2 ← dash s1; K d' s2) = K d r.
Proof.
  intros H.
  do 32 (destruct d as [|d];
         [try lia; vm_compute; repeat (etrans; [apply app_nil_r|]); reflexivity|]).
  lia.
Qed.

Lemma directive_m_pad2 {X} (m : nat) (r : string) (K : nat → string → list X) :
  (1 ≤ m ≤ 12)%nat →
  ('(m', s1) ← directive_m (pad2 m +:+ "-" +:+ r); s2 ← dash s1; K m' s2) = K m r.
Proof.
  intros H.
  do 13 (destruct m as [|m];
         [try lia; vm_compute; repeat (etrans; [apply app_nil_r|]); reflexivity|]).
  lia.
Qed.

Lemma digit_char_ascii (k : nat) : (k < 10)%nat → (nat_of_ascii (digit_char k) <? 128)%nat = true.
Proof. intros H. do 10 (destruct k as [|k]; [done|]). lia. Qed.

Lemma is_ascii_app (s t : string) : is_ascii (s +:+ t) = is_ascii s && is_ascii t.
Proof. induction s as [|c s IH]; simpl; [done|]. by rewrite IH, andb_assoc. Qed.

Lemma pad2_ascii (n : nat) : is_ascii (pad2 n) = true.
Proof.
  unfold pad2. cbn [is_ascii].
  by rewrite !digit_char_ascii by (by apply Nat.mod_upper_bound).
Qed.

Lemma pad4_ascii (n : nat) : is_ascii (pad4 n) = true.
Proof.
  unfold pad4. cbn [is_ascii].
  by rewrite !digit_char_ascii by (by apply Nat.mod_upper_bound).
Qed.

Lemma strftime_ascii (d : date) : is_ascii (strftime_dmy d) = true.
Proof.
  unfold strftime_dmy. by rewrite !is_ascii_app, !pad2_ascii, pad4_ascii.
Qed.

(** The format is day, month, year: the text of a date in that order, with
    dashes, is read as that date. *)
Lemma strptime_strftime (d : date) :
  valid_date d = true → strptime_dmy (strftime_dmy d) = Some d.
Proof.
  intros Hvalid. destruct (valid_date_bounds d Hvalid) as (Hy & Hm & Hd).
  unfold strptime_dmy, match_dmy, strftime_dmy.
  rewrite (directive_d_pad2 (day d)) by done.
  rewrite (directive_m_pad2 (month d)) by done.
  rewrite directive_Y_pad4 by done.
  destruct d as [y m d']. simpl in *. by rewrite Hvalid.
Qed.

(** Whether the sum of the score is defined does not depend on the dates. *)
Lemma scores_defined_setitem_Date (df : DataFrame) (series : list cell) :
  length series = length (records df) →
  scores_defined (setitem "Date" series df) ↔ scores_defined df.
Proof.
  intros Hlen. unfold scores_defined, setitem; cbn [records].
  assert (∀ r v, score_cell (<["Date" := v]> r) = score_cell r) as Hscore.
  { intros r v. apply score_cell_ext; by rewrite lookup_insert_ne. }
  split.
  - intros H i r [p Hp]%list_elem_of_lookup.
    destruct (lookup_lt_is_Some_2 series p) as [v Hv].
    { rewrite Hlen. by eapply lookup_lt_Some. }
    rewrite <- (Hscore r v). apply (H i). apply list_elem_of_lookup. exists p.
    apply lookup_zip_with_Some. by exists (i, r), v.
  - intros H i r' [p Hp]%list_elem_of_lookup.
    apply lookup_zip_with_Some in Hp as ([j r] & v & [= -> ->] & Hr & _).
    simpl. rewrite Hscore. apply (H j). apply list_elem_of_lookup. eauto.
Qed.

(** C3, as the code has it.  With a Date column in the input, the date
    step keeps every record in its place, under its label, and writes in
    its Date cell the timestamp that the day-month-year format reads in it,
    or the missing value when the format does not match or the date does
    not exist; the text of a date, day first, is read as that date.  The
    text is ASCII, where the digits of the format are those of Python.

    No date makes [load_dataset] raise: whether it raises does not depend
    on what the Date column holds, and it returns whenever the score can be
    computed.  The clean form of every input record is then in the result,
    with that Date cell.  A record is a record of the result for itself when
    no two records are the same once cleaned: then the result has the clean
    forms of all the records, in their order.  Otherwise the duplicates go,
    and two records that differ in a date that does not parse are
    duplicates. *)
Theorem unparseable_dates_become_null (df : DataFrame) :
  "Date" ∈ columns df →
  records (parse_dates df)
  = (λ ir, (ir.1, <["Date" := to_datetime_cell (cell_of ir.2 "Date")]> ir.2))
      <$> records df
  ∧ (∀ s, is_ascii s = true →
       to_datetime_cell (Str s)
       = match strptime_dmy s with Some d => Timestamp d | None => NaN end)
  ∧ (∀ d, valid_date d = true →
       is_ascii (strftime_dmy d) = true
       ∧ to_datetime_cell (Str (strftime_dmy d)) = Timestamp d)
  ∧ (∀ series, length series = length (records df) →
       is_Some (load_dataset (setitem "Date" series df)) ↔ is_Some (load_dataset df))
  ∧ (scores_defined df →
     ∃ out d,
       load_dataset df = Some out
       ∧ cleaned df = Some d
       ∧ (∀ i r, (i, r) ∈ records df →
            ∃ k r', (k, r') ∈ records out
                    ∧ clean_record (columns df) r = Some r'
                    ∧ r' !! "Date" = Some (to_datetime_cell (cell_of r "Date"))
                    ∧ (∀ s, r !! "Date" = Some (Str s) → is_ascii s = true →
                         strptime_dmy s = None → r' !! "Date" = Some NaN))
       ∧ (NoDup (snd <$> records d) →
          snd <$> records out = snd <$> records d
          ∧ length (records out) = length (records df))).
Proof.
  intros Hcol. split; [|split; [done|split; [|split]]].
  - rewrite parse_dates_records. apply list_fmap_ext. intros _ [i r] _; simpl.
    unfold dated_record. by rewrite bool_decide_true.
  - intros d Hvalid. split; [apply strftime_ascii|].
    unfold to_datetime_cell. rewrite (strptime_strftime d Hvalid). reflexivity.
  - intros series Hlen. rewrite !load_dataset_is_Some.
    rewrite (scores_defined_setitem_Date _ _ Hlen).
    unfold setitem; cbn [columns]. by rewrite bool_decide_true.
  - intros Hscores.
    destruct (proj2 (load_dataset_is_Some df) (λ _, Hscores)) as [out Hload].
    pose proof Hload as (d & Hd & Hout)%load_dataset_Some.
    exists out, d. split; [done|]. split; [done|]. split.
    + intros i r Hin.
      destruct (load_dataset_complete _ _ _ _ Hload Hin) as (k & r' & Hr' & Hclean).
      exists k, r'. split; [done|]. split; [done|].
      rewrite (clean_record_Date _ _ _ Hclean Hcol). split; [done|].
      intros s Hs _ Hfail. unfold cell_of. rewrite Hs. simpl. by rewrite Hfail.
    + intros Hnd.
      assert (snd <$> records out = snd <$> records d) as Hcells.
      { rewrite Hout, reset_index_cells, drop_duplicates_records.
        rewrite kept_from_id; [done|done|]. intros ir _. apply not_elem_of_nil. }
      split; [done|].
      apply cleaned_Some in Hd as [_ F2].
      rewrite <- (length_fmap snd (records out)), Hcells, length_fmap.
      symmetry. by eapply Forall2_length.
Qed.

(** ** Well-formed frames *)

Lemma clean_record_well_formed (cols : list string) (r r' : gmap string cell) :
  clean_record cols r = Some r' →
  (∀ name, name ∈ cols ↔ is_Some (r !! name)) →
  ∀ name, name ∈ clean_columns cols ↔ is_Some (r' !! name).
Proof.
  intros Hclean Hwf name.
  destruct (decide (name = "Engagement_Score")) as [->|Hes].
  - unfold clean_columns.
    destruct (issubset _ cols) eqn:Hsub.
    + destruct (clean_record_score _ _ _ Hclean Hsub) as (v & _ & ->).
      split; [by eexists|]. intros _. case_bool_decide; [done|].
      apply elem_of_app. right. by apply list_elem_of_singleton.
    + by rewrite (clean_record_no_score _ _ _ _ Hclean Hsub).
  - rewrite (clean_columns_elem_of _ _ Hes).
    rewrite (scored_record_other _ _ _ _ Hclean Hes).
    unfold authored_record, dated_record.
    destruct (decide (name = "Author_Type")) as [Ha|Ha],
      (decide (name = "Date")) as [Hd|Hd]; try congruence; subst;
      repeat case_bool_decide;
      repeat (rewrite lookup_insert_eq || rewrite lookup_insert_ne by done);
      try apply Hwf; try (split; [by eexists | done]).
Qed.

(** A well-formed input gives a well-formed result. *)
Lemma load_dataset_well_formed (df out : DataFrame) :
  load_dataset df = Some out → well_formed df → well_formed out.
Proof.
  intros Hload Hwf k r' Hin name.
  destruct (load_dataset_sound _ _ _ _ Hload Hin) as (i & r & Hr & Hclean).
  rewrite (load_dataset_columns _ _ Hload).
  by apply (clean_record_well_formed _ r), (Hwf i).
Qed.

(** In a well-formed frame two records that agree on every column are the
    same record. *)
Lemma well_formed_record_eq (df : DataFrame) i j (r1 r2 : gmap string cell) :
  well_formed df → (i, r1) ∈ records df → (j, r2) ∈ records df →
  (∀ name, name ∈ columns df → cell_of r1 name = cell_of r2 name) → r1 = r2.
Proof.
  intros Hwf H1 H2 Heq. apply map_eq. intros name.
  destruct (decide (name ∈ columns df)) as [Hin|Hnin].
  - specialize (Heq name Hin). unfold cell_of in Heq.
    destruct (proj1 (Hwf i r1 H1 name) Hin) as [v1 E1].
    destruct (proj1 (Hwf j r2 H2 name) Hin) as [v2 E2].
    rewrite E1, E2 in *. simpl in Heq. by subst.
  - destruct (r1 !! name) as [v1|] eqn:E1.
    { exfalso. apply Hnin, (Hwf i r1 H1). by eexists. }
    destruct (r2 !! name) as [v2|] eqn:E2; [|done].
    exfalso. apply Hnin, (Hwf j r2 H2). by eexists.
Qed.

(** ** Duplicates *)

Lemma length_omap_le {A B} (f : A → option B) (l : list A) :
  (length (omap f l) ≤ length l)%nat.
Proof.
  induction l as [|x l IH]; [done|]. csimpl. destruct (f x); simpl; lia.
Qed.

(** Cleaning cannot make more distinct records than the input has. *)
Lemma cleaned_distinct_le (df d : DataFrame) :
  cleaned df = Some d → (distinct_records d ≤ distinct_records df)%nat.
Proof.
  intros [_ F2]%cleaned_Some. unfold distinct_records.
  etrans; [|apply (length_omap_le (clean_record (columns df)))].
  apply submseteq_length, NoDup_submseteq; [apply NoDup_remove_dups|].
  intros r' [[j r''] [-> Hin]]%elem_of_remove_dups%list_elem_of_fmap.
  apply list_elem_of_lookup in Hin as [p Hp].
  destruct (Forall2_lookup_r _ _ _ _ _ F2 Hp) as ([i r] & Hq & _ & Hclean).
  apply list_elem_of_omap. exists r. split; [|done].
  apply elem_of_remove_dups, list_elem_of_fmap. exists (i, r).
  split; [done|]. apply list_elem_of_lookup; eauto.
Qed.

(** C2, as the code has it.  The result of [load_dataset] has no two
    records with the same cells; it has as many records as the cleaned
    frame, the frame after the date, author and score steps, has distinct
    records, which is at most the number of distinct records of the input;
    its records are the first occurrences of the cleaned frame, in the order
    of the frame; and its labels are 0, 1, 2, ... *)
Theorem duplicates_dropped (df out : DataFrame) :
  load_dataset df = Some out →
  ∃ d, cleaned df = Some d
       ∧ NoDup (snd <$> records out)
       ∧ (∀ p q ir jr, records out !! p = Some ir → records out !! q = Some jr →
            p ≠ q → ¬ ∀ name, ir.2 !! name = jr.2 !! name)
       ∧ (well_formed df →
          ∀ p q ir jr, records out !! p = Some ir → records out !! q = Some jr →
            p ≠ q →
            ¬ ∀ name, name ∈ columns out → cell_of ir.2 name = cell_of jr.2 name)
       ∧ length (records out) = distinct_records d
       ∧ (length (records out) ≤ distinct_records df)%nat
       ∧ snd <$> records out = first_occurrences (records d)
       ∧ fst <$> records out = seq 0 (length (records out)).
Proof.
  intros Hload. pose proof (load_dataset_well_formed _ _ Hload) as Hwf.
  apply load_dataset_Some in Hload as (d & Hd & ->). exists d. split; [done|].
  assert (NoDup (snd <$> records (reset_index (drop_duplicates d)))) as Hnodup.
  { rewrite reset_index_cells. apply kept_from_NoDup. }
  assert (length (records (reset_index (drop_duplicates d))) = distinct_records d)
    as Hlen.
  { rewrite <- (length_fmap snd), reset_index_cells, length_fmap.
    apply kept_from_length. }
  assert (∀ p q ir jr,
            records (reset_index (drop_duplicates d)) !! p = Some ir →
            records (reset_index (drop_duplicates d)) !! q = Some jr →
            ir.2 = jr.2 → p = q) as Hinj.
  { intros p q ir jr Hp Hq Heq. eapply (NoDup_lookup _ _ _ ir.2 Hnodup).
    - by rewrite list_lookup_fmap, Hp.
    - by rewrite list_lookup_fmap, Hq, Heq. }
  split; [done|]. split; [|split; [|split; [done|split; [|split]]]].
  - intros p q ir jr Hp Hq Hne Heq. apply Hne, (Hinj p q ir jr); [done..|].
    by apply map_eq.
  - intros Hdf p q [i r1] [j r2] Hp Hq Hne Heq. apply Hne.
    apply (Hinj p q _ _ Hp Hq). simpl in *.
    apply (well_formed_record_eq _ i j _ _ (Hwf Hdf)); [..|done];
      apply list_elem_of_lookup; eauto.
  - rewrite Hlen. by apply cleaned_distinct_le.
  - rewrite reset_index_cells. apply kept_from_first_occurrences.
  - rewrite reset_index_labels. f_equal.
    by rewrite <- (length_fmap snd (records (reset_index _))), reset_index_cells,
      length_fmap.
Qed.

Example first_occurrences_sample :
  first_occurrences (records sample_posts)
  = [record_of [("Likes", Int 10); ("Comments", Int 2); ("Shares", Int 1);
                ("Author_Type", Str "ai ")];
     record_of [("Likes", Int 5); ("Comments", Int 0); ("Shares", Int 0);
                ("Author_Type", Str "Human")]].
Proof. apply (bool_decide_unpack _). vm_compute. exact I. Qed.

(** ** The pivot in the report *)

(** Two posts of two content types by two author types: the grouped series
    has the two pairs that have a post, the pivot has a cell for each of
    the four pairs, two of them without a value. *)
Example pivot_of_two_groups :
  let posts :=
    {| columns := ["Content_Type"; "Author_Type"; "Engagement_Score"];
       records :=
         [(0%nat, record_of [("Content_Type", Str "Blog"); ("Author_Type", Str "Ai");
                             ("Engagement_Score", Int 17)]);
          (1%nat, record_of [("Content_Type", Str "Video"); ("Author_Type", Str "Human");
                             ("Engagement_Score", Int 5)])] |} in
  let grouped :=
    groupby_agg ["Content_Type"; "Author_Type"] "Engagement_Score" series_sum posts in
  grouped = [([Str "Blog"; Str "Ai"], Some 17); ([Str "Video"; Str "Human"], Some 5)]
  ∧ unstack grouped
    = [(Str "Blog", [(Str "Ai", Some (Some 17)); (Str "Human", None)]);
       (Str "Video", [(Str "Ai", None); (Str "Human", Some (Some 5))])].
Proof. vm_compute. done. Qed.

(** * Beyond the pipeline: the dashboard, the report and the script *)

(** ** The order of dates *)

Section date_order.
Implicit Types (a b c : date).

Lemma date_leb_refl a : date_leb a a = true.
Proof. apply date_leb_spec. lia. Qed.

Lemma date_leb_trans a b c :
  date_leb a b = true → date_leb b c = true → date_leb a c = true.
Proof. rewrite !date_leb_spec. lia. Qed.

Lemma date_leb_total a b : date_leb a b = true ∨ date_leb b a = true.
Proof. rewrite !date_leb_spec. lia. Qed.

Lemma date_leb_antisym a b :
  date_leb a b = true → date_leb b a = true → a = b.
Proof.
  rewrite !date_leb_spec. destruct a, b; simpl. intros ??.
  f_equal; lia.
Qed.

Lemma date_min_le_l a b : date_leb (date_min a b) a = true.
Proof.
  unfold date_min. destruct (date_leb a b) eqn:E; [apply date_leb_refl|].
  by destruct (date_leb_total a b) as [H|H]; [rewrite H in E|].
Qed.

Lemma date_min_le_r a b : date_leb (date_min a b) b = true.
Proof. unfold date_min. destruct (date_leb a b) eqn:E; [done | apply date_leb_refl]. Qed.

Lemma date_max_ge_l a b : date_leb a (date_max a b) = true.
Proof. unfold date_max. destruct (date_leb a b) eqn:E; [done | apply date_leb_refl]. Qed.

Lemma date_max_ge_r a b : date_leb b (date_max a b) = true.
Proof.
  unfold date_max. destruct (date_leb a b) eqn:E; [apply date_leb_refl|].
  by destruct (date_leb_total a b) as [H|H]; [rewrite H in E|].
Qed.

(** The least date of a list is one of its dates and is before them all. *)
Lemma foldr_date_min d (ds : list date) :
  foldr date_min d ds ∈ d :: ds
  ∧ ∀ x, x ∈ d :: ds → date_leb (foldr date_min d ds) x = true.
Proof.
  induction ds as [|y ds [IHin IHle]]; simpl.
  - split; [by left|]. intros x ->%list_elem_of_singleton. apply date_leb_refl.
  - split.
    + unfold date_min at 1. destruct (date_leb y _).
      * right. by left.
      * apply elem_of_cons in IHin as [->|?]; [by left | by do 2 right].
    + intros x Hx.
      assert (x = y ∨ x ∈ d :: ds) as [->|Hx'].
      { apply elem_of_cons in Hx as [->|[->|?]%elem_of_cons];
          [right; by left | by left | right; by right]. }
      * apply date_min_le_l.
      * eapply date_leb_trans; [apply date_min_le_r | by apply IHle].
Qed.

Lemma foldr_date_max d (ds : list date) :
  foldr date_max d ds ∈ d :: ds
  ∧ ∀ x, x ∈ d :: ds → date_leb x (foldr date_max d ds) = true.
Proof.
  induction ds as [|y ds [IHin IHle]]; simpl.
  - split; [by left|]. intros x ->%list_elem_of_singleton. apply date_leb_refl.
  - split.
    + unfold date_max at 1. destruct (date_leb y _).
      * apply elem_of_cons in IHin as [->|?]; [by left | by do 2 right].
      * right. by left.
    + intros x Hx.
      assert (x = y ∨ x ∈ d :: ds) as [->|Hx'].
      { apply elem_of_cons in Hx as [->|[->|?]%elem_of_cons];
          [right; by left | by left | right; by right]. }
      * apply date_max_ge_l.
      * eapply date_leb_trans; [by apply IHle | apply date_max_ge_r].
Qed.
End date_order.

(** ** The side bar and the filters *)

Section side_bar.
Implicit Types (df out : DataFrame) (s : list cell).

Lemma filter_ext_in {A} (P Q : A → Prop) `{!∀ x, Decision (P x)} `{!∀ x, Decision (Q x)}
    (l : list A) :
  (∀ x, x ∈ l → (P x ↔ Q x)) → filter P l = filter Q l.
Proof.
  induction l as [|x l IH]; [done|]. intros Hext. rewrite !filter_cons.
  rewrite IH by (intros y Hy; apply Hext; by right).
  pose proof (Hext x ltac:(by left)) as Hx.
  destruct (decide (P x)), (decide (Q x)); tauto.
Qed.

Lemma elem_of_dropna s c : c ∈ dropna s ↔ c ≠ NaN ∧ c ∈ s.
Proof.
  unfold dropna. rewrite list_elem_of_filter.
  destruct c; simpl; intuition congruence.
Qed.

Lemma elem_of_unique_from seen s c :
  c ∈ unique_from seen s ↔ (c ∉ seen) ∧ c ∈ s.
Proof.
  revert seen. induction s as [|x s IH]; intros seen; simpl.
  - split; [by intros ?%elem_of_nil | by intros [_ ?%elem_of_nil]].
  - case_bool_decide as Hx.
    + rewrite IH, elem_of_cons. split; [tauto|].
      intros [Hc [->|?]]; [done | tauto].
    + rewrite !elem_of_cons, IH, elem_of_cons. split.
      * intros [->|[Hn ?]]; [tauto|]. split; [|tauto]. tauto.
      * intros [Hn [->|?]]; [by left|].
        destruct (decide (c = x)) as [->|]; [by left | right; tauto].
Qed.

Lemma unique_from_NoDup seen s : NoDup (unique_from seen s).
Proof.
  revert seen. induction s as [|x s IH]; intros seen; simpl; [constructor|].
  case_bool_decide; [apply IH|]. constructor; [|apply IH].
  rewrite elem_of_unique_from, elem_of_cons. tauto.
Qed.

Lemma elem_of_unique s c : c ∈ unique s ↔ c ∈ s.
Proof.
  unfold unique. rewrite elem_of_unique_from.
  split; [tauto|]. split; [apply not_elem_of_nil | done].
Qed.

Lemma sorted_Some (l l' : list cell) :
  sorted l = Some l' → l' ≡ₚ l.
Proof.
  unfold sorted. destruct (forallb _ l); [|done].
  intros [= <-]. apply merge_sort_Permutation.
Qed.

Lemma sorted_text (l : list cell) :
  Forall (λ c, ∃ x, c = Str x) l → is_Some (sorted l).
Proof.
  intros H. unfold sorted.
  assert (forallb (λ a, forallb (same_kind a) l) l = true) as ->; [|by eexists].
  apply forallb_forall. intros a Ha%list_elem_of_In.
  apply forallb_forall. intros b Hb%list_elem_of_In.
  rewrite Forall_forall in H.
  destruct (H a Ha) as [x ->], (H b Hb) as [y ->]. done.
Qed.

(** On a column of dates, the dates of the series. *)
Lemma datetime_values_dates s :
  Forall (λ c, is_datetime c = true) s →
  ∃ ds, datetime_values s = Some ds ∧ ∀ d, d ∈ ds ↔ Timestamp d ∈ s.
Proof.
  unfold datetime_values, dropna.
  induction 1 as [|c s Hc _ (ds & E & Hds)].
  - exists []. split; [done|]. intros d. by rewrite !elem_of_nil.
  - rewrite filter_cons. destruct c as [| | |d0]; try done.
    + case_decide; [done|]. exists ds. split; [done|].
      intros d. rewrite Hds, elem_of_cons. split; [tauto | by intros [?|?]].
    + case_decide; [|done]. exists (d0 :: ds).
      split; [apply mapM_Some; constructor; [done | by apply mapM_Some]|].
      intros d. rewrite !elem_of_cons, Hds.
      split; [intros [->|?]; tauto | intros [[= ->]|?]; tauto].
Qed.
End side_bar.

Section filter_block.
Implicit Types (df out : DataFrame) (s e : option date) (selected : list cell).

Lemma filter_all {A} (P : A → Prop) `{!∀ x, Decision (P x)} (l : list A) :
  (∀ x, x ∈ l → P x) → filter P l = l.
Proof.
  induction l as [|x l IH]; [done|]. intros Hall.
  rewrite filter_cons_True by (apply Hall; by left).
  f_equal. apply IH. intros y Hy. apply Hall. by right.
Qed.

Lemma filter_isin_passes name selected df :
  filter_isin name selected df
  = {| columns := columns df;
       records := filter (λ ir, passes_isin name selected (columns df) ir.2 = true)
                    (records df) |}.
Proof.
  unfold filter_isin, passes_isin. destruct (_ && _).
  - unfold loc, isin, getitem. f_equal. by rewrite <- list_fmap_compose, select_fmap.
  - rewrite filter_all by done. by destruct df.
Qed.

(** When the date filter runs and returns, the Date column holds dates. *)
Lemma filter_date_range_datetime_inv df (s e : date) out :
  filter_date_range (Some s) (Some e) df = Some out → "Date" ∈ columns df →
  datetime_column df.
Proof.
  unfold filter_date_range, series_ge, getitem. intros H Hcol.
  rewrite bool_decide_true in H by done.
  destruct (mapM _ _) as [ge|] eqn:Hge; [|done].
  assert (is_Some (mapM (compare_timestamp (λ d t, date_leb t d) s)
                     ((λ ir, cell_of ir.2 "Date") <$> records df))) as Hsome
    by (by eexists).
  apply mapM_is_Some in Hsome. rewrite Forall_fmap in Hsome.
  unfold datetime_column.
  eapply Forall_impl; [exact Hsome|]. intros [i r] Hc; simpl in *.
  destruct (cell_of r "Date"); try done; by destruct Hc.
Qed.

Lemma filter_date_range_passes s e df :
  (∀ s' e' : date, s = Some s' → e = Some e' → "Date" ∈ columns df → datetime_column df) →
  filter_date_range s e df
  = Some {| columns := columns df;
            records := filter (λ ir, passes_date s e (columns df) ir.2 = true)
                         (records df) |}.
Proof.
  intros Hdt. unfold passes_date.
  destruct s as [s'|], e as [e'|];
    try (rewrite filter_all by done; by destruct df).
  destruct (decide ("Date" ∈ columns df)) as [Hcol|Hcol].
  - rewrite filter_date_range_datetime by eauto.
    rewrite bool_decide_true by done. unfold loc. by rewrite select_fmap.
  - unfold filter_date_range. rewrite !bool_decide_false by done.
    rewrite filter_all by done. by destruct df.
Qed.

(** The filter block as one filter. *)
Lemma apply_filters_passes s e selected_author_types selected_content_types df :
  (∀ s' e' : date, s = Some s' → e = Some e' → "Date" ∈ columns df → datetime_column df) →
  apply_filters s e selected_author_types selected_content_types df
  = Some {| columns := columns df;
            records :=
              filter (λ ir, passes s e selected_author_types selected_content_types
                              (columns df) ir.2 = true)
                (records df) |}.
Proof.
  intros Hdt. unfold apply_filters. rewrite (filter_date_range_passes _ _ _ Hdt).
  simpl. rewrite !filter_isin_passes. simpl. do 2 f_equal.
  rewrite !list_filter_filter. apply filter_ext_in. intros [i r] _. simpl.
  unfold passes. rewrite !andb_true_iff. tauto.
Qed.

Lemma apply_filters_datetime_inv s e selected_author_types selected_content_types df out :
  apply_filters s e selected_author_types selected_content_types df = Some out →
  ∀ s' e' : date, s = Some s' → e = Some e' → "Date" ∈ columns df → datetime_column df.
Proof.
  unfold apply_filters. intros H s' e' -> -> Hcol.
  destruct (filter_date_range _ _ df) as [filtered|] eqn:Hf; [|done].
  by eapply filter_date_range_datetime_inv.
Qed.

Lemma apply_filters_Some s e selected_author_types selected_content_types df out :
  apply_filters s e selected_author_types selected_content_types df = Some out →
  columns out = columns df
  ∧ records out
    = filter (λ ir, passes s e selected_author_types selected_content_types
                      (columns df) ir.2 = true)
        (records df).
Proof.
  intros Hout. pose proof (apply_filters_datetime_inv _ _ _ _ _ _ Hout) as Hdt.
  rewrite (apply_filters_passes _ _ _ _ _ Hdt) in Hout. by injection Hout as <-.
Qed.
End filter_block.

(** ** Missing author types *)

Lemma elem_of_options name df opts c :
  name ∈ columns df → options name df = Some opts →
  c ∈ opts ↔ c ≠ NaN ∧ c ∈ getitem name df.
Proof.
  intros Hcol. unfold options, sorted. rewrite bool_decide_true by done.
  destruct (forallb _ _); [|done]. intros [= <-].
  by rewrite merge_sort_Permutation, elem_of_unique, elem_of_dropna.
Qed.

(** C10, as the code has it.  With an Author_Type column in the input, the
    Author_Type cell of a record of the result is a text, or the record is
    the clean form of an input record whose author type is missing and the
    library is pandas 3.  Up to pandas 2 a missing author type is the text
    "Nan" in the result: one of the options of the side bar, a value that
    the author filter selects, and a group like any other.  From pandas 3 on
    it is missing in the result as well: it is no option of the side bar, a
    selection of options leaves the record out, and so does every group. *)
Theorem missing_author_types (df out : DataFrame) :
  load_dataset df = Some out → "Author_Type" ∈ columns df →
  (∀ k r', (k, r') ∈ records out →
     (∃ s, r' !! "Author_Type" = Some (Str s))
     ∨ (installed = pandas_3 ∧ r' !! "Author_Type" = Some NaN
        ∧ ∃ i r, (i, r) ∈ records df ∧ clean_record (columns df) r = Some r'
                 ∧ cell_of r "Author_Type" = NaN))
  ∧ (∀ i r, (i, r) ∈ records df → cell_of r "Author_Type" = NaN →
       ∃ k r', (k, r') ∈ records out
               ∧ clean_record (columns df) r = Some r'
               ∧ match installed with
                 | pandas_2 =>
                     r' !! "Author_Type" = Some (Str "Nan")
                     ∧ (∀ opts, options "Author_Type" out = Some opts → Str "Nan" ∈ opts)
                     ∧ (k, r') ∈ records (filter_isin "Author_Type" [Str "Nan"] out)
                     ∧ ∀ (R : Type) metric (agg : list cell → R),
                         [Str "Nan"] ∈ (fst <$> groupby_agg ["Author_Type"] metric agg out)
                 | pandas_3 =>
                     r' !! "Author_Type" = Some NaN
                     ∧ (∀ opts, options "Author_Type" out = Some opts → NaN ∉ opts)
                     ∧ (∀ opts selected,
                          options "Author_Type" out = Some opts →
                          selected ≠ [] → selected ⊆ opts →
                          (k, r') ∉ records (filter_isin "Author_Type" selected out))
                     ∧ ∀ (R : Type) metric (agg : list cell → R),
                         key_of ["Author_Type"] r'
                         ∉ (fst <$> groupby_agg ["Author_Type"] metric agg out)
                 end).
Proof.
  intros Hload Hcol.
  assert ("Author_Type" ∈ columns out) as Hcol'.
  { rewrite (load_dataset_columns _ _ Hload). by apply clean_columns_elem_of. }
  split.
  - intros k r' Hin.
    destruct (load_dataset_sound _ _ _ _ Hload Hin) as (i & r & Hr & Hclean).
    rewrite (clean_record_Author_Type _ _ _ Hclean Hcol).
    unfold clean_author, astype_str_cell.
    destruct (cell_of r "Author_Type") eqn:Hc; try (left; by eexists).
    destruct installed; [left; by eexists|].
    right. split; [done|]. split; [done|]. by exists i, r.
  - intros i r Hin Hna.
    destruct (load_dataset_complete _ _ _ _ Hload Hin) as (k & r' & Hr' & Hclean).
    pose proof (clean_record_Author_Type _ _ _ Hclean Hcol) as Hcell.
    rewrite Hna in Hcell. unfold clean_author, astype_str_cell in Hcell.
    exists k, r'. split; [done|]. split; [done|].
    destruct installed; cbn in Hcell.
    + change (title (strip "nan")) with "Nan" in Hcell.
      split; [done|]. split; [|split].
      * intros opts Hopts. apply (elem_of_options _ _ _ _ Hcol' Hopts).
        split; [done|]. unfold getitem. apply list_elem_of_fmap.
        exists (k, r'). split; [|done]. simpl. unfold cell_of. by rewrite Hcell.
      * apply elem_of_filter_isin; [done|done|].
        split; [done|]. simpl. unfold cell_of. rewrite Hcell.
        by apply list_elem_of_singleton.
      * intros R metric agg. rewrite groupby_agg_keys.
        apply elem_of_group_keys. split; [done|]. exists k, r'. split; [done|].
        unfold key_of, cell_of. simpl. by rewrite Hcell.
    + split; [done|]. split; [|split].
      * intros opts Hopts [Hne _]%(elem_of_options _ _ _ _ Hcol' Hopts). done.
      * intros opts selected Hopts Hsel Hsub.
        rewrite elem_of_filter_isin by done. intros [_ Hc]. simpl in Hc.
        unfold cell_of in Hc. rewrite Hcell in Hc. simpl in Hc.
        by apply Hsub, (elem_of_options _ _ _ _ Hcol' Hopts) in Hc as [Hne _].
      * intros R metric agg. rewrite groupby_agg_keys, elem_of_group_keys.
        intros [Hk _]. unfold key_of, cell_of in Hk. simpl in Hk.
        by rewrite Hcell in Hk.
Qed.

(** X1.  When the filter block returns, it has kept exactly the records that
    pass the date range, the author selection and the content selection, in
    the order of the frame; running it again on its result changes nothing,
    and the two selections can be applied in either order. *)
Theorem filters_are_a_conjunction (start_date end_date : option date)
    (selected_author_types selected_content_types : list cell) (df out : DataFrame) :
  apply_filters start_date end_date selected_author_types selected_content_types df
  = Some out →
  columns out = columns df
  ∧ records out
    = filter (λ ir, passes start_date end_date selected_author_types
                      selected_content_types (columns df) ir.2 = true)
        (records df)
  ∧ apply_filters start_date end_date selected_author_types selected_content_types out
    = Some out
  ∧ (∃ filtered,
       filter_date_range start_date end_date df = Some filtered
       ∧ filter_isin "Author_Type" selected_author_types
           (filter_isin "Content_Type" selected_content_types filtered) = out).
Proof.
  intros Hout. pose proof (apply_filters_datetime_inv _ _ _ _ _ _ Hout) as Hdt.
  rewrite (apply_filters_passes _ _ _ _ _ Hdt) in Hout. injection Hout as <-.
  split; [done|]. split; [done|]. split.
  - rewrite apply_filters_passes; simpl.
    + do 2 f_equal. rewrite list_filter_filter. apply filter_ext_in.
      intros ir _. tauto.
    + intros s' e' -> -> Hcol. unfold datetime_column; simpl.
      apply Forall_forall. intros ir [_ Hin]%list_elem_of_filter.
      specialize (Hdt s' e' eq_refl eq_refl Hcol).
      unfold datetime_column in Hdt. rewrite Forall_forall in Hdt. by apply Hdt.
  - eexists. split; [by apply filter_date_range_passes|].
    rewrite !filter_isin_passes. simpl. f_equal.
    rewrite !list_filter_filter. apply filter_ext_in. intros [i r] _. simpl.
    unfold passes. rewrite !andb_true_iff. tauto.
Qed.

Lemma filters_are_a_conjunction_witness :
  apply_filters (Some (Date 2024 1 1)) (Some (Date 2024 12 31)) [Str "Ai"] []
    sample_raw_clean
  = Some {| columns := columns sample_raw_clean;
            records := take 1 (records sample_raw_clean) |}
  ∧ take 1 (records sample_raw_clean)
    = filter (λ ir, passes (Some (Date 2024 1 1)) (Some (Date 2024 12 31)) [Str "Ai"] []
                      (columns sample_raw_clean) ir.2 = true)
        (records sample_raw_clean).
Proof.
  assert (apply_filters (Some (Date 2024 1 1)) (Some (Date 2024 12 31)) [Str "Ai"] []
            sample_raw_clean
          = Some {| columns := columns sample_raw_clean;
                    records := take 1 (records sample_raw_clean) |}) as H
    by (vm_compute; reflexivity).
  split; [exact H|].
  exact (proj1 (proj2 (filters_are_a_conjunction _ _ _ _ _ _ H))).
Defined.

(** X2.  On a frame with a Date column of dates, the date widget starts on
    the first and the last date of the frame, and the date filter with these
    two dates keeps the records that have a date and drops those whose date
    is missing.  When no record has a date, the widget gives no dates and
    the filter keeps every record. *)
Theorem default_date_range_keeps_dated_records (df : DataFrame) :
  "Date" ∈ columns df → datetime_column df →
  ∃ range out,
    default_date_range df = Some range
    ∧ filter_date_range range.1 range.2 df = Some out
    ∧ columns out = columns df
    ∧ records out
      = if decide (Forall (λ ir, cell_of ir.2 "Date" = NaN) (records df))
        then records df
        else filter (λ ir, cell_of ir.2 "Date" ≠ NaN) (records df).
Proof.
  intros Hcol Hdt. unfold default_date_range. rewrite bool_decide_true by done.
  destruct (datetime_values_dates (getitem "Date" df)) as (ds & E & Hds).
  { unfold getitem. by apply Forall_fmap. }
  assert (∀ d, d ∈ ds ↔ ∃ ir, ir ∈ records df ∧ cell_of ir.2 "Date" = Timestamp d)
    as Hds'.
  { intros d. rewrite Hds. unfold getitem. rewrite list_elem_of_fmap.
    split; intros (ir & ? & ?); by exists ir. }
  unfold series_min, series_max. rewrite E. simpl.
  unfold datetime_column in Hdt. rewrite Forall_forall in Hdt.
  destruct ds as [|d0 ds].
  - exists (None, None), df. split; [done|]. split; [done|]. split; [done|].
    case_decide as Hall; [done|]. exfalso. apply Hall, Forall_forall.
    intros ir Hin. specialize (Hdt ir Hin). simpl in Hdt.
    destruct (cell_of ir.2 "Date") as [| | |d] eqn:Hc; try done.
    assert (d ∈ []) as ?%elem_of_nil by (apply Hds'; eauto). done.
  - destruct (foldr_date_min d0 ds) as [_ Hmin].
    destruct (foldr_date_max d0 ds) as [_ Hmax].
    eexists (Some _, Some _), _. split; [done|]. cbn [fst snd].
    rewrite filter_date_range_datetime by (by apply Forall_forall || done).
    split; [done|]. split; [done|]. unfold loc; simpl. rewrite select_fmap.
    case_decide as Hall.
    + exfalso. destruct (proj1 (Hds' d0) ltac:(by left)) as (ir & Hin & Hc).
      rewrite Forall_forall in Hall. specialize (Hall ir Hin). congruence.
    + apply filter_ext_in. intros ir Hin. specialize (Hdt ir Hin). cbn beta in *.
      destruct (cell_of ir.2 "Date") as [| | |d] eqn:Hc; try done.
      assert (d ∈ d0 :: ds) as Hd by (apply Hds'; eauto).
      unfold in_date_range. rewrite (Hmin d Hd), (Hmax d Hd). done.
Qed.

Lemma default_date_range_keeps_dated_records_witness :
  "Date" ∈ columns sample_raw_clean
  ∧ datetime_column sample_raw_clean
  ∧ ∃ range out,
      default_date_range sample_raw_clean = Some range
      ∧ filter_date_range range.1 range.2 sample_raw_clean = Some out
      ∧ columns out = columns sample_raw_clean
      ∧ records out
        = if decide (Forall (λ ir, cell_of ir.2 "Date" = NaN) (records sample_raw_clean))
          then records sample_raw_clean
          else filter (λ ir, cell_of ir.2 "Date" ≠ NaN) (records sample_raw_clean).
Proof.
  assert ("Date" ∈ columns sample_raw_clean) as Hcol
    by (apply (bool_decide_unpack _); vm_compute; exact I).
  assert (datetime_column sample_raw_clean) as Hdt by (by repeat constructor).
  split; [exact Hcol|]. split; [exact Hdt|].
  exact (default_date_range_keeps_dated_records sample_raw_clean Hcol Hdt).
Defined.

(** Of the three sample posts only the first has a date: the other two are
    not in the first view of the dashboard. *)
Example default_view_sample :
  default_view sample_raw_clean
  = Some {| columns := columns sample_raw_clean;
            records := take 1 (records sample_raw_clean) |}.
Proof. vm_compute. reflexivity. Qed.

(** X3.  On a text column of the frame, the selection widget starts with the
    distinct values of the column, each once, the missing value not among
    them; the filter with that selection keeps the records that have a
    value in the column and drops those where it is missing.  When no
    record has a value, the selection is empty and the filter keeps every
    record. *)
Theorem default_selection_keeps_known_values (name : string) (df : DataFrame) :
  name ∈ columns df →
  Forall (λ ir, is_text (cell_of ir.2 name) = true) (records df) →
  ∃ selected,
    options name df = Some selected
    ∧ NoDup selected
    ∧ (∀ c, c ∈ selected ↔ c ≠ NaN ∧ c ∈ getitem name df)
    ∧ records (filter_isin name selected df)
      = if decide (Forall (λ ir, cell_of ir.2 name = NaN) (records df))
        then records df
        else filter (λ ir, cell_of ir.2 name ≠ NaN) (records df).
Proof.
  intros Hcol Htext. unfold options. rewrite bool_decide_true by done.
  rewrite Forall_forall in Htext.
  destruct (sorted_text (unique (dropna (getitem name df)))) as [selected Hsel].
  { apply Forall_forall. intros c [Hc Hin]%elem_of_unique%elem_of_dropna.
    unfold getitem in Hin. apply list_elem_of_fmap in Hin as (ir & -> & Hin).
    specialize (Htext ir Hin). simpl in Htext.
    destruct (cell_of ir.2 name); try done. by eexists. }
  exists selected. split; [done|]. apply sorted_Some in Hsel.
  assert (∀ c, c ∈ selected ↔ c ≠ NaN ∧ c ∈ getitem name df) as Helem.
  { intros c. by rewrite Hsel, elem_of_unique, elem_of_dropna. }
  split; [rewrite Hsel; apply unique_from_NoDup|]. split; [done|].
  rewrite filter_isin_passes. simpl. unfold passes_isin.
  rewrite bool_decide_true by done. case_decide as Hall.
  - rewrite Forall_forall in Hall. destruct selected as [|c selected].
    + by apply filter_all.
    + exfalso. destruct (proj1 (Helem c) ltac:(by left)) as [Hc Hin].
      unfold getitem in Hin. apply list_elem_of_fmap in Hin as (ir & -> & Hin).
      by apply Hc, Hall.
  - destruct selected as [|c0 selected].
    + exfalso. apply Hall, Forall_forall. intros ir Hin.
      destruct (decide (cell_of ir.2 name = NaN)) as [|Hne]; [done|].
      assert (cell_of ir.2 name ∈ []) as ?%elem_of_nil; [|done].
      apply Helem. split; [done|]. unfold getitem. apply list_elem_of_fmap.
      by exists ir.
    + simpl. apply filter_ext_in. intros ir Hin.
      rewrite bool_decide_eq_true, Helem. split; [tauto|].
      intros Hne. split; [done|]. unfold getitem. apply list_elem_of_fmap.
      by exists ir.
Qed.

Lemma default_selection_keeps_known_values_witness :
  "Author_Type" ∈ columns sample_raw_clean
  ∧ Forall (λ ir, is_text (cell_of ir.2 "Author_Type") = true) (records sample_raw_clean)
  ∧ ∃ selected,
      options "Author_Type" sample_raw_clean = Some selected
      ∧ NoDup selected
      ∧ (∀ c, c ∈ selected ↔ c ≠ NaN ∧ c ∈ getitem "Author_Type" sample_raw_clean)
      ∧ records (filter_isin "Author_Type" selected sample_raw_clean)
        = if decide (Forall (λ ir, cell_of ir.2 "Author_Type" = NaN)
                       (records sample_raw_clean))
          then records sample_raw_clean
          else filter (λ ir, cell_of ir.2 "Author_Type" ≠ NaN)
                 (records sample_raw_clean).
Proof.
  assert ("Author_Type" ∈ columns sample_raw_clean) as Hcol
    by (apply (bool_decide_unpack _); vm_compute; exact I).
  assert (Forall (λ ir, is_text (cell_of ir.2 "Author_Type") = true)
            (records sample_raw_clean)) as Htext by (by repeat constructor).
  split; [exact Hcol|]. split; [exact Htext|].
  exact (default_selection_keeps_known_values "Author_Type" sample_raw_clean Hcol Htext).
Defined.

Example options_sample :
  options "Author_Type" sample_raw_clean
  = Some [Str "Ai"; Str "Nan"; Str "Robot Writer"].
Proof. vm_compute. reflexivity. Qed.

(** A column with text and numbers cannot be offered for selection. *)
Example options_mixed :
  options "Content_Type"
    {| columns := ["Content_Type"];
       records := [(0%nat, record_of [("Content_Type", Str "Blog")]);
                   (1%nat, record_of [("Content_Type", Int 7)])] |}
  = None.
Proof. vm_compute. reflexivity. Qed.

(** ** The indicators *)

Section indicators.
Implicit Types (s : list cell).

Lemma series_sum_counts s :
  Forall (λ c, is_count c = true) s → series_sum s = Some (sum_counts s).
Proof.
  intros H. unfold series_sum.
  assert (counts_of s = Some (omap (λ c, match c with Int z => Some z | _ => None end) s)
          ∧ sum_counts s
            = foldr Z.add 0 (omap (λ c, match c with Int z => Some z | _ => None end) s))
    as [-> ->]; [|done].
  unfold counts_of. induction H as [|c s Hc _ [IH1 IH2]]; [done|].
  rewrite filter_cons. destruct c as [|z| |]; try done.
  case_decide as Hd; [|by simpl in Hd]. split.
  - apply mapM_Some. constructor; [done | by apply mapM_Some].
  - csimpl. by rewrite IH2.
Qed.

Lemma sum_counts_nonneg s : Forall (λ c, is_count c = true) s → (0 ≤ sum_counts s)%Z.
Proof.
  induction 1 as [|c s Hc _ IH]; simpl; [done|].
  destruct c; try done. apply Z.leb_le in Hc. lia.
Qed.

(** Leaving out cells of a series of counts cannot raise its sum. *)
Lemma sum_counts_sublist s s' :
  s' `sublist_of` s → Forall (λ c, is_count c = true) s →
  (sum_counts s' ≤ sum_counts s)%Z.
Proof.
  induction 1 as [|c s1 s2 _ IH|c s1 s2 _ IH]; [done|..];
    intros [Hc Hs]%Forall_cons; specialize (IH Hs); simpl.
  - destruct c; lia.
  - destruct c; try lia. apply Z.leb_le in Hc. lia.
Qed.

Lemma magnitude_nonneg s : (0 ≤ magnitude s)%Z.
Proof. induction s as [|[] s IH]; simpl; lia. Qed.

(** No sum of cells is further from zero than the magnitude of the series. *)
Lemma sum_counts_magnitude s : (Z.abs (sum_counts s) ≤ magnitude s)%Z.
Proof. induction s as [|[] s IH]; simpl; lia. Qed.

Lemma magnitude_sublist s s' : s' `sublist_of` s → (magnitude s' ≤ magnitude s)%Z.
Proof.
  induction 1 as [|c s1 s2 _ IH|c s1 s2 _ IH]; [done|..]; simpl; destruct c; lia.
Qed.

Lemma exact_series_sum s s' :
  s' `sublist_of` s → exact_series s → exact_count (sum_counts s').
Proof.
  intros Hsub Hs. unfold exact_series, exact_count in *.
  pose proof (magnitude_sublist _ _ Hsub). pose proof (sum_counts_magnitude s'). lia.
Qed.
End indicators.

(** X4.  On a column of counts, none of them negative, whose sum stays
    within 2^53, the total that the dashboard shows for any filter setting
    is at least zero and at most the total of the whole frame, and both are
    sums of the integers. *)
Theorem filtered_total_is_bounded (name : string) (start_date end_date : option date)
    (selected_author_types selected_content_types : list cell) (df out : DataFrame) :
  apply_filters start_date end_date selected_author_types selected_content_types df
  = Some out →
  name ∈ columns df →
  Forall (λ ir, is_count (cell_of ir.2 name) = true) (records df) →
  exact_series (getitem name df) →
  ∃ total shown,
    kpi_sum name df = Some (Some total)
    ∧ kpi_sum name out = Some (Some shown)
    ∧ (0 ≤ shown ≤ total)%Z
    ∧ exact_count total ∧ exact_count shown.
Proof.
  intros Hout Hcol Hcount Hexact.
  destruct (apply_filters_Some _ _ _ _ _ _ Hout) as (Hcols & Hrec).
  assert (records out `sublist_of` records df) as Hsub.
  { rewrite Hrec. apply sublist_filter. }
  assert (Forall (λ c, is_count c = true) (getitem name df)) as Hdf.
  { unfold getitem. by apply Forall_fmap. }
  assert (getitem name out `sublist_of` getitem name df) as Hsub'.
  { unfold getitem. by apply fmap_sublist. }
  assert (Forall (λ c, is_count c = true) (getitem name out)) as Hfiltered.
  { apply Forall_forall. intros c Hc. rewrite Forall_forall in Hdf.
    apply Hdf. eapply sublist_subseteq; [exact Hsub' | exact Hc]. }
  exists (sum_counts (getitem name df)), (sum_counts (getitem name out)).
  unfold kpi_sum. rewrite Hcols, !bool_decide_true by done.
  rewrite !series_sum_counts by done. split; [done|]. split; [done|].
  split; [split; [by apply sum_counts_nonneg | by apply sum_counts_sublist]|].
  split; by eapply exact_series_sum.
Qed.

Lemma filtered_total_is_bounded_witness :
  apply_filters None None [Str "Ai"] [] sample_raw_clean
  = Some {| columns := columns sample_raw_clean;
            records := take 1 (records sample_raw_clean) |}
  ∧ "Likes" ∈ columns sample_raw_clean
  ∧ Forall (λ ir, is_count (cell_of ir.2 "Likes") = true) (records sample_raw_clean)
  ∧ exact_series (getitem "Likes" sample_raw_clean)
  ∧ ∃ total shown,
      kpi_sum "Likes" sample_raw_clean = Some (Some total)
      ∧ kpi_sum "Likes" {| columns := columns sample_raw_clean;
                           records := take 1 (records sample_raw_clean) |}
        = Some (Some shown)
      ∧ (0 ≤ shown ≤ total)%Z
      ∧ exact_count total ∧ exact_count shown.
Proof.
  assert (apply_filters None None [Str "Ai"] [] sample_raw_clean
          = Some {| columns := columns sample_raw_clean;
                    records := take 1 (records sample_raw_clean) |}) as H
    by (vm_compute; reflexivity).
  assert ("Likes" ∈ columns sample_raw_clean) as Hcol
    by (apply (bool_decide_unpack _); vm_compute; exact I).
  assert (Forall (λ ir, is_count (cell_of ir.2 "Likes") = true)
            (records sample_raw_clean)) as Hcount by (by repeat constructor).
  assert (exact_series (getitem "Likes" sample_raw_clean)) as Hexact
    by (apply (bool_decide_unpack _); vm_compute; exact I).
  split; [exact H|]. split; [exact Hcol|]. split; [exact Hcount|].
  split; [exact Hexact|].
  exact (filtered_total_is_bounded "Likes" _ _ _ _ _ _ H Hcol Hcount Hexact).
Defined.

(** ** The order of group keys *)

Section cell_order.
Implicit Types (a b c : cell) (k : list cell).

Lemma string_compare_trans (s1 s2 s3 : string) :
  String.compare s1 s2 ≠ Gt → String.compare s2 s3 ≠ Gt → String.compare s1 s3 ≠ Gt.
Proof.
  revert s2 s3. induction s1 as [|x s1 IH]; intros [|y s2] [|z s3]; simpl; try done.
  unfold Ascii.compare.
  destruct (N.compare_spec (N_of_ascii x) (N_of_ascii y)) as [E1|L1|G1];
    destruct (N.compare_spec (N_of_ascii y) (N_of_ascii z)) as [E2|L2|G2];
    destruct (N.compare_spec (N_of_ascii x) (N_of_ascii z)) as [E3|L3|G3];
    try done; try lia.
  apply IH.
Qed.

Lemma string_leb_trans (s1 s2 s3 : string) :
  String.leb s1 s2 = true → String.leb s2 s3 = true → String.leb s1 s3 = true.
Proof.
  unfold String.leb. intros H1 H2.
  pose proof (string_compare_trans s1 s2 s3) as H.
  destruct (String.compare s1 s2), (String.compare s2 s3), (String.compare s1 s3);
    try done; by destruct H.
Qed.

Lemma cell_leb_total a b : cell_leb a b = true ∨ cell_leb b a = true.
Proof.
  destruct a as [|x|x|x], b as [|y|y|y]; simpl; auto.
  - rewrite !Z.leb_le. lia.
  - apply String.leb_total.
  - apply date_leb_total.
Qed.

Lemma cell_leb_trans a b c :
  cell_leb a b = true → cell_leb b c = true → cell_leb a c = true.
Proof.
  destruct a as [|x|x|x], b as [|y|y|y], c as [|z|z|z]; simpl; try done.
  - rewrite !Z.leb_le. lia.
  - apply string_leb_trans.
  - apply date_leb_trans.
Qed.

Lemma cell_leb_antisym a b : cell_leb a b = true → cell_leb b a = true → a = b.
Proof.
  destruct a as [|x|x|x], b as [|y|y|y]; simpl; try done.
  - rewrite !Z.leb_le. intros. f_equal. lia.
  - intros H1 H2. f_equal. by apply String.leb_antisym.
  - intros H1 H2. f_equal. by apply date_leb_antisym.
Qed.

Lemma key_leb_total k1 k2 : key_leb k1 k2 = true ∨ key_leb k2 k1 = true.
Proof.
  revert k2. induction k1 as [|x k1 IH]; intros [|y k2]; simpl; auto.
  destruct (decide (x = y)) as [->|Hne].
  - destruct (decide (y = y)); [apply IH | done].
  - destruct (decide (y = x)) as [->|_]; [done | apply cell_leb_total].
Qed.

Lemma key_leb_trans k1 k2 k3 :
  key_leb k1 k2 = true → key_leb k2 k3 = true → key_leb k1 k3 = true.
Proof.
  revert k2 k3. induction k1 as [|x k1 IH]; intros [|y k2] [|z k3]; simpl; try done.
  repeat match goal with
         | |- context [decide (?a = ?b)] => destruct (decide (a = b)) as [?|?]
         end; subst; try done.
  - apply IH.
  - intros H1 H2. exfalso. eauto using cell_leb_antisym.
  - apply cell_leb_trans.
Qed.

Lemma key_leb_antisym k1 k2 :
  key_leb k1 k2 = true → key_leb k2 k1 = true → k1 = k2.
Proof.
  revert k2. induction k1 as [|x k1 IH]; intros [|y k2]; simpl; try done.
  repeat match goal with
         | |- context [decide (?a = ?b)] => destruct (decide (a = b)) as [?|?]
         end; subst; try done.
  - intros. f_equal. by apply IH.
  - intros H1 H2. exfalso. eauto using cell_leb_antisym.
Qed.

#[local] Instance key_leb_Total : Total (λ k1 k2 : list cell, key_leb k1 k2).
Proof.
  intros k1 k2. destruct (key_leb_total k1 k2) as [H|H]; rewrite H; [by left|by right].
Qed.

#[local] Instance key_leb_Transitive : Transitive (λ k1 k2 : list cell, key_leb k1 k2).
Proof.
  intros k1 k2 k3 H1%Is_true_true H2%Is_true_true. apply Is_true_true.
  by eapply key_leb_trans.
Qed.

#[local] Instance key_leb_AntiSymm : AntiSymm (=) (λ k1 k2 : list cell, key_leb k1 k2).
Proof. intros k1 k2 H1%Is_true_true H2%Is_true_true. by apply key_leb_antisym. Qed.

Lemma group_keys_Sorted keys df :
  StronglySorted (λ k1 k2 : list cell, key_leb k1 k2) (group_keys keys df).
Proof. apply StronglySorted_merge_sort; apply _. Qed.

Lemma group_keys_Permutation keys df df' :
  records df' ≡ₚ records df → group_keys keys df' = group_keys keys df.
Proof.
  intros Hp. unfold group_keys.
  apply (Sorted_unique (λ k1 k2 : list cell, key_leb k1 k2));
    [apply Sorted_merge_sort, _..|].
  rewrite !merge_sort_Permutation.
  apply NoDup_Permutation; [apply NoDup_remove_dups..|].
  intros k. rewrite !elem_of_remove_dups. by rewrite Hp.
Qed.
End cell_order.

(** ** Sums and means *)

Section reductions.
Implicit Types (s : list cell) (df : DataFrame).

Lemma counts_of_spec s :
  counts_of s = if forallb is_numeric s then Some (count_values s) else None.
Proof.
  unfold counts_of, count_values. induction s as [|c s IH]; [done|].
  rewrite filter_cons. destruct c as [|z|x|d]; simpl.
  - exact IH.
  - rewrite IH. by destruct (forallb is_numeric s).
  - done.
  - done.
Qed.

Lemma sum_counts_values s : sum_counts s = foldr Z.add 0 (count_values s).
Proof.
  unfold sum_counts, count_values. induction s as [|c s IH]; [done|].
  destruct c; csimpl; by rewrite IH.
Qed.

Lemma count_values_length s :
  forallb is_numeric s = true → length (count_values s) = count s.
Proof.
  unfold count_values, count, dropna. induction s as [|c s IH]; [done|].
  rewrite filter_cons. destruct c; csimpl; try done; intros H; by rewrite IH.
Qed.

Lemma series_sum_spec s :
  series_sum s = if forallb is_numeric s then Some (sum_counts s) else None.
Proof.
  unfold series_sum. rewrite counts_of_spec, sum_counts_values.
  by destruct (forallb is_numeric s).
Qed.

Lemma series_mean_spec s :
  series_mean s
  = if forallb is_numeric s then Some (mean_of (sum_counts s) (count s)) else None.
Proof.
  unfold series_mean. rewrite counts_of_spec, sum_counts_values.
  destruct (forallb is_numeric s) eqn:E; [|done]. simpl.
  rewrite <- (count_values_length s E). by destruct (count_values s).
Qed.

Lemma forallb_Permutation {A} (f : A → bool) (l l' : list A) :
  l ≡ₚ l' → forallb f l = forallb f l'.
Proof.
  induction 1 as [|x l l' _ IH|x y l|l l' l'' _ IH1 _ IH2]; simpl.
  - done.
  - by rewrite IH.
  - by rewrite !andb_assoc, (andb_comm (f y)).
  - congruence.
Qed.

Lemma foldr_add_Permutation (l l' : list Z) :
  l ≡ₚ l' → foldr Z.add 0 l = foldr Z.add 0 l'.
Proof. induction 1; simpl; lia. Qed.

Lemma sum_counts_Permutation s s' : s ≡ₚ s' → sum_counts s = sum_counts s'.
Proof.
  intros H. rewrite !sum_counts_values. apply foldr_add_Permutation.
  unfold count_values. by rewrite H.
Qed.

Lemma sum_counts_app s s' : sum_counts (s ++ s') = sum_counts s + sum_counts s'.
Proof.
  unfold sum_counts. induction s as [|c s IH]; [done|].
  simpl. rewrite IH. destruct c; lia.
Qed.

Lemma sum_counts_concat (groups : list (list cell)) :
  sum_counts (concat groups) = foldr Z.add 0 (sum_counts <$> groups).
Proof.
  induction groups as [|g groups IH]; [done|].
  csimpl. by rewrite sum_counts_app, IH.
Qed.


Lemma series_mean_Permutation s s' : s ≡ₚ s' → series_mean s = series_mean s'.
Proof.
  intros H. rewrite !series_mean_spec.
  rewrite (forallb_Permutation _ _ _ H), (sum_counts_Permutation _ _ H).
  unfold count, dropna. by rewrite H.
Qed.

Lemma groupby_agg_Permutation {R} keys metric (agg : list cell → R) df df' :
  (∀ s s', s ≡ₚ s' → agg s = agg s') →
  records df' ≡ₚ records df →
  groupby_agg keys metric agg df' = groupby_agg keys metric agg df.
Proof.
  intros Hagg Hp. unfold groupby_agg. rewrite (group_keys_Permutation _ _ _ Hp).
  apply list_fmap_ext. intros _ k _. f_equal. apply Hagg.
  unfold group_values. by rewrite Hp.
Qed.

Lemma sort_values_Permutation name df by_name :
  sort_values name df = Some by_name →
  columns by_name = columns df ∧ records by_name ≡ₚ records df.
Proof.
  unfold sort_values. destruct (_ && _); [|done]. intros [= <-]. simpl.
  split; [done|]. apply merge_sort_Permutation.
Qed.
End reductions.

(** ** The groups of a frame *)

Section partition.
Implicit Types (df : DataFrame) (keys : list string) (metric : string).

Lemma filter_disjoint_app {A} (P Q : A → Prop)
    `{!∀ x, Decision (P x)} `{!∀ x, Decision (Q x)} (l : list A) :
  (∀ x, P x → Q x → False) →
  filter P l ++ filter Q l ≡ₚ filter (λ x, P x ∨ Q x) l.
Proof.
  intros Hd. induction l as [|x l IH]; [done|].
  rewrite !filter_cons. destruct (decide (P x)) as [HP|HP], (decide (Q x)) as [HQ|HQ].
  - by destruct (Hd x).
  - rewrite decide_True by auto. simpl. by rewrite IH.
  - rewrite decide_True by auto. rewrite <- Permutation_middle. by rewrite IH.
  - rewrite decide_False by tauto. done.
Qed.

Lemma concat_groups {A K} `{EqDecision K} (f : A → K) (ks : list K) (l : list A) :
  NoDup ks →
  concat ((λ k, filter (λ x, f x = k) l) <$> ks) ≡ₚ filter (λ x, f x ∈ ks) l.
Proof.
  induction 1 as [|k ks Hk _ IH]; csimpl.
  - rewrite (filter_ext_in _ (λ _, False)); [|intros x _; by rewrite elem_of_nil].
    by induction l.
  - rewrite IH, filter_disjoint_app by (by intros x -> ?).
    erewrite filter_ext_in; [done|]. intros x _. by rewrite elem_of_cons.
Qed.

Lemma concat_fmap_fmap {A B K} (f : A → B) (g : K → list A) (ks : list K) :
  concat ((λ k, f <$> g k) <$> ks) = f <$> concat (g <$> ks).
Proof. induction ks as [|k ks IH]; csimpl; [done|]. by rewrite fmap_app, IH. Qed.

(** The groups of a frame are its records with a complete key, each in one
    group. *)
Lemma groups_partition keys metric df :
  concat ((λ k, group_values keys metric k df) <$> group_keys keys df)
  ≡ₚ (λ ir, cell_of ir.2 metric) <$> keyed_records keys df.
Proof.
  unfold group_values, keyed_records.
  rewrite (concat_fmap_fmap (λ ir, cell_of ir.2 metric)
             (λ k, filter (λ ir, key_of keys ir.2 = k) (records df))).
  apply fmap_Permutation.
  rewrite (concat_groups (λ ir : nat * gmap string cell, key_of keys ir.2))
    by apply group_keys_NoDup.
  erewrite filter_ext_in; [done|]. intros [i r] Hin. simpl.
  rewrite elem_of_group_keys. split; [by intros [? _]|]. intros ?. eauto.
Qed.

Lemma keyed_records_all keys df :
  (∀ i r, (i, r) ∈ records df → notna_key (key_of keys r) = true) →
  keyed_records keys df = records df.
Proof. intros H. apply filter_all. intros [i r] Hin. by apply (H i). Qed.

Lemma group_values_subseteq keys metric k df :
  group_values keys metric k df ⊆ getitem metric df.
Proof.
  unfold group_values, getitem. intros c (ir & -> & [_ Hin]%list_elem_of_filter)%list_elem_of_fmap.
  apply list_elem_of_fmap. eauto.
Qed.

Lemma forallb_subseteq {A} (f : A → bool) (l l' : list A) :
  l ⊆ l' → forallb f l' = true → forallb f l = true.
Proof.
  rewrite !forallb_forall. intros Hsub H x Hx%list_elem_of_In.
  apply H, list_elem_of_In, Hsub, Hx.
Qed.

Lemma raise_groups_numeric {R} keys metric (agg : list cell → option R)
    (value : list cell → R) df :
  (∀ s, forallb is_numeric s = true → agg s = Some (value s)) →
  forallb is_numeric (getitem metric df) = true →
  raise_groups (groupby_agg keys metric agg df)
  = Some ((λ k, (k, value (group_values keys metric k df))) <$> group_keys keys df).
Proof.
  intros Hagg Hnum. unfold raise_groups, groupby_agg. apply mapM_Some.
  apply Forall2_fmap_l, Forall2_fmap_r, Forall_Forall2_diag, Forall_forall.
  intros k _. simpl. rewrite Hagg; [done|].
  eapply forallb_subseteq; [apply group_values_subseteq | done].
Qed.
End partition.

(** ** The scores of a filtered frame *)

Section scores.
Implicit Types (raw df filtered : DataFrame) (r : gmap string cell).

Lemma issubset_spec (names cols : list string) :
  issubset names cols = true ↔ ∀ n, n ∈ names → n ∈ cols.
Proof.
  unfold issubset. rewrite forallb_forall. split.
  - intros H n Hn%list_elem_of_In. specialize (H n Hn).
    by apply bool_decide_eq_true in H.
  - intros H n Hn%list_elem_of_In. apply bool_decide_eq_true. by apply H.
Qed.

Lemma numeric_count_cell (c : cell) :
  is_numeric c = true → c = count_cell (int_of c).
Proof. by destruct c. Qed.

Lemma sum_counts_cons (c : cell) (s : list cell) :
  sum_counts (c :: s) = count_or_zero (int_of c) + sum_counts s.
Proof. by destruct c. Qed.

Lemma load_dataset_scored raw df :
  load_dataset raw = Some df →
  issubset ["Likes"; "Comments"; "Shares"] (columns raw) = true →
  (∀ name, name ∈ ["Likes"; "Comments"; "Shares"] →
     forallb is_numeric (getitem name raw) = true) →
  ∀ k r, (k, r) ∈ records df → scored r.
Proof.
  intros Hload Hcols Hnum k r Hin.
  destruct (load_dataset_sound _ _ _ _ Hload Hin) as (i & r0 & Hin0 & Hclean).
  assert (∀ name, name ∈ ["Likes"; "Comments"; "Shares"] →
            cell_of r name = cell_of r0 name ∧ is_numeric (cell_of r0 name) = true) as H.
  { intros name Hname. split.
    - unfold cell_of. rewrite (clean_record_other _ _ _ name Hclean); [done|..];
        intros ->; by repeat (apply elem_of_cons in Hname as [?|Hname]; [done|]);
        apply elem_of_nil in Hname.
    - specialize (Hnum name Hname). rewrite forallb_forall in Hnum.
      apply Hnum, list_elem_of_In. unfold getitem. apply list_elem_of_fmap.
      by exists (i, r0). }
  destruct (H "Likes") as [El Nl]; [by repeat constructor|].
  destruct (H "Comments") as [Ec Nc]; [by repeat constructor|].
  destruct (H "Shares") as [Es Ns]; [by repeat constructor|].
  unfold scored. rewrite El, Ec, Es. split; [done|]. split; [done|]. split; [done|].
  destruct (clean_record_score _ _ _ Hclean Hcols) as (v & Hv & Hr).
  unfold cell_of at 1. rewrite Hr. simpl.
  rewrite (score_cell_counts r0 (int_of (cell_of r0 "Likes"))
             (int_of (cell_of r0 "Comments")) (int_of (cell_of r0 "Shares")))
    in Hv by (by apply numeric_count_cell).
  by injection Hv as <-.
Qed.

Lemma scored_sums (l : list (nat * gmap string cell)) :
  Forall (λ ir, scored ir.2) l →
  forallb is_numeric ((λ ir, cell_of ir.2 "Likes") <$> l) = true
  ∧ forallb is_numeric ((λ ir, cell_of ir.2 "Comments") <$> l) = true
  ∧ forallb is_numeric ((λ ir, cell_of ir.2 "Shares") <$> l) = true
  ∧ forallb is_numeric ((λ ir, cell_of ir.2 "Engagement_Score") <$> l) = true
  ∧ count ((λ ir, cell_of ir.2 "Engagement_Score") <$> l) = length l
  ∧ sum_counts ((λ ir, cell_of ir.2 "Engagement_Score") <$> l)
    = sum_counts ((λ ir, cell_of ir.2 "Likes") <$> l)
      + 2 * sum_counts ((λ ir, cell_of ir.2 "Comments") <$> l)
      + 3 * sum_counts ((λ ir, cell_of ir.2 "Shares") <$> l).
Proof.
  induction 1 as [|[i r] l (Nl & Nc & Ns & E) _ (IHl & IHc & IHs & IHe & IHn & IH)];
    [done|].
  simpl in Nl, Nc, Ns, E. rewrite !fmap_cons, !sum_counts_cons. cbn [forallb snd].
  rewrite Nl, Nc, Ns, IHl, IHc, IHs, IHe, IH, E.
  unfold count, dropna in *. rewrite filter_cons. simpl. rewrite IHn.
  repeat split; try done. lia.
Qed.

Lemma filtered_scored raw df (start_date end_date : option date)
    (selected_author_types selected_content_types : list cell) filtered :
  load_dataset raw = Some df →
  issubset ["Likes"; "Comments"; "Shares"] (columns raw) = true →
  (∀ name, name ∈ ["Likes"; "Comments"; "Shares"] →
     forallb is_numeric (getitem name raw) = true) →
  apply_filters start_date end_date selected_author_types selected_content_types df
  = Some filtered →
  (∀ name, name ∈ columns raw → name ∈ columns filtered)
  ∧ "Engagement_Score" ∈ columns filtered
  ∧ Forall (λ ir, scored ir.2) (records filtered).
Proof.
  intros Hload Hcols Hnum Hf.
  destruct (apply_filters_Some _ _ _ _ _ _ Hf) as [Ec Er].
  rewrite Ec, (load_dataset_columns _ _ Hload). split; [|split].
  - intros name Hname. unfold clean_columns. rewrite Hcols.
    case_bool_decide; [done|]. apply elem_of_app. by left.
  - unfold clean_columns. rewrite Hcols. case_bool_decide; [done|].
    apply elem_of_app. right. by apply list_elem_of_singleton.
  - apply Forall_forall. intros [k r] Hin. rewrite Er in Hin.
    apply list_elem_of_filter in Hin as [_ Hin].
    by apply (load_dataset_scored raw df Hload Hcols Hnum k).
Qed.

Lemma getitem_cells name df :
  getitem name df = (λ r, cell_of r name) <$> (snd <$> records df).
Proof. unfold getitem. by rewrite <- list_fmap_compose. Qed.

Lemma getitem_sublist name df df' :
  records df' `sublist_of` records df → getitem name df' `sublist_of` getitem name df.
Proof. intros H. unfold getitem. by apply fmap_sublist. Qed.

Lemma group_values_sublist keys metric k df :
  group_values keys metric k df `sublist_of` getitem metric df.
Proof. unfold group_values, getitem. apply fmap_sublist, sublist_filter. Qed.

(** The cells of a column that the cleaning does not touch are cells of the
    input, in their order. *)
Lemma load_dataset_sublist raw df name :
  load_dataset raw = Some df →
  name ≠ "Date" → name ≠ "Author_Type" → name ≠ "Engagement_Score" →
  getitem name df `sublist_of` getitem name raw.
Proof.
  intros (d & Hd & ->)%load_dataset_Some ???.
  rewrite <- (cleaned_series_other raw d name Hd) by done.
  rewrite !getitem_cells, reset_index_cells.
  do 2 apply fmap_sublist. rewrite drop_duplicates_records. apply select_sublist.
Qed.

Lemma scored_magnitude (l : list (nat * gmap string cell)) :
  Forall (λ ir, scored ir.2) l →
  (magnitude ((λ ir, cell_of ir.2 "Engagement_Score") <$> l)
   ≤ magnitude ((λ ir, cell_of ir.2 "Likes") <$> l)
     + 2 * magnitude ((λ ir, cell_of ir.2 "Comments") <$> l)
     + 3 * magnitude ((λ ir, cell_of ir.2 "Shares") <$> l))%Z.
Proof.
  induction 1 as [|[i r] l (Nl & Nc & Ns & E) _ IH]; [done|].
  simpl in Nl, Nc, Ns, E. rewrite !fmap_cons. cbn [snd]. rewrite E.
  unfold magnitude in *. cbn [foldr].
  destruct (cell_of r "Likes"), (cell_of r "Comments"), (cell_of r "Shares");
    try done; simpl; lia.
Qed.

(** What the filters leave of an exact frame is exact, its scores
    included. *)
Lemma filtered_exact raw df (start_date end_date : option date)
    (selected_author_types selected_content_types : list cell) filtered :
  load_dataset raw = Some df →
  issubset ["Likes"; "Comments"; "Shares"] (columns raw) = true →
  (∀ name, name ∈ ["Likes"; "Comments"; "Shares"] →
     forallb is_numeric (getitem name raw) = true) →
  apply_filters start_date end_date selected_author_types selected_content_types df
  = Some filtered →
  exact_totals raw →
  exact_totals filtered
  ∧ exact_series (getitem "Engagement_Score" filtered)
  ∧ exact_count (sum_counts (getitem "Likes" filtered)
                 + 2 * sum_counts (getitem "Comments" filtered)
                 + 3 * sum_counts (getitem "Shares" filtered)).
Proof.
  intros Hload Hcols Hnum Hf Hexact.
  destruct (filtered_scored _ _ _ _ _ _ _ Hload Hcols Hnum Hf) as (_ & _ & Hs).
  destruct (apply_filters_Some _ _ _ _ _ _ Hf) as [_ Er].
  assert (∀ name, name ≠ "Date" → name ≠ "Author_Type" → name ≠ "Engagement_Score" →
            (magnitude (getitem name filtered) ≤ magnitude (getitem name raw))%Z) as Hle.
  { intros name ???. apply magnitude_sublist.
    trans (getitem name df); [|by apply load_dataset_sublist].
    apply getitem_sublist. rewrite Er. apply sublist_filter. }
  pose proof (Hle "Likes" ltac:(done) ltac:(done) ltac:(done)) as Hl.
  pose proof (Hle "Comments" ltac:(done) ltac:(done) ltac:(done)) as Hc.
  pose proof (Hle "Shares" ltac:(done) ltac:(done) ltac:(done)) as Hsh.
  pose proof (scored_magnitude _ Hs) as Hm. fold (getitem "Engagement_Score" filtered) in Hm.
  fold (getitem "Likes" filtered) (getitem "Comments" filtered)
    (getitem "Shares" filtered) in Hm.
  pose proof (sum_counts_magnitude (getitem "Likes" filtered)).
  pose proof (sum_counts_magnitude (getitem "Comments" filtered)).
  pose proof (sum_counts_magnitude (getitem "Shares" filtered)).
  unfold exact_totals, exact_series, exact_count in *. lia.
Qed.
End scores.

(** ** The charts *)

Section charts.
Implicit Types (raw df filtered : DataFrame) (r : gmap string cell).

Lemma length_concat_foldr {A} (groups : list (list A)) :
  length (concat groups) = foldr Nat.add 0%nat (length <$> groups).
Proof.
  induction groups as [|g groups IH]; [done|]. csimpl. by rewrite length_app, IH.
Qed.

(** The author type of a clean record is missing under pandas 3 at most,
    and only where it is missing in the input. *)
Lemma load_dataset_authored raw df :
  load_dataset raw = Some df → "Author_Type" ∈ columns raw →
  (installed = pandas_3 → Forall (λ c, c ≠ NaN) (getitem "Author_Type" raw)) →
  ∀ k r, (k, r) ∈ records df → notna_key (key_of ["Author_Type"] r) = true.
Proof.
  intros Hload Hcol Hmissing k r Hin.
  destruct (load_dataset_sound _ _ _ _ Hload Hin) as (i & r0 & Hin0 & Hclean).
  unfold key_of, cell_of. simpl.
  rewrite (clean_record_Author_Type _ _ _ Hclean Hcol). simpl.
  unfold clean_author, astype_str_cell.
  destruct (cell_of r0 "Author_Type") eqn:Hc; try done.
  destruct installed; [done|]. exfalso.
  specialize (Hmissing eq_refl). rewrite Forall_forall in Hmissing.
  apply (Hmissing NaN); [|done]. unfold getitem. apply list_elem_of_fmap.
  exists (i, r0). split; [|done]. simpl. by rewrite Hc.
Qed.

Lemma group_totals keys metric df :
  forallb is_numeric (getitem metric df) = true →
  raise_groups (groupby_agg keys metric series_sum df)
  = Some ((λ k, (k, sum_counts (group_values keys metric k df))) <$> group_keys keys df)
  ∧ foldr Z.add 0
      (snd <$> ((λ k, (k, sum_counts (group_values keys metric k df)))
                  <$> group_keys keys df))
    = sum_counts ((λ ir, cell_of ir.2 metric) <$> keyed_records keys df).
Proof.
  intros Hnum. split.
  - apply raise_groups_numeric; [|done].
    intros s Hs. by rewrite series_sum_spec, Hs.
  - rewrite <- list_fmap_compose.
    rewrite <- (sum_counts_Permutation _ _ (groups_partition keys metric df)).
    rewrite sum_counts_concat. by rewrite <- list_fmap_compose.
Qed.
End charts.

(** X5.  Grouping a column of counts and summing each group loses nothing
    and counts nothing twice: the group totals add up to the total of the
    records that have a complete key, the group sizes to their number; when
    every record has a complete key, the group totals add up to the sum of
    the whole column.  The sum of the column stays within 2^53, and so does
    every group total. *)
Theorem group_totals_add_up (keys : list string) (metric : string) (df : DataFrame) :
  forallb is_numeric (getitem metric df) = true →
  exact_series (getitem metric df) →
  ∃ totals,
    raise_groups (groupby_agg keys metric series_sum df) = Some totals
    ∧ Forall exact_count (snd <$> totals)
    ∧ foldr Z.add 0 (snd <$> totals)
      = sum_counts ((λ ir, cell_of ir.2 metric) <$> keyed_records keys df)
    ∧ foldr Nat.add 0%nat
        ((λ k, length (group_values keys metric k df)) <$> group_keys keys df)
      = length (keyed_records keys df)
    ∧ ((∀ i r, (i, r) ∈ records df → notna_key (key_of keys r) = true) →
       series_sum (getitem metric df) = Some (foldr Z.add 0 (snd <$> totals))).
Proof.
  intros Hnum Hexact. destruct (group_totals keys metric df Hnum) as [Hgroups Hsum].
  eexists. split; [exact Hgroups|]. split; [|split; [exact Hsum|split]].
  - rewrite <- list_fmap_compose. apply Forall_fmap, Forall_forall. intros k _. simpl.
    eapply exact_series_sum; [apply group_values_sublist | exact Hexact].
  - rewrite <- (length_fmap (λ ir : nat * gmap string cell, cell_of ir.2 metric)
                  (keyed_records keys df)).
    rewrite <- (Permutation_length (groups_partition keys metric df)).
    rewrite length_concat_foldr. by rewrite <- list_fmap_compose.
  - intros Hkeyed. rewrite Hsum, (keyed_records_all _ _ Hkeyed).
    by rewrite series_sum_spec, Hnum.
Qed.

Lemma group_totals_add_up_witness :
  forallb is_numeric (getitem "Likes" sample_raw_clean) = true
  ∧ exact_series (getitem "Likes" sample_raw_clean)
  ∧ ∃ totals,
      raise_groups (groupby_agg ["Author_Type"] "Likes" series_sum sample_raw_clean)
      = Some totals
      ∧ Forall exact_count (snd <$> totals)
      ∧ foldr Z.add 0 (snd <$> totals)
        = sum_counts ((λ ir, cell_of ir.2 "Likes")
                        <$> keyed_records ["Author_Type"] sample_raw_clean)
      ∧ foldr Nat.add 0%nat
          ((λ k, length (group_values ["Author_Type"] "Likes" k sample_raw_clean))
             <$> group_keys ["Author_Type"] sample_raw_clean)
        = length (keyed_records ["Author_Type"] sample_raw_clean)
      ∧ ((∀ i r, (i, r) ∈ records sample_raw_clean →
            notna_key (key_of ["Author_Type"] r) = true) →
         series_sum (getitem "Likes" sample_raw_clean)
         = Some (foldr Z.add 0 (snd <$> totals))).
Proof.
  assert (forallb is_numeric (getitem "Likes" sample_raw_clean) = true) as H
    by (vm_compute; reflexivity).
  assert (exact_series (getitem "Likes" sample_raw_clean)) as Hexact
    by (apply (bool_decide_unpack _); vm_compute; exact I).
  split; [exact H|]. split; [exact Hexact|].
  exact (group_totals_add_up ["Author_Type"] "Likes" sample_raw_clean H Hexact).
Defined.



(** The trend chart without its sort. *)
Lemma trend_unsorted (filtered by_date : DataFrame) :
  sort_values "Date" filtered = Some by_date →
  trend filtered
  = if issubset ["Date"; "Author_Type"; "Engagement_Score"] (columns filtered)
    then Some <$> raise_groups
                    (groupby_agg ["Date"; "Author_Type"] "Engagement_Score" series_mean
                       filtered)
    else Some None.
Proof.
  intros Hsort. unfold trend. rewrite Hsort. simpl.
  destruct (sort_values_Permutation _ _ _ Hsort) as [_ Hp].
  by rewrite (groupby_agg_Permutation _ _ _ _ _ series_mean_Permutation Hp).
Qed.

(** X7.  The groups are listed by ascending key, each key once: in a chart
    by author type Ai comes before Human, in the trend the dates go up. *)
Theorem groups_are_listed_in_ascending_order {R : Type} (keys : list string)
    (metric : string) (agg : list cell → R) (df : DataFrame) :
  StronglySorted (λ k1 k2, key_leb k1 k2 = true ∧ k1 ≠ k2)
    (fst <$> groupby_agg keys metric agg df).
Proof.
  rewrite groupby_agg_keys.
  pose proof (group_keys_Sorted keys df) as Hs.
  pose proof (group_keys_NoDup keys df) as Hn.
  induction Hs as [|k ks _ IH Hk]; [constructor|].
  apply NoDup_cons in Hn as [Hnotin Hn]. constructor; [by apply IH|].
  apply Forall_forall. intros k' Hk'. rewrite Forall_forall in Hk. split.
  - apply Is_true_true. by apply Hk.
  - by intros ->.
Qed.

(** X8.  On a file whose Likes, Comments and Shares are columns of counts
    with sums within 2^53, and for any setting of the filters, the slices of
    the pie chart add up to the total of likes plus twice the total of
    comments plus three times the total of shares of the filtered frame: no
    engagement of a filtered record is left out of the pie.  Under pandas 3
    this is so for a file with an author type in every line: a record
    without one is in no slice. *)
Theorem engagement_share_adds_up (raw df filtered : DataFrame)
    (start_date end_date : option date)
    (selected_author_types selected_content_types : list cell) :
  load_dataset raw = Some df →
  issubset ["Author_Type"; "Likes"; "Comments"; "Shares"] (columns raw) = true →
  (∀ name, name ∈ ["Likes"; "Comments"; "Shares"] →
     forallb is_numeric (getitem name raw) = true) →
  exact_totals raw →
  (installed = pandas_3 → Forall (λ c, c ≠ NaN) (getitem "Author_Type" raw)) →
  apply_filters start_date end_date selected_author_types selected_content_types df
  = Some filtered →
  ∃ slices likes comments shares,
    engagement_share filtered = Some (Some slices)
    ∧ kpi_sum "Likes" filtered = Some (Some likes)
    ∧ series_sum (getitem "Comments" filtered) = Some comments
    ∧ kpi_sum "Shares" filtered = Some (Some shares)
    ∧ foldr Z.add 0 (snd <$> slices) = likes + 2 * comments + 3 * shares
    ∧ Forall exact_count (snd <$> slices)
    ∧ exact_count (likes + 2 * comments + 3 * shares).
Proof.
  intros Hload Hcols Hnum Hexact Hmissing Hf. rewrite issubset_spec in Hcols.
  assert (issubset ["Likes"; "Comments"; "Shares"] (columns raw) = true) as Hcols3.
  { apply issubset_spec. intros n Hn. apply Hcols. by right. }
  assert ("Author_Type" ∈ columns raw) as Hauthor by (apply Hcols; by left).
  destruct (filtered_scored _ _ _ _ _ _ _ Hload Hcols3 Hnum Hf) as (Hsub & Hscore & Hs).
  destruct (filtered_exact _ _ _ _ _ _ _ Hload Hcols3 Hnum Hf Hexact) as (_ & He & Ht3).
  destruct (scored_sums _ Hs) as (Nl & Nc & Ns & Ne & _ & Hsum).
  destruct (group_totals ["Author_Type"] "Engagement_Score" filtered Ne) as [Hg Ht].
  rewrite keyed_records_all in Ht.
  2:{ intros i r Hin. apply (load_dataset_authored raw df Hload Hauthor Hmissing i).
      destruct (apply_filters_Some _ _ _ _ _ _ Hf) as [_ Er]. rewrite Er in Hin.
      by apply list_elem_of_filter in Hin as [_ Hin]. }
  eexists _, (sum_counts (getitem "Likes" filtered)),
    (sum_counts (getitem "Comments" filtered)), (sum_counts (getitem "Shares" filtered)).
  split; [|split; [|split; [|split; [|split; [|split]]]]].
  - unfold engagement_share.
    replace (issubset _ (columns filtered)) with true; [by rewrite Hg|].
    symmetry. apply issubset_spec. intros n Hn.
    apply elem_of_cons in Hn as [->|Hn]; [by apply Hsub|].
    by apply list_elem_of_singleton in Hn as ->.
  - unfold kpi_sum. rewrite bool_decide_true by (apply Hsub, Hcols; set_solver).
    unfold getitem. by rewrite series_sum_spec, Nl.
  - unfold getitem. by rewrite series_sum_spec, Nc.
  - unfold kpi_sum. rewrite bool_decide_true by (apply Hsub, Hcols; set_solver).
    unfold getitem. by rewrite series_sum_spec, Ns.
  - rewrite Ht. exact Hsum.
  - rewrite <- list_fmap_compose. apply Forall_fmap, Forall_forall. intros k _. simpl.
    eapply exact_series_sum; [apply group_values_sublist | exact He].
  - exact Ht3.
Qed.


(** ** Cleaning twice *)

Section idempotence.
Implicit Types (s : string) (c : ascii) (b : bool) (df out : DataFrame)
  (r : gmap string cell) (cols : list string).

Lemma case_change c :
  is_space (to_lower c) = is_space c ∧ is_space (to_upper c) = is_space c
  ∧ is_cased (to_lower c) = is_cased c ∧ is_cased (to_upper c) = is_cased c
  ∧ to_lower (to_lower c) = to_lower c ∧ to_upper (to_upper c) = to_upper c.
Proof. destruct c as [[] [] [] [] [] [] [] []]; vm_compute; repeat split. Qed.

Lemma lstrip_id s : starts_with_space s = false → lstrip s = s.
Proof. destruct s as [|c s]; [done|]. simpl. by intros ->. Qed.

Lemma rstrip_id s : ends_with_space s = false → rstrip s = s.
Proof.
  induction s as [|c s IH]; [done|]. simpl. destruct s as [|c' s].
  - simpl. by intros ->.
  - intros H. by rewrite (IH H).
Qed.

Lemma title_starts b s : starts_with_space (title_from b s) = starts_with_space s.
Proof.
  destruct s as [|c s]; [done|]. simpl.
  destruct (case_change c) as (Hl & Hu & _). by destruct b.
Qed.

Lemma title_ends b s : ends_with_space (title_from b s) = ends_with_space s.
Proof.
  revert b. induction s as [|c s IH]; intros b; [done|].
  destruct s as [|c' s].
  - simpl. destruct (case_change c) as (Hl & Hu & _). by destruct b.
  - change (title_from b (String c (String c' s)))
      with (String (if b then to_lower c else to_upper c)
              (title_from (is_cased c) (String c' s))).
    specialize (IH (is_cased c)). simpl in *. exact IH.
Qed.

Lemma title_idem b s : title_from b (title_from b s) = title_from b s.
Proof.
  revert b. induction s as [|c s IH]; intros b; [done|]. simpl.
  destruct (case_change c) as (_ & _ & Hl & Hu & Hll & Huu).
  destruct b; rewrite ?Hl, ?Hu, ?Hll, ?Huu, IH; done.
Qed.

Lemma title_strip_idem s : title (strip (title (strip s))) = title (strip s).
Proof.
  destruct (strip_spec s) as (_ & _ & _ & _ & _ & Hs & He).
  unfold strip at 1.
  rewrite lstrip_id by (unfold title; by rewrite title_starts).
  rewrite rstrip_id by (unfold title; by rewrite title_ends).
  apply title_idem.
Qed.

Lemma clean_author_idem (c : cell) : clean_author (clean_author c) = clean_author c.
Proof.
  unfold clean_author, astype_str_cell.
  destruct c as [|z|s|d]; [destruct installed|..]; cbn [str_cell str_of_cell];
    try done; by rewrite title_strip_idem.
Qed.

Lemma to_datetime_cell_idem (c : cell) :
  to_datetime_cell (to_datetime_cell c) = to_datetime_cell c.
Proof. destruct c as [|z|x|d]; simpl; try done. by destruct (strptime_dmy x). Qed.

Lemma issubset_clean_columns cols :
  issubset ["Likes"; "Comments"; "Shares"] (clean_columns cols)
  = issubset ["Likes"; "Comments"; "Shares"] cols.
Proof.
  destruct (issubset _ cols) eqn:E.
  - apply issubset_spec. intros n Hn. apply clean_columns_elem_of.
    + intros ->. by repeat (apply elem_of_cons in Hn as [?|Hn]; [done|]);
        apply elem_of_nil in Hn.
    + rewrite issubset_spec in E. by apply E.
  - unfold clean_columns. by rewrite E.
Qed.

Lemma clean_columns_idem cols : clean_columns (clean_columns cols) = clean_columns cols.
Proof.
  destruct (issubset ["Likes"; "Comments"; "Shares"] cols) eqn:E.
  - unfold clean_columns at 1. rewrite issubset_clean_columns, E.
    rewrite bool_decide_true; [done|]. unfold clean_columns. rewrite E.
    case_bool_decide; [done|]. apply elem_of_app. right.
    by apply list_elem_of_singleton.
  - unfold clean_columns. by rewrite !E.
Qed.

(** The clean form of a record is its own clean form. *)
Lemma clean_record_idem cols r r' :
  clean_record cols r = Some r' → clean_record (clean_columns cols) r' = Some r'.
Proof.
  intros Hclean. unfold clean_record.
  assert (dated_record (clean_columns cols) r' = r') as ->.
  { unfold dated_record. case_bool_decide as Hd; [|done].
    rewrite clean_columns_elem_of in Hd by done.
    pose proof (clean_record_Date _ _ _ Hclean Hd) as E.
    unfold cell_of. rewrite E. simpl. rewrite to_datetime_cell_idem.
    by apply insert_id. }
  assert (authored_record (clean_columns cols) r' = r') as ->.
  { unfold authored_record. case_bool_decide as Ha; [|done].
    rewrite clean_columns_elem_of in Ha by done.
    pose proof (clean_record_Author_Type _ _ _ Hclean Ha) as E.
    unfold cell_of at 1. rewrite E. simpl. rewrite clean_author_idem.
    by apply insert_id. }
  unfold scored_record. rewrite issubset_clean_columns.
  destruct (issubset _ cols) eqn:Hs; [|done].
  destruct (clean_record_score _ _ _ Hclean Hs) as (v & Hv & E).
  rewrite (score_cell_ext r' r), Hv; simpl.
  - f_equal. by apply insert_id.
  - by apply (clean_record_other _ _ _ "Likes" Hclean).
  - by apply (clean_record_other _ _ _ "Comments" Hclean).
  - by apply (clean_record_other _ _ _ "Shares" Hclean).
Qed.

Lemma reset_index_drop_duplicates_idem df :
  reset_index (drop_duplicates (reset_index (drop_duplicates df)))
  = reset_index (drop_duplicates df).
Proof.
  assert (records (drop_duplicates (reset_index (drop_duplicates df)))
          = records (reset_index (drop_duplicates df))) as E.
  { rewrite drop_duplicates_records. apply kept_from_id.
    - rewrite reset_index_cells, drop_duplicates_records. apply kept_from_NoDup.
    - intros ir _. apply not_elem_of_nil. }
  unfold reset_index at 1. rewrite E. unfold reset_index. simpl. f_equal.
  apply list_eq. intros k. rewrite !list_lookup_imap. by destruct (_ !! k).
Qed.

Lemma ascii_case c :
  (nat_of_ascii c <? 128)%nat = true →
  (nat_of_ascii (to_lower c) <? 128)%nat = true
  ∧ (nat_of_ascii (to_upper c) <? 128)%nat = true.
Proof. destruct c as [[] [] [] [] [] [] [] []]; vm_compute; by intros. Qed.

Lemma is_ascii_lstrip s : is_ascii s = true → is_ascii (lstrip s) = true.
Proof.
  induction s as [|c s IH]; [done|]. cbn [is_ascii lstrip].
  intros [Hc Hs]%andb_true_iff. destruct (is_space c); [by apply IH|].
  cbn [is_ascii]. by rewrite Hc, Hs.
Qed.

Lemma is_ascii_rstrip s : is_ascii s = true → is_ascii (rstrip s) = true.
Proof.
  induction s as [|c s IH]; [done|]. cbn [is_ascii rstrip].
  intros [Hc Hs]%andb_true_iff. specialize (IH Hs).
  destruct (rstrip s) as [|c' t].
  - destruct (is_space c); [done|]. cbn [is_ascii]. by rewrite Hc.
  - change (is_ascii (String c (String c' t)))
      with ((nat_of_ascii c <? 128)%nat && is_ascii (String c' t)).
    by rewrite Hc, IH.
Qed.

Lemma is_ascii_title b s : is_ascii s = true → is_ascii (title_from b s) = true.
Proof.
  revert b. induction s as [|c s IH]; intros b; [done|]. cbn [is_ascii title_from].
  intros [Hc Hs]%andb_true_iff. rewrite (IH _ Hs).
  destruct (ascii_case c Hc) as [Hl Hu]. destruct b; by rewrite ?Hl, ?Hu.
Qed.

(** The clean form of a text in ASCII is a text in ASCII. *)
Lemma clean_author_ascii (c : cell) :
  ascii_text c = true → ascii_text (clean_author c) = true.
Proof.
  unfold clean_author, astype_str_cell.
  destruct c as [|z|s|d]; [destruct installed|..]; cbn [str_cell str_of_cell ascii_text];
    try done.
  intros Hs. by apply is_ascii_title, is_ascii_rstrip, is_ascii_lstrip.
Qed.

Lemma clean_record_ascii cols r r' :
  clean_record cols r = Some r' →
  ascii_text (cell_of r "Author_Type") = true →
  ascii_text (cell_of r' "Author_Type") = true.
Proof.
  intros H Ha. unfold cell_of at 1.
  rewrite (scored_record_other _ _ _ _ H) by done.
  unfold authored_record. case_bool_decide.
  - rewrite lookup_insert_eq. simpl. apply clean_author_ascii.
    unfold cell_of. by rewrite dated_record_other.
  - by rewrite dated_record_other.
Qed.
End idempotence.

(** X10.  Cleaning is idempotent: what [load_dataset] returns is accepted
    by [load_dataset] and returned as it is, column for column and record
    for record.  The author types of the input are text in ASCII, or
    missing: on other text the title case of Python is not idempotent. *)
Theorem load_dataset_idempotent (df out : DataFrame) :
  load_dataset df = Some out →
  Forall (λ c, ascii_text c = true) (getitem "Author_Type" df) →
  load_dataset out = Some out
  ∧ Forall (λ c, ascii_text c = true) (getitem "Author_Type" out).
Proof.
  intros Hload Hascii. split.
  - apply load_dataset_Some.
    pose proof Hload as (d & _ & Hout)%load_dataset_Some.
    exists out. split.
    + apply cleaned_Some. split.
      * rewrite (load_dataset_columns _ _ Hload). by rewrite clean_columns_idem.
      * apply Forall_Forall2_diag, Forall_forall. intros [k r'] Hin.
        split; [done|]. simpl.
        destruct (load_dataset_sound _ _ _ _ Hload Hin) as (i & r & _ & Hclean).
        rewrite (load_dataset_columns _ _ Hload).
        exact (clean_record_idem _ _ _ Hclean).
    + rewrite Hout. by rewrite reset_index_drop_duplicates_idem.
  - unfold getitem in *. apply Forall_fmap, Forall_forall. intros [k r'] Hin.
    destruct (load_dataset_sound _ _ _ _ Hload Hin) as (i & r & Hr & Hclean).
    simpl. apply (clean_record_ascii _ _ _ Hclean).
    rewrite Forall_fmap, Forall_forall in Hascii. exact (Hascii (i, r) Hr).
Qed.

(** ** The figures of the report *)

Section report_figures.
Implicit Types (df : DataFrame) (fl : Qc → Qc) (found : insights) (name : string).

Lemma where_eq_Some name (value : cell) df d :
  where_eq name value df = Some d
  ↔ name ∈ columns df
    ∧ d = {| columns := columns df;
             records := filter (λ ir, cell_of ir.2 name = value) (records df) |}.
Proof.
  unfold where_eq, getitem_strict, getitem, loc. case_bool_decide as Hcol; simpl.
  - rewrite <- list_fmap_compose, select_fmap.
    rewrite (filter_ext_in _ (λ ir : nat * gmap string cell, cell_of ir.2 name = value))
      by (intros ir _; simpl; apply bool_decide_eq_true).
    split; [by intros [= <-] | by intros [_ ->]].
  - split; [done | by intros [? _]].
Qed.

Lemma column_mean_Some name df (m : option Qc) :
  column_mean name df = Some m
  ↔ name ∈ columns df ∧ series_mean (getitem name df) = Some m.
Proof.
  unfold column_mean, getitem_strict. case_bool_decide; simpl.
  - split; [done | by intros [_ ?]].
  - split; [done | by intros [? _]].
Qed.

Lemma groupby_mean_Some (keys : list string) (metric : string) df g :
  groupby_mean keys metric df = Some g
  ↔ issubset (metric :: keys) (columns df) = true
    ∧ raise_groups (groupby_agg keys metric series_mean df) = Some g.
Proof.
  unfold groupby_mean. destruct (issubset _ _).
  - split; [done | by intros [_ ?]].
  - split; [done | by intros [? _]].
Qed.

(** What the figures are, when there are figures. *)
Lemma analyze_Some fl df found :
  analyze fl df = Some found →
  ∃ ai_data human_data by_content_and_author by_content,
    where_eq "Author_Type" (Str "Ai") df = Some ai_data
    ∧ where_eq "Author_Type" (Str "Human") df = Some human_data
    ∧ column_mean "Engagement_Score" ai_data = Some (ai_avg_engagement found)
    ∧ column_mean "Engagement_Score" human_data = Some (human_avg_engagement found)
    ∧ column_mean "Likes" ai_data = Some (ai_avg_likes found)
    ∧ column_mean "Likes" human_data = Some (human_avg_likes found)
    ∧ column_mean "Comments" ai_data = Some (ai_avg_comments found)
    ∧ column_mean "Comments" human_data = Some (human_avg_comments found)
    ∧ column_mean "Shares" ai_data = Some (ai_avg_shares found)
    ∧ column_mean "Shares" human_data = Some (human_avg_shares found)
    ∧ groupby_mean ["Content_Type"; "Author_Type"] "Engagement_Score" df
      = Some by_content_and_author
    ∧ groupby_mean ["Content_Type"] "Engagement_Score" df = Some by_content
    ∧ total_posts found = length (records df)
    ∧ ai_posts found = length (records ai_data)
    ∧ human_posts found = length (records human_data)
    ∧ content_performance found = unstack by_content_and_author
    ∧ top_content_types found = head3_descending fl by_content.
Proof.
  unfold analyze. intros H.
  destruct (where_eq _ (Str "Ai") df) as [ai_data|] eqn:E1; [|done].
  destruct (where_eq _ (Str "Human") df) as [human_data|] eqn:E2; [|done].
  simpl in H.
  destruct (column_mean "Engagement_Score" ai_data) as [ae|] eqn:E3; [|done].
  destruct (column_mean "Engagement_Score" human_data) as [he|] eqn:E4; [|done].
  destruct (column_mean "Likes" ai_data) as [al|] eqn:E5; [|done].
  destruct (column_mean "Likes" human_data) as [hl|] eqn:E6; [|done].
  destruct (column_mean "Comments" ai_data) as [ac|] eqn:E7; [|done].
  destruct (column_mean "Comments" human_data) as [hc|] eqn:E8; [|done].
  destruct (column_mean "Shares" ai_data) as [ash|] eqn:E9; [|done].
  destruct (column_mean "Shares" human_data) as [hsh|] eqn:E10; [|done].
  simpl in H.
  destruct (groupby_mean ["Content_Type"; "Author_Type"] _ df) as [g2|] eqn:E11;
    [|done].
  destruct (groupby_mean ["Content_Type"] _ df) as [g1|] eqn:E12; [|done].
  simpl in H.
  destruct (if bool_decide ("Date" ∈ columns df) then _ else _) as [monthly|];
    [|done].
  simpl in H. injection H as <-. exists ai_data, human_data, g2, g1.
  repeat split; assumption || reflexivity.
Qed.
End report_figures.

Section report_counts.
Implicit Types (df : DataFrame) (fl : Qc → Qc) (found : insights).

Lemma length_filter_all {A} (P : A → Prop) `{!∀ x, Decision (P x)} (l : list A) :
  length (filter P l) = length l ↔ Forall P l.
Proof.
  induction l as [|x l IH]; [by split; [constructor|]|].
  rewrite filter_cons, Forall_cons. pose proof (length_filter P l) as Hle.
  case_decide as HP; simpl.
  - rewrite <- IH. split; [intros [=]; by split | by intros [_ ->]].
  - split; [lia | by intros [? _]].
Qed.

Lemma elem_of_raise_groups {R} (groups : list (list cell * option R))
    (l : list (list cell * R)) (k : list cell) (v : R) :
  raise_groups groups = Some l → (k, v) ∈ l ↔ (k, Some v) ∈ groups.
Proof.
  unfold raise_groups. intros F%mapM_Some. induction F as [|[k1 o] kv g l' H _ IH].
  - by rewrite !elem_of_nil.
  - rewrite !elem_of_cons, IH. simpl in H. destruct o as [v1|]; simplify_eq/=.
    split; (intros [[= -> ->]|?]; [by left | by right]).
Qed.


End report_counts.

(** X11.  The three counts of the report: the number of posts is the number
    of records after cleaning; the posts counted as AI and as human are
    those whose author type is, after cleaning, exactly Ai or Human, so the
    two counts add up to the number of posts only when no record has another
    author type. *)
Theorem post_counts (fl : Qc → Qc) (df : DataFrame) (found : insights) :
  analyze fl df = Some found →
  total_posts found = length (records df)
  ∧ (ai_posts found + human_posts found ≤ total_posts found)%nat
  ∧ ((ai_posts found + human_posts found = total_posts found)%nat
     ↔ ∀ i r, (i, r) ∈ records df →
         cell_of r "Author_Type" = Str "Ai" ∨ cell_of r "Author_Type" = Str "Human").
Proof.
  intros (ai_data & human_data & g2 & g1 & [_ ->]%where_eq_Some
          & [_ ->]%where_eq_Some & H)%analyze_Some.
  destruct H as (_ & _ & _ & _ & _ & _ & _ & _ & _ & _ & -> & -> & -> & _).
  simpl. split; [done|].
  rewrite <- length_app.
  rewrite (Permutation_length
             (filter_disjoint_app
                (λ ir : nat * gmap string cell, cell_of ir.2 "Author_Type" = Str "Ai")
                (λ ir, cell_of ir.2 "Author_Type" = Str "Human") (records df)
                ltac:(intros ir; simpl; congruence))).
  split; [apply length_filter|].
  rewrite length_filter_all, Forall_forall. split.
  - intros H i r Hin. exact (H (i, r) Hin).
  - intros H [i r] Hin. exact (H i r Hin).
Qed.

Lemma post_counts_witness :
  analyze id sample_raw_clean = Some sample_insights ∧ (1 + 0 ≤ 3)%nat.
Proof.
  assert (analyze id sample_raw_clean = Some sample_insights) as H
    by (vm_compute; reflexivity).
  split; [exact H|].
  exact (proj1 (proj2 (post_counts id sample_raw_clean _ H))).
Defined.



(** A label of a list of labels that is written out. *)
Ltac in_list := by repeat constructor.
Ltac each_name H tac :=
  repeat (apply elem_of_cons in H as [->|H]; [tac|]); by apply elem_of_nil in H.

Section report_columns.
Implicit Types (raw df : DataFrame) (fl : Qc → Qc) (found : insights).

Lemma scored_column_mean (name : string) (df : DataFrame)
    (l : list (nat * gmap string cell)) :
  name ∈ ["Likes"; "Comments"; "Shares"; "Engagement_Score"] →
  name ∈ columns df → Forall (λ ir, scored ir.2) l →
  is_Some (column_mean name {| columns := columns df; records := l |}).
Proof.
  intros Hname Hcol (Nl & Nc & Ns & Ne & _)%scored_sums.
  unfold column_mean, getitem_strict. simpl. rewrite bool_decide_true by done. simpl.
  rewrite series_mean_spec. unfold getitem. simpl.
  repeat (apply elem_of_cons in Hname as [->|Hname];
          [by rewrite ?Nl, ?Nc, ?Ns, ?Ne|]).
  by apply elem_of_nil in Hname.
Qed.

Lemma scored_groupby_mean (keys : list string) (df : DataFrame) :
  issubset ("Engagement_Score" :: keys) (columns df) = true →
  forallb is_numeric (getitem "Engagement_Score" df) = true →
  is_Some (groupby_mean keys "Engagement_Score" df).
Proof.
  intros Hcols Hnum. unfold groupby_mean. rewrite Hcols.
  erewrite (raise_groups_numeric _ _ series_mean
              (λ s, mean_of (sum_counts s) (count s))); [done| |done].
  intros s Hs. by rewrite series_mean_spec, Hs.
Qed.

Lemma getitem_setitem_ne (name other : string) (g : gmap string cell → cell) df :
  name ≠ other →
  getitem other (setitem name ((λ ir, g ir.2) <$> records df) df) = getitem other df.
Proof.
  intros Hne. unfold getitem. rewrite setitem_fmap, <- list_fmap_compose.
  apply list_fmap_ext. intros _ [i r] _. simpl. unfold cell_of.
  by rewrite lookup_insert_ne.
Qed.

Lemma analyze_is_Some fl df :
  issubset ["Author_Type"; "Content_Type"; "Likes"; "Comments"; "Shares";
            "Engagement_Score"] (columns df) = true →
  Forall (λ ir, scored ir.2) (records df) →
  is_Some (analyze fl df).
Proof.
  intros Hcols Hs. rewrite issubset_spec in Hcols.
  pose (data := λ a : string,
          {| columns := columns df;
             records := filter (λ ir, cell_of ir.2 "Author_Type" = Str a) (records df) |}).
  assert (∀ a, where_eq "Author_Type" (Str a) df = Some (data a)) as Hwhere.
  { intros a. apply where_eq_Some. split; [|done]. apply Hcols. in_list. }
  assert (∀ name a, name ∈ ["Likes"; "Comments"; "Shares"; "Engagement_Score"] →
            is_Some (column_mean name (data a))) as Hmean.
  { intros name a Hname. apply scored_column_mean; [done| |].
    - apply Hcols. each_name Hname in_list.
    - apply Forall_forall. intros ir [_ Hin]%list_elem_of_filter.
      rewrite Forall_forall in Hs. by apply Hs. }
  unfold analyze. rewrite !Hwhere. simpl.
  destruct (Hmean "Engagement_Score" "Ai") as [? ->]; [in_list|].
  destruct (Hmean "Engagement_Score" "Human") as [? ->]; [in_list|].
  destruct (Hmean "Likes" "Ai") as [? ->]; [in_list|].
  destruct (Hmean "Likes" "Human") as [? ->]; [in_list|].
  destruct (Hmean "Comments" "Ai") as [? ->]; [in_list|].
  destruct (Hmean "Comments" "Human") as [? ->]; [in_list|].
  destruct (Hmean "Shares" "Ai") as [? ->]; [in_list|].
  destruct (Hmean "Shares" "Human") as [? ->]; [in_list|].
  simpl.
  destruct (scored_sums _ Hs) as (_ & _ & _ & Ne & _).
  destruct (scored_groupby_mean ["Content_Type"; "Author_Type"] df) as [g2 ->];
    [apply issubset_spec; intros n Hn; apply Hcols; each_name Hn in_list | done |].
  destruct (scored_groupby_mean ["Content_Type"] df) as [g1 ->];
    [apply issubset_spec; intros n Hn; apply Hcols; each_name Hn in_list | done |].
  simpl. case_bool_decide as Hdate; [|done].
  destruct (scored_groupby_mean ["Date"; "Author_Type"]
              (setitem "Date" (to_period_M <$> getitem "Date" df) df)) as [g3 ->];
    [| |done].
  - apply issubset_spec. intros n Hn. simpl. rewrite bool_decide_true by done.
    each_name Hn ltac:(done || (apply Hcols; in_list)).
  - unfold getitem at 2. rewrite <- list_fmap_compose.
    by rewrite (getitem_setitem_ne "Date" "Engagement_Score"
                  (λ r, to_period_M (cell_of r "Date"))).
Qed.
End report_columns.

(** X13.  The report needs the columns that the cleaning treats as
    optional: it gets its figures only from a file that has the columns
    Author_Type, Content_Type, Likes, Comments and Shares, and from every
    such file whose three counts are counts.  The Date column is not needed
    for the figures. *)
Theorem analysis_needs_every_column (fl : Qc → Qc) (raw : DataFrame) :
  (is_Some (load_and_analyze_data fl (Some raw)) →
   issubset ["Author_Type"; "Content_Type"; "Likes"; "Comments"; "Shares"] (columns raw)
   = true)
  ∧ (issubset ["Author_Type"; "Content_Type"; "Likes"; "Comments"; "Shares"]
       (columns raw) = true →
     (∀ name, name ∈ ["Likes"; "Comments"; "Shares"] →
        forallb is_numeric (getitem name raw) = true) →
     is_Some (load_and_analyze_data fl (Some raw))).
Proof.
  unfold load_and_analyze_data. simpl. split.
  - intros [[found df] H].
    destruct (load_dataset raw) as [df'|] eqn:Hload; [|done]. simpl in H.
    destruct (analyze fl df') as [found'|] eqn:Ha; [|done].
    apply analyze_Some in Ha
      as (ai_data & human_data & g2 & g1 & [Hat ->]%where_eq_Some & _ & _ & _
          & [Hl _]%column_mean_Some & _ & [Hc _]%column_mean_Some & _
          & [Hs _]%column_mean_Some & _ & [Hg _]%groupby_mean_Some & _).
    rewrite issubset_spec in Hg. simpl in Hl, Hc, Hs.
    assert ("Content_Type" ∈ columns df') as Hct by (apply Hg; in_list).
    rewrite (load_dataset_columns _ _ Hload) in Hat, Hl, Hc, Hs, Hct.
    rewrite clean_columns_elem_of in Hat, Hl, Hc, Hs, Hct by done.
    by rewrite !bool_decide_true.
  - change (issubset ["Author_Type"; "Content_Type"; "Likes"; "Comments"; "Shares"]
              (columns raw) = true →
            (∀ name, name ∈ ["Likes"; "Comments"; "Shares"] →
               forallb is_numeric (getitem name raw) = true) →
            is_Some (load_dataset raw ≫= λ df,
                     analyze fl df ≫= λ found, Some (found, df))).
    intros Hcols Hnum. rewrite issubset_spec in Hcols.
    assert (issubset ["Likes"; "Comments"; "Shares"] (columns raw) = true) as Hcols3.
    { apply issubset_spec. intros n Hn. apply Hcols. each_name Hn in_list. }
    destruct (load_dataset raw) as [df|] eqn:Hload.
    + simpl. destruct (analyze_is_Some fl df) as [found ->]; [| |done].
      * apply issubset_spec. intros n Hn. rewrite (load_dataset_columns _ _ Hload).
        destruct (decide (n = "Engagement_Score")) as [->|Hne].
        -- unfold clean_columns. rewrite Hcols3. case_bool_decide; [done|].
           apply elem_of_app. right. by apply list_elem_of_singleton.
        -- apply clean_columns_elem_of; [done|]. apply Hcols.
           each_name Hn ltac:(done || in_list).
      * apply Forall_forall. intros [k r] Hin.
        by apply (load_dataset_scored raw df Hload Hcols3 Hnum k).
    + exfalso. apply load_dataset_None in Hload as Hnone.
      destruct Hnone as (_ & i & r & Hin & Hscore).
      assert (∀ name, name ∈ ["Likes"; "Comments"; "Shares"] →
                is_numeric (cell_of r name) = true) as Hr.
      { intros name Hname. specialize (Hnum name Hname).
        rewrite forallb_forall in Hnum. apply Hnum, list_elem_of_In.
        unfold getitem. apply list_elem_of_fmap. by exists (i, r). }
      rewrite (score_cell_counts r (int_of (cell_of r "Likes"))
                 (int_of (cell_of r "Comments")) (int_of (cell_of r "Shares")))
        in Hscore; [done|..]; apply numeric_count_cell, Hr; in_list.
Qed.

(** ** The text of the report *)

Section report_text.
Implicit Types (raw df : DataFrame) (fl : Qc → Qc) (found : insights).

Lemma time_period_no_column df : "Date" ∉ columns df → time_period df = None.
Proof. intros H. unfold time_period, getitem_strict. by rewrite bool_decide_false. Qed.

Lemma time_period_spec df :
  "Date" ∈ columns df → datetime_column df →
  match time_period df with
  | None => ∀ ir, ir ∈ records df → cell_of ir.2 "Date" = NaN
  | Some (first, last) =>
      (∃ ir, ir ∈ records df ∧ cell_of ir.2 "Date" = Timestamp first)
      ∧ (∃ ir, ir ∈ records df ∧ cell_of ir.2 "Date" = Timestamp last)
      ∧ ∀ ir d, ir ∈ records df → cell_of ir.2 "Date" = Timestamp d →
          date_leb first d = true ∧ date_leb d last = true
  end.
Proof.
  intros Hcol Hdt. unfold time_period, getitem_strict.
  rewrite bool_decide_true by done. simpl.
  destruct (datetime_values_dates (getitem "Date" df)) as (ds & E & Hds).
  { unfold getitem. by apply Forall_fmap. }
  assert (∀ d, d ∈ ds ↔ ∃ ir, ir ∈ records df ∧ cell_of ir.2 "Date" = Timestamp d)
    as Hds'.
  { intros d. rewrite Hds. unfold getitem. rewrite list_elem_of_fmap.
    split; intros (ir & ? & ?); by exists ir. }
  unfold series_min, series_max. rewrite E. simpl.
  unfold datetime_column in Hdt. rewrite Forall_forall in Hdt.
  destruct ds as [|d0 ds]; simpl.
  - intros ir Hin. specialize (Hdt ir Hin). simpl in Hdt.
    destruct (cell_of ir.2 "Date") as [| | |d] eqn:Hc; try done.
    assert (d ∈ []) as ?%elem_of_nil by (apply Hds'; eauto). done.
  - destruct (foldr_date_min d0 ds) as [Hmin_in Hmin].
    destruct (foldr_date_max d0 ds) as [Hmax_in Hmax].
    split; [by apply Hds'|]. split; [by apply Hds'|].
    intros ir d Hin Hc. assert (d ∈ d0 :: ds) as Hd by (apply Hds'; eauto).
    by rewrite (Hmin d Hd), (Hmax d Hd).
Qed.

Lemma load_dataset_dates raw df (c : cell) :
  load_dataset raw = Some df → "Date" ∈ columns raw →
  (∃ ir, ir ∈ records df ∧ cell_of ir.2 "Date" = c)
  ↔ (∃ ir, ir ∈ records raw ∧ to_datetime_cell (cell_of ir.2 "Date") = c).
Proof.
  intros Hload Hcol. split.
  - intros ([k r'] & Hin & Hc).
    destruct (load_dataset_sound _ _ _ _ Hload Hin) as (i & r & Hin0 & Hclean).
    exists (i, r). split; [done|]. simpl in *. unfold cell_of at 1 in Hc.
    by rewrite (clean_record_Date _ _ _ Hclean Hcol) in Hc.
  - intros ([i r] & Hin & Hc).
    destruct (load_dataset_complete _ _ _ _ Hload Hin) as (k & r' & Hin' & Hclean).
    exists (k, r'). split; [done|]. simpl in *. unfold cell_of at 1.
    by rewrite (clean_record_Date _ _ _ Hclean Hcol).
Qed.

Lemma outperforms_true fl (ai human : option Qc) :
  (∀ a b : Qc, (a ≤ b)%Qc → (fl a ≤ fl b)%Qc) →
  outperforms fl ai human = true →
  ∃ a h, ai = Some a ∧ human = Some h ∧ (h < a)%Qc.
Proof.
  intros Hmono. unfold outperforms. destruct ai as [a|], human as [h|]; try done.
  intros Hlt%bool_decide_eq_true. exists a, h. split; [done|]. split; [done|].
  destruct (Qclt_le_dec h a) as [?|Hle]; [done|].
  apply Hmono in Hle. by apply Qcle_not_lt in Hle.
Qed.

Lemma where_eq_mean_of_none (name : string) (a : string) df data (m : option Qc) :
  where_eq "Author_Type" (Str a) df = Some data →
  column_mean name data = Some m → records data = [] → m = None.
Proof.
  intros _ [_ Hm]%column_mean_Some E. unfold getitem in Hm. rewrite E in Hm.
  by injection Hm as <-.
Qed.
End report_text.

(** X14.  The report says that AI content outperformed human content only
    when both kinds of post exist and the average engagement of the AI posts
    is strictly the larger one.  In every other case, which includes a tie
    and a file with no AI posts or with no human posts at all, it says that
    human content outperformed AI content. *)
Theorem human_unless_ai_is_strictly_better (fl : Qc → Qc) (df : DataFrame)
    (found : insights) :
  (∀ a b : Qc, (a ≤ b)%Qc → (fl a ≤ fl b)%Qc) →
  analyze fl df = Some found →
  (finding_of fl found = AI_outperformed →
   ∃ a h, ai_avg_engagement found = Some a ∧ human_avg_engagement found = Some h
          ∧ (h < a)%Qc ∧ (0 < ai_posts found)%nat ∧ (0 < human_posts found)%nat)
  ∧ (ai_posts found = 0%nat → finding_of fl found = Human_outperformed)
  ∧ (human_posts found = 0%nat → finding_of fl found = Human_outperformed)
  ∧ (ai_avg_engagement found = human_avg_engagement found →
     finding_of fl found = Human_outperformed).
Proof.
  intros Hmono (ai_data & human_data & g2 & g1 & Hai & Hhuman & Hae & Hhe & H)%analyze_Some.
  destruct H as (_ & _ & _ & _ & _ & _ & _ & _ & _ & Hna & Hnh & _).
  assert (ai_posts found = 0%nat → ai_avg_engagement found = None) as Hno_ai.
  { rewrite Hna. intros E%nil_length_inv.
    exact (where_eq_mean_of_none _ _ _ _ _ Hai Hae E). }
  assert (human_posts found = 0%nat → human_avg_engagement found = None) as Hno_human.
  { rewrite Hnh. intros E%nil_length_inv.
    exact (where_eq_mean_of_none _ _ _ _ _ Hhuman Hhe E). }
  unfold finding_of. split; [|split; [|split]].
  - destruct (outperforms _ _ _) eqn:E; [|done]. intros _.
    destruct (outperforms_true _ _ _ Hmono E) as (a & h & Ea & Eh & Hlt).
    exists a, h. split; [done|]. split; [done|]. split; [done|]. split.
    + destruct (ai_posts found); [|lia]. by rewrite Hno_ai in Ea.
    + destruct (human_posts found); [|lia]. by rewrite Hno_human in Eh.
  - intros E%Hno_ai. by rewrite E.
  - intros E%Hno_human. rewrite E. by destruct (ai_avg_engagement found).
  - intros ->. unfold outperforms. destruct (human_avg_engagement found) as [h|]; [|done].
    rewrite bool_decide_false; [done|]. apply Qcle_not_lt, Qcle_refl.
Qed.

Lemma human_unless_ai_is_strictly_better_witness :
  (∀ a b : Qc, (a ≤ b)%Qc → (id a ≤ id b)%Qc)
  ∧ analyze id sample_raw_clean = Some sample_insights
  ∧ finding_of id sample_insights = Human_outperformed.
Proof.
  assert (∀ a b : Qc, (a ≤ b)%Qc → (id a ≤ id b)%Qc) as Hmono by (intros a b H; exact H).
  assert (analyze id sample_raw_clean = Some sample_insights) as H
    by (vm_compute; reflexivity).
  split; [exact Hmono|]. split; [exact H|].
  exact (proj1 (proj2 (proj2 (human_unless_ai_is_strictly_better id _ _ Hmono H)))
           eq_refl).
Defined.

(** X15.  The report is written only for a file with a date in it: when the
    figures are there, the script raises while writing the time period if
    the file has no Date column or none of its dates parses, and in no other
    case.  When it saves the report, the time period runs from the earliest
    to the latest date that parsed. *)
Theorem report_needs_a_date (fl : Qc → Qc) (raw df : DataFrame) (found : insights) :
  load_and_analyze_data fl (Some raw) = Some (found, df) →
  (report_main fl (Some raw) = Raised
   ↔ "Date" ∉ columns raw
     ∨ ∀ ir, ir ∈ records raw → to_datetime_cell (cell_of ir.2 "Date") = NaN)
  ∧ (∀ sentences first last,
       report_main fl (Some raw) = Saved sentences (first, last) →
       sentences = finding_of fl found
       ∧ (∃ ir, ir ∈ records raw
                ∧ to_datetime_cell (cell_of ir.2 "Date") = Timestamp first)
       ∧ (∃ ir, ir ∈ records raw
                ∧ to_datetime_cell (cell_of ir.2 "Date") = Timestamp last)
       ∧ ∀ ir d, ir ∈ records raw →
           to_datetime_cell (cell_of ir.2 "Date") = Timestamp d →
           date_leb first d = true ∧ date_leb d last = true).
Proof.
  intros Hrun. unfold report_main. rewrite Hrun.
  unfold load_and_analyze_data in Hrun. simpl in Hrun.
  destruct (load_dataset raw) as [df'|] eqn:Hload; [|done]. simpl in Hrun.
  destruct (analyze fl df') as [found'|]; [|done]. injection Hrun as -> ->.
  unfold create_analysis_report.
  destruct (decide ("Date" ∈ columns raw)) as [Hcol|Hcol].
  - assert ("Date" ∈ columns df) as Hcol'.
    { rewrite (load_dataset_columns _ _ Hload). by apply clean_columns_elem_of. }
    pose proof (time_period_spec df Hcol' (load_dataset_datetime _ _ Hload Hcol')) as Hp.
    destruct (time_period df) as [[first last]|]; simpl.
    + destruct Hp as (Hfirst & Hlast & Hall). split.
      * split; [done|]. intros [?|Hnone]; [done|].
        apply (load_dataset_dates raw df _ Hload Hcol) in Hfirst as (ir & Hin & Hc).
        by rewrite (Hnone ir Hin) in Hc.
      * intros ? ? ? [= <- <- <-]. split; [done|].
        split; [by apply (load_dataset_dates raw df _ Hload Hcol)|].
        split; [by apply (load_dataset_dates raw df _ Hload Hcol)|].
        intros ir d Hin Hd.
        destruct (proj2 (load_dataset_dates raw df (Timestamp d) Hload Hcol))
          as (jr & Hjr & Hc); [by exists ir|].
        by apply (Hall jr).
    + split; [|done]. split; [|done]. intros _. right. intros ir Hin.
      destruct (proj2 (load_dataset_dates raw df
                         (to_datetime_cell (cell_of ir.2 "Date")) Hload Hcol))
        as (jr & Hjr & Hc); [by exists ir|].
      by rewrite <- Hc, (Hp jr Hjr).
  - rewrite time_period_no_column.
    + simpl. split; [|done]. split; [by left | done].
    + rewrite (load_dataset_columns _ _ Hload). by rewrite clean_columns_elem_of.
Qed.

Section top_content.
Implicit Types (fl : Qc → Qc) (x y z : list cell * option Qc).

Lemma mean_geb_total fl (a b : option Qc) :
  mean_geb fl a b = true ∨ mean_geb fl b a = true.
Proof.
  destruct a as [x|], b as [y|]; simpl; auto.
  rewrite !bool_decide_eq_true.
  destruct (Qclt_le_dec (fl x) (fl y)) as [?%Qclt_le_weak|?]; auto.
Qed.

Lemma mean_geb_trans fl (a b c : option Qc) :
  mean_geb fl a b = true → mean_geb fl b c = true → mean_geb fl a c = true.
Proof.
  destruct a as [x|], b as [y|], c as [z|]; simpl; try done.
  rewrite !bool_decide_eq_true. intros ? ?. by apply Qcle_trans with (fl y).
Qed.

#[local] Instance mean_geb_Total fl : Total (λ x y, mean_geb fl x.2 y.2).
Proof.
  intros x y. destruct (mean_geb_total fl x.2 y.2) as [H|H]; rewrite H;
    [by left | by right].
Qed.

#[local] Instance mean_geb_Transitive fl : Transitive (λ x y, mean_geb fl x.2 y.2).
Proof.
  intros x y z H1%Is_true_true H2%Is_true_true. apply Is_true_true.
  by eapply mean_geb_trans.
Qed.

Lemma head3_descending_spec fl (means : list (list cell * option Qc)) :
  ∃ rest,
    head3_descending fl means ++ rest ≡ₚ means
    ∧ length (head3_descending fl means) = (3 `min` length means)%nat
    ∧ StronglySorted (λ x y, mean_geb fl x.2 y.2 = true) (head3_descending fl means)
    ∧ ∀ x y, x ∈ head3_descending fl means → y ∈ rest → mean_geb fl x.2 y.2 = true.
Proof.
  unfold head3_descending.
  exists (drop 3 (merge_sort (λ a b, mean_geb fl a.2 b.2) means)).
  pose proof (StronglySorted_merge_sort (λ x y, mean_geb fl x.2 y.2) means) as Hs.
  rewrite <- (take_drop 3 (merge_sort _ means)) in Hs.
  apply StronglySorted_app in Hs as (Hcross & Htake & _).
  split; [by rewrite take_drop, merge_sort_Permutation|].
  split; [rewrite length_take; by rewrite merge_sort_Permutation|].
  split.
  - clear Hcross. induction Htake as [|x l _ IH Hx]; [constructor|].
    constructor; [done|].
    eapply Forall_impl; [exact Hx|]. intros y Hy. by apply Is_true_true.
  - intros x y Hx Hy. apply Is_true_true. by apply Hcross.
Qed.
End top_content.

(** X16.  The content types that the report lists as the top three are at
    most three, they are as many as there are content types when there are
    fewer, they are in descending order of their average engagement, and no
    content type that is left out has a larger average than one that is
    listed; a type whose average is [NaN] comes after all others. *)
Theorem top_content_types_are_the_largest (fl : Qc → Qc) (df : DataFrame)
    (found : insights) :
  analyze fl df = Some found →
  ∃ by_content rest,
    groupby_mean ["Content_Type"] "Engagement_Score" df = Some by_content
    ∧ top_content_types found ++ rest ≡ₚ by_content
    ∧ length (top_content_types found) = (3 `min` length by_content)%nat
    ∧ StronglySorted (λ x y, mean_geb fl x.2 y.2 = true) (top_content_types found)
    ∧ ∀ x y, x ∈ top_content_types found → y ∈ rest → mean_geb fl x.2 y.2 = true.
Proof.
  intros (ai_data & human_data & g2 & g1 & H)%analyze_Some.
  destruct H as (_ & _ & _ & _ & _ & _ & _ & _ & _ & _ & _ & Hg & _ & _ & _ & _ & ->).
  destruct (head3_descending_spec fl g1) as (rest & H).
  by exists g1, rest.
Qed.

Lemma top_content_types_are_the_largest_witness :
  analyze id sample_raw_clean = Some sample_insights
  ∧ length (top_content_types sample_insights) = 2%nat.
Proof.
  assert (analyze id sample_raw_clean = Some sample_insights) as H
    by (vm_compute; reflexivity).
  split; [exact H|].
  destruct (top_content_types_are_the_largest id _ _ H) as (g & rest & _). reflexivity.
Defined.

(** ** The pivot *)

Section pivot.
Context {R : Type}.
Implicit Types (grouped : list (list cell * R)) (a b : cell) (v : R)
  (row : list (cell * option R)).

Lemma elem_of_unstack grouped a row :
  (a, row) ∈ unstack grouped
  ↔ (∃ kv, kv ∈ grouped ∧ kv.1 !! 0%nat = Some a)
    ∧ row = (λ b, (b, snd <$> head (filter (λ kv, kv.1 = [a; b]) grouped)))
              <$> merge_sort (λ a b, cell_leb a b)
                    (remove_dups (omap (λ kv, kv.1 !! 1%nat) grouped)).
Proof.
  unfold unstack. rewrite list_elem_of_fmap. split.
  - intros (a' & [= <- ->] & Hin). split; [|done].
    by rewrite elem_of_remove_dups, list_elem_of_omap in Hin.
  - intros [Hin ->]. exists a. split; [done|].
    by rewrite elem_of_remove_dups, list_elem_of_omap.
Qed.

Lemma elem_of_unstack_row grouped a row b (m : option R) :
  (a, row) ∈ unstack grouped → (b, m) ∈ row →
  (∃ kv, kv ∈ grouped ∧ kv.1 !! 1%nat = Some b)
  ∧ m = snd <$> head (filter (λ kv, kv.1 = [a; b]) grouped).
Proof.
  intros [_ ->]%elem_of_unstack (b' & [= <- ->] & Hin)%list_elem_of_fmap.
  split; [|done].
  by rewrite merge_sort_Permutation, elem_of_remove_dups, list_elem_of_omap in Hin.
Qed.

Lemma unstack_Some grouped a row b v :
  (a, row) ∈ unstack grouped → (b, Some v) ∈ row → ([a; b], v) ∈ grouped.
Proof.
  intros Hrow [_ Hm]%(elem_of_unstack_row _ _ _ _ _ Hrow).
  destruct (head _) as [[k v']|] eqn:Hhead; [|done]. injection Hm as ->.
  apply head_Some_elem_of, list_elem_of_filter in Hhead as [Hk Hin].
  simpl in Hk. by subst k.
Qed.

Lemma unstack_None grouped a row b :
  (a, row) ∈ unstack grouped → (b, None) ∈ row → ∀ v, ([a; b], v) ∉ grouped.
Proof.
  intros Hrow [_ Hm]%(elem_of_unstack_row _ _ _ _ _ Hrow) v Hin.
  destruct (head _) as [kv|] eqn:Hhead; [done|].
  apply head_None in Hhead.
  assert (([a; b], v) ∈ filter (λ kv, kv.1 = [a; b]) grouped) as Hf
    by (by apply list_elem_of_filter).
  rewrite Hhead in Hf. by apply elem_of_nil in Hf.
Qed.

Lemma NoDup_fst_unique {K} (l : list (K * R)) (k : K) (v v' : R) :
  NoDup (l.*1) → (k, v) ∈ l → (k, v') ∈ l → v' = v.
Proof.
  induction l as [|[k1 v1] l IH]; [by intros _ ?%elem_of_nil|].
  rewrite fmap_cons. intros [Hk1 Hnd]%NoDup_cons Hin Hin'.
  apply elem_of_cons in Hin as [[= <- <-]|Hin];
    apply elem_of_cons in Hin' as [[= <-]|Hin'].
  - done.
  - destruct Hk1. apply list_elem_of_fmap. by exists (k, v').
  - subst. destruct Hk1. apply list_elem_of_fmap. by exists (k, v).
  - by apply IH.
Qed.

Lemma unstack_complete grouped a b v :
  NoDup (grouped.*1) → ([a; b], v) ∈ grouped →
  ∃ row, (a, row) ∈ unstack grouped ∧ (b, Some v) ∈ row.
Proof.
  intros Hnd Hin. eexists. split.
  - apply elem_of_unstack. split; [|done]. by exists ([a; b], v).
  - apply list_elem_of_fmap. exists b. split.
    + f_equal.
      assert (([a; b], v) ∈ filter (λ kv, kv.1 = [a; b]) grouped) as Hf
        by (by apply list_elem_of_filter).
      destruct (filter _ grouped) as [|[k v'] l] eqn:E;
        [by apply elem_of_nil in Hf|].
      assert ((k, v') ∈ filter (λ kv, kv.1 = [a; b]) grouped)
        as [Hk Hin']%list_elem_of_filter by (rewrite E; by left).
      simpl in *. subst k. do 2 f_equal. by eapply NoDup_fst_unique.
    + rewrite merge_sort_Permutation, elem_of_remove_dups, list_elem_of_omap.
      by exists ([a; b], v).
Qed.

Lemma unstack_rectangular grouped a row a' (row' : list (cell * option R)) :
  (a, row) ∈ unstack grouped → (a', row') ∈ unstack grouped → row.*1 = row'.*1.
Proof.
  intros [_ ->]%elem_of_unstack [_ ->]%elem_of_unstack.
  rewrite <- !list_fmap_compose. by apply list_fmap_ext.
Qed.

Lemma raise_groups_keys (groups : list (list cell * option R))
    (l : list (list cell * R)) :
  raise_groups groups = Some l → l.*1 = groups.*1.
Proof.
  unfold raise_groups. intros F%mapM_Some.
  induction F as [|[k o] kv g l' H _ IH]; [done|].
  csimpl. rewrite IH. simpl in H. destruct o; by simplify_eq/=.
Qed.
End pivot.

(** X17.  The table of content types and author types in the report is the
    pivot of the grouped means: the cell of a content type and an author
    type holds the mean engagement of the records with that content type and
    that author type, and is empty exactly when there is no such record;
    every row has the same author types, in the same order. *)
Theorem content_performance_is_the_pivot (fl : Qc → Qc) (df : DataFrame)
    (found : insights) :
  analyze fl df = Some found →
  (∀ a b m,
     (∃ row, (a, row) ∈ content_performance found ∧ (b, Some m) ∈ row)
     ↔ [a; b] ∈ group_keys ["Content_Type"; "Author_Type"] df
       ∧ series_mean
           (group_values ["Content_Type"; "Author_Type"] "Engagement_Score" [a; b] df)
         = Some m)
  ∧ (∀ a row b,
       (a, row) ∈ content_performance found → (b, None) ∈ row →
       [a; b] ∉ group_keys ["Content_Type"; "Author_Type"] df)
  ∧ (∀ a row a' row',
       (a, row) ∈ content_performance found → (a', row') ∈ content_performance found →
       row.*1 = row'.*1).
Proof.
  intros (ai_data & human_data & g2 & g1 & H)%analyze_Some.
  destruct H as (_ & _ & _ & _ & _ & _ & _ & _ & _ & _ & [_ Hg]%groupby_mean_Some
                 & _ & _ & _ & _ & -> & _).
  assert (∀ k m, (k, m) ∈ g2
            ↔ k ∈ group_keys ["Content_Type"; "Author_Type"] df
              ∧ series_mean
                  (group_values ["Content_Type"; "Author_Type"] "Engagement_Score" k df)
                = Some m) as Hg2.
  { intros k m. rewrite (elem_of_raise_groups _ _ _ _ Hg), elem_of_groupby_agg.
    split; intros [? ?]; by split. }
  split; [|split].
  - intros a b m. rewrite <- Hg2. split.
    + intros (row & Hrow & Hb). by eapply unstack_Some.
    + apply unstack_complete. rewrite (raise_groups_keys _ _ Hg), groupby_agg_keys.
      apply group_keys_NoDup.
  - intros a row b Hrow Hb Hk.
    assert (is_Some (series_mean
              (group_values ["Content_Type"; "Author_Type"] "Engagement_Score" [a; b] df)))
      as [m Hm].
    { assert ([a; b] ∈ g2.*1) as ([k m] & Ek & Hin)%list_elem_of_fmap.
      { by rewrite (raise_groups_keys _ _ Hg), groupby_agg_keys. }
      simpl in Ek. subst k. apply Hg2 in Hin as [_ Hin]. by exists m. }
    apply (unstack_None _ _ _ _ Hrow Hb m), Hg2. by split.
  - intros a row a' row'. apply unstack_rectangular.
Qed.

Lemma content_performance_is_the_pivot_witness :
  analyze id sample_raw_clean = Some sample_insights
  ∧ [Str "Video"; Str "Ai"]
    ∉ group_keys ["Content_Type"; "Author_Type"] sample_raw_clean.
Proof.
  assert (analyze id sample_raw_clean = Some sample_insights) as H
    by (vm_compute; reflexivity).
  split; [exact H|].
  apply (proj1 (proj2 (content_performance_is_the_pivot id _ _ H))
           (Str "Video")
           [(Str "Ai", None); (Str "Nan", Some (Some (Q2Qc (8 # 1))));
            (Str "Robot Writer", None)]).
  - apply (bool_decide_unpack _). vm_compute. exact I.
  - by left.
Defined.

End any_library.

(** * The pipeline on sample frames

    The frames are loaded under pandas 2 where nothing else is said. *)

(** ** The engagement score *)

Lemma sample_posts_load :
  load_dataset (installed := pandas_2) sample_posts = Some sample_posts_clean.
Proof. vm_compute. reflexivity. Qed.


Lemma sample_raw_load :
  load_dataset (installed := pandas_2) sample_raw = Some sample_raw_clean.
Proof. vm_compute. reflexivity. Qed.

Lemma score_components_unchanged_witness :
  load_dataset (installed := pandas_2) sample_raw = Some sample_raw_clean
  ∧ ∀ k r', (k, r') ∈ records sample_raw_clean →
      ∃ i r, (i, r) ∈ records sample_raw
             ∧ clean_record (installed := pandas_2) (columns sample_raw) r = Some r'
             ∧ r' !! "Likes" = r !! "Likes"
             ∧ r' !! "Comments" = r !! "Comments"
             ∧ r' !! "Shares" = r !! "Shares".
Proof.
  assert (load_dataset (installed := pandas_2) sample_raw = Some sample_raw_clean)
    as Hload by (vm_compute; reflexivity).
  split; [exact Hload|].
  exact (proj1 (proj2 (score_components_unchanged sample_raw sample_raw_clean Hload))).
Defined.

(** ** The author type *)

Example clean_author_ai : clean_author (installed := pandas_2) (Str "ai ") = Str "Ai".
Proof. reflexivity. Qed.

Example clean_author_human :
  clean_author (installed := pandas_2) (Str "  HUMAN") = Str "Human".
Proof. reflexivity. Qed.

Example clean_author_unexpected :
  clean_author (installed := pandas_2) (Str " ghost-writer (x2)	") = Str "Ghost-Writer (X2)".
Proof. reflexivity. Qed.

Example clean_author_missing : clean_author (installed := pandas_2) NaN = Str "Nan".
Proof. reflexivity. Qed.

Example clean_author_missing_3 : clean_author (installed := pandas_3) NaN = NaN.
Proof. reflexivity. Qed.


Example load_without_optional_columns :
  load_dataset (installed := pandas_2) {| columns := ["Content_Type"];
                  records := [(0%nat, record_of [("Content_Type", Str "Blog")]);
                              (1%nat, record_of [("Content_Type", Str "Blog")])] |}
  = Some {| columns := ["Content_Type"];
            records := [(0%nat, record_of [("Content_Type", Str "Blog")])] |}.
Proof. vm_compute. reflexivity. Qed.

(** Text among the counts makes the sum fail. *)
Example load_with_text_in_counts :
  load_dataset (installed := pandas_2) {| columns := ["Likes"; "Comments"; "Shares"];
                  records := [(0%nat, record_of [("Likes", Str "many"); ("Comments", Int 1);
                                                 ("Shares", Int 0)])] |}
  = None.
Proof. vm_compute. reflexivity. Qed.

Lemma sample_raw_load_3 :
  load_dataset (installed := pandas_3) sample_raw = Some sample_raw_clean_3.
Proof. vm_compute. reflexivity. Qed.

(** Under pandas 3 the post without an author has no author once cleaned. *)
Lemma missing_author_stays_missing :
  ¬ author_types_as_specified (installed := pandas_3) sample_raw.
Proof.
  intros H.
  specialize (H sample_raw_clean_3 sample_raw_load_3 1%nat
                (record_of [("Date", NaN); ("Author_Type", NaN);
                            ("Content_Type", Str "Video"); ("Likes", NaN);
                            ("Comments", Int 4); ("Shares", NaN);
                            ("Engagement_Score", Int 8)])).
  assert (true = false) as Habs; [|done].
  apply H. apply (bool_decide_unpack _). vm_compute. exact I.
Qed.

Lemma missing_author_types_witness :
  load_dataset (installed := pandas_2) sample_raw = Some sample_raw_clean
  ∧ "Author_Type" ∈ columns sample_raw
  ∧ ∀ k r', (k, r') ∈ records sample_raw_clean →
      (∃ s, r' !! "Author_Type" = Some (Str s))
      ∨ (pandas_2 = pandas_3 ∧ r' !! "Author_Type" = Some NaN
         ∧ ∃ i r, (i, r) ∈ records sample_raw
                  ∧ clean_record (installed := pandas_2) (columns sample_raw) r = Some r'
                  ∧ cell_of r "Author_Type" = NaN).
Proof.
  assert (load_dataset (installed := pandas_2) sample_raw = Some sample_raw_clean)
    as Hload by (vm_compute; reflexivity).
  assert ("Author_Type" ∈ columns sample_raw) as Hcol
    by (apply (bool_decide_unpack _); vm_compute; exact I).
  split; [exact Hload|]. split; [exact Hcol|].
  exact (proj1 (missing_author_types sample_raw sample_raw_clean Hload Hcol)).
Defined.

(** ** Dates *)

Example strptime_day_month_year :
  strptime_dmy (installed := pandas_2) "15-03-2024" = Some (Date 2024 3 15).
Proof. reflexivity. Qed.

Example strptime_short_fields :
  strptime_dmy (installed := pandas_2) "5-3-2024" = Some (Date 2024 3 5).
Proof. reflexivity. Qed.

Example strptime_year_first : strptime_dmy (installed := pandas_2) "2024-03-15" = None.
Proof. reflexivity. Qed.

Example strptime_no_such_day : strptime_dmy (installed := pandas_2) "31-02-2024" = None.
Proof. reflexivity. Qed.

Example strptime_trailing_text :
  strptime_dmy (installed := pandas_2) "15-03-2024 10:00" = None.
Proof. reflexivity. Qed.

(** A date after the last nanosecond timestamp is a date for pandas 3. *)
Example strptime_far_future :
  strptime_dmy (installed := pandas_2) "01-01-2500" = None
  ∧ strptime_dmy (installed := pandas_3) "01-01-2500" = Some (Date 2500 1 1).
Proof. split; reflexivity. Qed.

Lemma sample_undated_load :
  load_dataset (installed := pandas_2) sample_undated = Some sample_undated_clean.
Proof. vm_compute. reflexivity. Qed.

(** Two posts with two dates that do not parse come out as one post. *)
Lemma unparseable_dates_merge_records :
  ¬ unparseable_as_specified (installed := pandas_2) sample_undated.
Proof.
  intros H. specialize (H sample_undated_clean sample_undated_load).
  vm_compute in H. lia.
Qed.

Lemma unparseable_dates_become_null_witness :
  "Date" ∈ columns sample_raw
  ∧ (scores_defined sample_raw →
     ∃ out d,
       load_dataset (installed := pandas_2) sample_raw = Some out
       ∧ cleaned (installed := pandas_2) sample_raw = Some d
       ∧ (∀ i r, (i, r) ∈ records sample_raw →
            ∃ k r', (k, r') ∈ records out
                    ∧ clean_record (installed := pandas_2) (columns sample_raw) r = Some r'
                    ∧ r' !! "Date"
                      = Some (to_datetime_cell (installed := pandas_2) (cell_of r "Date"))
                    ∧ (∀ s, r !! "Date" = Some (Str s) → is_ascii s = true →
                         strptime_dmy (installed := pandas_2) s = None →
                         r' !! "Date" = Some NaN))
       ∧ (NoDup (snd <$> records d) →
          snd <$> records out = snd <$> records d
          ∧ length (records out) = length (records sample_raw))).
Proof.
  assert ("Date" ∈ columns sample_raw) as Hcol
    by (apply (bool_decide_unpack _); vm_compute; exact I).
  split; [exact Hcol|].
  exact (proj2 (proj2 (proj2 (proj2 (unparseable_dates_become_null sample_raw Hcol))))).
Defined.

(** ** Duplicates *)

Lemma sample_respelt_load :
  load_dataset (installed := pandas_2) sample_respelt = Some sample_respelt_clean
  ∧ length (records sample_respelt_clean) = 1%nat
  ∧ distinct_records sample_respelt = 2%nat.
Proof. vm_compute. done. Qed.

(** The input has two distinct records, "ai " and "Ai"; once cleaned they
    are one, and the result has one record. *)
Lemma size_is_not_distinct_input_records :
  ¬ size_as_specified (installed := pandas_2) sample_respelt.
Proof.
  intros H. destruct sample_respelt_load as (Hload & Hlen & Hdistinct).
  pose proof (H _ Hload) as E. rewrite Hlen in E. rewrite Hdistinct in E.
  discriminate E.
Qed.

Lemma duplicates_dropped_witness :
  load_dataset (installed := pandas_2) sample_respelt = Some sample_respelt_clean
  ∧ ∃ d, cleaned (installed := pandas_2) sample_respelt = Some d
         ∧ NoDup (snd <$> records sample_respelt_clean)
         ∧ (∀ p q ir jr, records sample_respelt_clean !! p = Some ir →
              records sample_respelt_clean !! q = Some jr →
              p ≠ q → ¬ ∀ name, ir.2 !! name = jr.2 !! name)
         ∧ (well_formed sample_respelt →
            ∀ p q ir jr, records sample_respelt_clean !! p = Some ir →
              records sample_respelt_clean !! q = Some jr →
              p ≠ q →
              ¬ ∀ name, name ∈ columns sample_respelt_clean →
                  cell_of ir.2 name = cell_of jr.2 name)
         ∧ length (records sample_respelt_clean) = distinct_records d
         ∧ (length (records sample_respelt_clean) ≤ distinct_records sample_respelt)%nat
         ∧ snd <$> records sample_respelt_clean = first_occurrences (records d)
         ∧ fst <$> records sample_respelt_clean
           = seq 0 (length (records sample_respelt_clean)).
Proof.
  assert (load_dataset (installed := pandas_2) sample_respelt = Some sample_respelt_clean)
    as Hload by (vm_compute; reflexivity).
  split; [exact Hload|].
  exact (duplicates_dropped sample_respelt sample_respelt_clean Hload).
Defined.

(** ** The script data.py *)

(** A date that does not parse stops the script, and so does a frame without
    one of the columns. *)
Example data_cleaning_unparseable_date :
  data_cleaning (installed := pandas_2) sample_raw = None.
Proof. vm_compute. reflexivity. Qed.

Example data_cleaning_missing_column :
  data_cleaning (installed := pandas_2) sample_posts = None.
Proof. vm_compute. reflexivity. Qed.

(** The duplicates go first: two spellings of one post are both kept, and
    the labels keep the gap of the record that went. *)
Example data_cleaning_respelt :
  let post author :=
    record_of [("Date", Str "15-03-2024"); ("Author_Type", Str author);
               ("Likes", Int 10); ("Comments", Int 2); ("Shares", Int 1)] in
  let cleaned_post :=
    record_of [("Date", Timestamp (Date 2024 3 15)); ("Author_Type", Str "Ai");
               ("Likes", Int 10); ("Comments", Int 2); ("Shares", Int 1);
               ("Engagement_Score", Int 17)] in
  data_cleaning (installed := pandas_2)
    {| columns := ["Date"; "Author_Type"; "Likes"; "Comments"; "Shares"];
       records := [(0%nat, post "ai "); (1%nat, post "ai "); (2%nat, post "Ai")] |}
  = Some {| columns := ["Date"; "Author_Type"; "Likes"; "Comments"; "Shares";
                        "Engagement_Score"];
            records := [(0%nat, cleaned_post); (2%nat, cleaned_post)] |}.
Proof. vm_compute. reflexivity. Qed.

(** ** The charts and the indicators *)

Lemma engagement_share_adds_up_witness :
  load_dataset (installed := pandas_2) sample_raw = Some sample_raw_clean
  ∧ issubset ["Author_Type"; "Likes"; "Comments"; "Shares"] (columns sample_raw) = true
  ∧ (∀ name, name ∈ ["Likes"; "Comments"; "Shares"] →
       forallb is_numeric (getitem name sample_raw) = true)
  ∧ exact_totals sample_raw
  ∧ (pandas_2 = pandas_3 → Forall (λ c, c ≠ NaN) (getitem "Author_Type" sample_raw))
  ∧ apply_filters None None [] [Str "Blog"] sample_raw_clean
    = Some sample_blogs
  ∧ ∃ slices likes comments shares,
      engagement_share sample_blogs
      = Some (Some slices)
      ∧ foldr Z.add 0 (snd <$> slices) = likes + 2 * comments + 3 * shares
      ∧ exact_count (likes + 2 * comments + 3 * shares).
Proof.
  assert (load_dataset (installed := pandas_2) sample_raw = Some sample_raw_clean)
    as Hload by (vm_compute; reflexivity).
  assert (issubset ["Author_Type"; "Likes"; "Comments"; "Shares"] (columns sample_raw)
          = true) as Hcols by (vm_compute; reflexivity).
  assert (∀ name, name ∈ ["Likes"; "Comments"; "Shares"] →
            forallb is_numeric (getitem name sample_raw) = true) as Hnum.
  { intros name Hname.
    repeat (apply elem_of_cons in Hname as [->|Hname]; [vm_compute; reflexivity|]).
    by apply elem_of_nil in Hname. }
  assert (exact_totals sample_raw) as Hexact
    by (apply (bool_decide_unpack _); vm_compute; exact I).
  assert (pandas_2 = pandas_3 → Forall (λ c, c ≠ NaN) (getitem "Author_Type" sample_raw))
    as Hmissing by (intros [=]).
  assert (apply_filters None None [] [Str "Blog"] sample_raw_clean = Some sample_blogs)
    as Hf by (vm_compute; reflexivity).
  split; [exact Hload|]. split; [exact Hcols|]. split; [exact Hnum|].
  split; [exact Hexact|]. split; [exact Hmissing|]. split; [exact Hf|].
  destruct (engagement_share_adds_up _ _ _ _ _ _ _ Hload Hcols Hnum Hexact Hmissing Hf)
    as (slices & likes & comments & shares & H1 & _ & _ & _ & H5 & _ & H7).
  by exists slices, likes, comments, shares.
Defined.


(** ** Cleaning twice *)

Lemma load_dataset_idempotent_witness :
  load_dataset (installed := pandas_2) sample_raw = Some sample_raw_clean
  ∧ Forall (λ c, ascii_text c = true) (getitem "Author_Type" sample_raw)
  ∧ load_dataset (installed := pandas_2) sample_raw_clean = Some sample_raw_clean
  ∧ Forall (λ c, ascii_text c = true) (getitem "Author_Type" sample_raw_clean).
Proof.
  assert (load_dataset (installed := pandas_2) sample_raw = Some sample_raw_clean) as H
    by (vm_compute; reflexivity).
  assert (Forall (λ c, ascii_text c = true) (getitem "Author_Type" sample_raw)) as Hascii
    by (by repeat constructor).
  split; [exact H|]. split; [exact Hascii|].
  exact (load_dataset_idempotent _ _ H Hascii).
Defined.

(** ** The report *)

Example report_on_sample :
  is_Some (load_and_analyze_data (installed := pandas_2) id (Some sample_raw)).
Proof. by eexists; vm_compute. Qed.

Example report_without_counts :
  load_and_analyze_data (installed := pandas_2) id (Some sample_posts) = None.
Proof. vm_compute. reflexivity. Qed.

Lemma report_needs_a_date_witness :
  load_and_analyze_data (installed := pandas_2) id (Some sample_raw)
  = Some (sample_insights, sample_raw_clean)
  ∧ report_main (installed := pandas_2) id (Some sample_raw)
    = Saved Human_outperformed (Date 2024 3 15, Date 2024 3 15)
  ∧ ¬ ("Date" ∉ columns sample_raw
       ∨ ∀ ir, ir ∈ records sample_raw →
           to_datetime_cell (installed := pandas_2) (cell_of ir.2 "Date") = NaN).
Proof.
  assert (load_and_analyze_data (installed := pandas_2) id (Some sample_raw)
          = Some (sample_insights, sample_raw_clean)) as H by (vm_compute; reflexivity).
  split; [exact H|]. split; [vm_compute; reflexivity|].
  intros Hnone%(proj1 (report_needs_a_date id _ _ _ H)).
  vm_compute in Hnone. discriminate Hnone.
Defined.

(** Dates written year first do not parse: the figures are computed, the
    script raises on the time period. *)
Example report_raises_on_year_first_dates :
  is_Some (load_and_analyze_data (installed := pandas_2) id (Some sample_year_first))
  ∧ report_main (installed := pandas_2) id (Some sample_year_first) = Raised.
Proof. split; [by eexists; vm_compute | vm_compute; reflexivity]. Qed.
